(** * Gate.io futures spread trader: a shallow embedding of
      [enhanced_futures_trader.py] and the properties of its trading engine.

    The development follows the Python class [GateFuturesTrader]:
    - [PyDecimal] models the [decimal.Decimal] values the prices are held in,
      under the default context of the interpreter (28 significant digits,
      round-half-even, exponents in [-999999, 999999], overflow trapped);
    - [Wire] models the JSON envelope built by [_request] and the
      hexadecimal digest of [get_sign];
    - the records [config], [position], [ticker], [trade_record] and
      [trader] model the attributes of the object, and the methods are
      written in a small state-and-exception monad that keeps the mutations
      made before an exception is caught, as Python does.

    Prices are finite decimals: NaN and the infinities are outside the model.
    The sign of a zero is kept, as in Python, but plays no role in a
    comparison.  The clock and the HMAC digest are supplied from outside
    ([env]); the heartbeat thread, which touches only the socket, is not
    modelled. *)

From Stdlib Require Import ZArith String Ascii DecimalString Decimal.
From Stdlib.Strings Require Import Byte.
From stdpp Require Import gmap strings list.

Open Scope Z_scope.

(** ** Python's [decimal.Decimal], default context *)

Module PyDecimal.

(** A finite decimal is [(-1)^sign * coeff * 10^expo], with [0 <= coeff];
    Python keeps the triple [(_sign, _int, _exp)]. *)
Record t : Type := mk { sign : bool; coeff : Z; expo : Z }.

(** [getcontext()] of a fresh interpreter. *)
Definition prec : Z := 28.
Definition Emax : Z := 999999.
Definition Emin : Z := -999999.
Definition Etiny : Z := Emin - prec + 1.
Definition Etop : Z := Emax - prec + 1.

(** [Decimal(n)] for a Python [int]. *)
Definition of_int (n : Z) : t := mk (n <? 0) (Z.abs n) 0.

(** [len(self._int)]: the number of decimal digits, 1 for zero. *)
Definition ndigits (c : Z) : Z :=
  Z.of_nat (Decimal.nb_digits (N.to_uint (Z.to_N c))).

Definition is_zero (d : t) : bool := coeff d =? 0.

(** The signed coefficient, for exact arithmetic on aligned operands. *)
Definition signed (d : t) : Z := if sign d then - coeff d else coeff d.

(** [self._cmp(other)] on finite operands: the order of the values. *)
Definition cmp (a b : t) : comparison :=
  let e := Z.min (expo a) (expo b) in
  Z.compare (signed a * 10 ^ (expo a - e)) (signed b * 10 ^ (expo b - e)).

Definition leb (a b : t) : bool :=
  match cmp a b with Gt => false | _ => true end.
Definition ltb (a b : t) : bool :=
  match cmp a b with Lt => true | _ => false end.
Definition gtb (a b : t) : bool := ltb b a.
Definition eqb (a b : t) : bool :=
  match cmp a b with Eq => true | _ => false end.

(** [_round_half_even] on a coefficient split at the kept digits into
    quotient [q] and remainder [r] out of [10^k]: [1] rounds away from
    zero, [0] is exact, [-1] truncates. *)
Definition round_half_even (q r k : Z) : Z :=
  let half := 5 * 10 ^ (k - 1) in
  if (r =? half) && Z.even q then -1
  else if half <=? r then 1
  else if r =? 0 then 0
  else -1.

(** [Decimal._fix(context)]: round to [prec] digits and bring the exponent
    into range.  [None] is the trapped [Overflow]; the signals that are not
    trapped by default (Rounded, Inexact, Subnormal, Underflow, Clamped)
    leave no trace. *)
Definition fix_ (d : t) : option t :=
  if is_zero d then
    Some (mk (sign d) 0 (Z.min (Z.max (expo d) Etiny) Emax))
  else
    let exp_min0 := ndigits (coeff d) + expo d - prec in
    if Etop <? exp_min0 then None
    else
      let exp_min := Z.max exp_min0 Etiny in
      if expo d <? exp_min then
        let digits := ndigits (coeff d) + expo d - exp_min in
        (* fewer than zero digits kept: Python rounds 1E(exp_min-1) instead *)
        let c := if digits <? 0 then 1 else coeff d in
        let e := if digits <? 0 then exp_min - 1 else expo d in
        let k := exp_min - e in
        let q := c / 10 ^ k in
        let r := c mod 10 ^ k in
        let changed := round_half_even q r k in
        let coeff1 := if 0 <? changed then q + 1 else q in
        let carry := prec <? ndigits coeff1 in
        let coeff2 := if carry then coeff1 / 10 else coeff1 in
        let exp2 := if carry then exp_min + 1 else exp_min in
        if Etop <? exp2 then None
        else Some (mk (sign d) coeff2 exp2)
      else Some d.

(** [abs(x)]: [copy_abs] followed by [_fix]. *)
Definition abs (a : t) : option t := fix_ (mk false (coeff a) (expo a)).

(** [a - b]: the exact difference at the smaller exponent, then [_fix]
    (the value the decimal arithmetic specification gives; the
    interpreter's shortcut for far-apart exponents rounds to the same
    value).  An exact zero difference is positive under round-half-even. *)
Definition sub (a b : t) : option t :=
  let e := Z.min (expo a) (expo b) in
  let v := signed a * 10 ^ (expo a - e) - signed b * 10 ^ (expo b - e) in
  let s := if v =? 0 then sign a && negb (sign b) else v <? 0 in
  fix_ (mk s (Z.abs v) e).

(** [a * b]. *)
Definition mul (a b : t) : option t :=
  fix_ (mk (xorb (sign a) (sign b)) (coeff a * coeff b) (expo a + expo b)).

(** Strip trailing zeros of an exact quotient while the exponent is below
    the ideal one ([while exp < ideal_exp and coeff % 10 == 0]). *)
Fixpoint to_ideal (fuel : nat) (c e ideal : Z) : Z * Z :=
  match fuel with
  | O => (c, e)
  | S fuel' =>
      if (e <? ideal) && (c mod 10 =? 0)
      then to_ideal fuel' (c / 10) (e + 1) ideal
      else (c, e)
  end.

(** [a / b] ([__truediv__]).  [None] is a trapped signal: division by zero
    or an overflow in [_fix]. *)
Definition div (a b : t) : option t :=
  let s := xorb (sign a) (sign b) in
  if is_zero b then None
  else if is_zero a then fix_ (mk s 0 (expo a - expo b))
  else
    let shift := ndigits (coeff b) - ndigits (coeff a) + prec + 1 in
    let e := expo a - expo b - shift in
    let '(c, rem) :=
      if 0 <=? shift
      then (coeff a * 10 ^ shift / coeff b, coeff a * 10 ^ shift mod coeff b)
      else (coeff a / (coeff b * 10 ^ (- shift)),
            coeff a mod (coeff b * 10 ^ (- shift))) in
    if negb (rem =? 0) then
      fix_ (mk s (if c mod 5 =? 0 then c + 1 else c) e)
    else
      let '(c', e') :=
        to_ideal (Z.to_nat (ndigits c)) c e (expo a - expo b) in
      fix_ (mk s c' e').

(** Literals of the source. *)
Definition zero : t := mk false 0 0.               (* Decimal('0') *)
Definition one_point_zero : t := mk false 10 (-1). (* Decimal('1.0') *)
Definition hundred : t := mk false 100 0.          (* Decimal('100') *)
Definition d0_9999 : t := mk false 9999 (-4).      (* Decimal('0.9999') *)
Definition d1_0001 : t := mk false 10001 (-4).     (* Decimal('1.0001') *)

End PyDecimal.

Abbreviation decimal := PyDecimal.t.

(** ** The wire format: JSON values, hex digests *)

Module Wire.

(** The values [json.dumps] serialises.  An object keeps its keys in
    insertion order, as a Python [dict] does. *)
Inductive json : Type :=
| JNull
| JBool (b : bool)
| JInt (n : Z)
| JStr (s : string)
| JList (l : list json)
| JObj (fields : list (string * json)).

(** [obj.get(key)] on a JSON object. *)
Fixpoint assoc (key : string) (fields : list (string * json)) : option json :=
  match fields with
  | [] => None
  | (k, v) :: rest => if String.eqb k key then Some v else assoc key rest
  end.

Definition json_get (key : string) (j : json) : option json :=
  match j with
  | JObj fields => assoc key fields
  | _ => None
  end.

(** [str(n)] and [f'{n}'] for a Python [int]. *)
Definition str_int (n : Z) : string := NilZero.string_of_int (Z.to_int n).

(** [f'{event}'] for an optional string: [None] prints as [None]. *)
Definition str_opt (o : option string) : string :=
  match o with
  | Some s => s
  | None => "None"
  end.

Definition json_opt (o : option string) : json :=
  match o with
  | Some s => JStr s
  | None => JNull
  end.

(** [bytes.hex()]: two lowercase hexadecimal digits per byte. *)
Definition hex_digit (n : N) : ascii :=
  match String.get (N.to_nat n) "0123456789abcdef" with
  | Some c => c
  | None => "0"%char
  end.

Definition hex_of_byte (b : byte) : string :=
  String (hex_digit (N.div (Byte.to_N b) 16))
    (String (hex_digit (N.modulo (Byte.to_N b) 16)) EmptyString).

Fixpoint hexdigest (digest : list byte) : string :=
  match digest with
  | [] => EmptyString
  | b :: rest => hex_of_byte b ++ hexdigest rest
  end.

Definition is_lower_hex (c : ascii) : bool :=
  let n := N_of_ascii c in
  ((48 <=? n) && (n <=? 57) || (97 <=? n) && (n <=? 102))%N.

(** The canonical string that is signed. *)
Definition canonical (channel : string) (event : option string) (time : Z) : string :=
  "channel=" ++ channel ++ "&event=" ++ str_opt event ++ "&time=" ++ str_int time.

End Wire.

Export Wire.

(** ** The trader object *)

(** What the interpreter and its libraries supply: the readings of
    [time.time()] (the [n]-th call of a run returns [time_time n], in
    microseconds) and the digest of [hmac.new(key, msg, hashlib.sha512)]. *)
Record env : Type := {
  time_time : nat -> Z;
  hmac_sha512 : string -> string -> list byte
}.

(** [int(t)] for a clock reading: truncation to whole seconds. *)
Definition int_seconds (t : Z) : Z := Z.quot t 1000000.

(** [self.config]: the attributes set in [__init__] (or overridden by
    [main]) and never written afterwards. *)
Record config : Type := {
  api_key : string;
  api_secret : string;
  contracts : list string;
  trade_amount : Z;
  max_trades : Z;
  spread_threshold : decimal
}.

(** An entry of [self.current_position]. *)
Record position : Type := {
  size : Z;
  entry_price : decimal;
  entry_time : Z
}.

(** An entry of [self.tickers]. *)
Record ticker : Type := {
  last : decimal;
  bid : decimal;
  ask : decimal;
  volume : decimal;
  change_24h : decimal;
  mark_price : decimal;
  index_price : decimal
}.

(** An entry of [self.completed_trades].  The source stores the prices and
    the profit through [float(...)]; the record keeps the decimal that is
    converted, not the float: the rounding of the conversion, and its
    underflow to [0.0], are not represented. *)
Record trade_record : Type := {
  tr_contract : string;
  tr_entry_price : decimal;
  tr_exit_price : decimal;
  tr_size : Z;
  tr_profit : decimal;
  tr_profit_pct : decimal;
  tr_entry_time : Z;
  tr_exit_time : Z;
  tr_duration : Z
}.

(** A field of an inbound ticker: missing, present but rejected by
    [Decimal(str(...))], or a finite decimal.  A NaN or an infinity, which
    [Decimal(str(...))] accepts as well, has no counterpart here. *)
Inductive field : Type :=
| Absent
| Unparsable
| Parsed (d : decimal).

(** An inbound ticker: one JSON object of the [futures.tickers] payload,
    read through [ticker.get]. *)
Record ticker_msg : Type := {
  tm_contract : option string;
  tm_last : field;
  tm_bid : field;
  tm_ask : field;
  tm_volume_24h : field;
  tm_change_percentage : field;
  tm_mark_price : field;
  tm_index_price : field
}.

(** The second component of what [should_place_buy_order] and
    [should_place_sell_order] return: one constructor per message. *)
Inductive reason : Type :=
| AlreadyHolding                         (* 已有持仓 *)
| MaxTradesReached                       (* 达到最大交易次数 *)
| NoPriceData                            (* 无价格数据 *)
| InvalidAsk                             (* 无效的卖价 *)
| CanBuy (current_ask : decimal)         (* 可以买入，价格 *)
| NoPosition                             (* 无持仓 *)
| InvalidBid                             (* 无效的买价 *)
| CanSell (spread_pct : decimal)         (* 价差 ≤ 阈值，可以卖出 *)
| Waiting (spread_pct : decimal)         (* 价差 > 阈值，等待机会 *)
| JudgeError.                            (* 判断错误 *)

Inductive level : Type := DEBUG | INFO | WARNING | ERROR.

(** The calls of [logger], one constructor per call site. *)
Inductive log_msg : Type :=
| LogSendRequest (data : json)
| LogSpreadError
| LogBuyJudgeError
| LogSellJudgeError
| LogPrepareOrder (payload : json)
| LogOrderFailed
| LogBuyStart (contract : string)
| LogBuyOk (contract : string) (amount : Z) (price : decimal)
| LogPriceAbnormal
| LogBuyFailed (contract : string)
| LogBuyError
| LogNoPositionToSell (contract : string)
| LogInvalidCurrentPrice (price : decimal)
| LogSellStart (contract : string)
| LogEntryCost (price : decimal)
| LogCurrentPrice (price : decimal)
| LogSellOk (contract : string)
| LogProfit (profit profit_pct : decimal)
| LogTradeCount (count limit : Z)
| LogSellFailed (contract : string)
| LogSellError
| LogPriceUpdate (contract : string) (price : decimal)
| LogTickerError
| LogRawData
| LogBuyOpportunity (contract : string) (why : reason)
| LogLongOpened (contract : string)
| LogSellOpportunity (contract : string) (why : reason)
| LogClosed (contract : string)
| LogMaxReached (limit : Z)
| LogCheckError
| LogStopping
| LogSummary (trades : list trade_record)
| LogConnected
| LogSubscribing (contract : string)
| LogStarted
| LogSocketClosed.

(** The mutable attributes of [self], with the socket and the log.
    [ws] is [None] while [self.ws] is [None]; [Some up] once the
    [WebSocketApp] exists, [up] telling whether [send] goes through or
    raises.  [sent] lists the frames the methods below hand to [ws.send],
    oldest first; the pings of the heartbeat thread are not among them.
    [clock] counts the calls of [time.time()]. *)
Record trader : Type := {
  current_position : gmap string position;
  trade_count : Z;
  completed_trades : list trade_record;
  is_running : bool;
  event : bool;
  tickers : gmap string ticker;
  ws : option bool;
  sent : list json;
  clock : nat;
  log : list (level * log_msg)
}.

Definition set_current_position (v : gmap string position) (s : trader) : trader :=
  {| current_position := v; trade_count := trade_count s;
     completed_trades := completed_trades s; is_running := is_running s;
     event := event s; tickers := tickers s; ws := ws s; sent := sent s;
     clock := clock s; log := log s |}.

Definition set_trade_count (v : Z) (s : trader) : trader :=
  {| current_position := current_position s; trade_count := v;
     completed_trades := completed_trades s; is_running := is_running s;
     event := event s; tickers := tickers s; ws := ws s; sent := sent s;
     clock := clock s; log := log s |}.

Definition set_completed_trades (v : list trade_record) (s : trader) : trader :=
  {| current_position := current_position s; trade_count := trade_count s;
     completed_trades := v; is_running := is_running s;
     event := event s; tickers := tickers s; ws := ws s; sent := sent s;
     clock := clock s; log := log s |}.

Definition set_is_running (v : bool) (s : trader) : trader :=
  {| current_position := current_position s; trade_count := trade_count s;
     completed_trades := completed_trades s; is_running := v;
     event := event s; tickers := tickers s; ws := ws s; sent := sent s;
     clock := clock s; log := log s |}.

Definition set_event (v : bool) (s : trader) : trader :=
  {| current_position := current_position s; trade_count := trade_count s;
     completed_trades := completed_trades s; is_running := is_running s;
     event := v; tickers := tickers s; ws := ws s; sent := sent s;
     clock := clock s; log := log s |}.

Definition set_tickers (v : gmap string ticker) (s : trader) : trader :=
  {| current_position := current_position s; trade_count := trade_count s;
     completed_trades := completed_trades s; is_running := is_running s;
     event := event s; tickers := v; ws := ws s; sent := sent s;
     clock := clock s; log := log s |}.

Definition set_ws (v : option bool) (s : trader) : trader :=
  {| current_position := current_position s; trade_count := trade_count s;
     completed_trades := completed_trades s; is_running := is_running s;
     event := event s; tickers := tickers s; ws := v; sent := sent s;
     clock := clock s; log := log s |}.

Definition set_sent (v : list json) (s : trader) : trader :=
  {| current_position := current_position s; trade_count := trade_count s;
     completed_trades := completed_trades s; is_running := is_running s;
     event := event s; tickers := tickers s; ws := ws s; sent := v;
     clock := clock s; log := log s |}.

Definition set_clock (v : nat) (s : trader) : trader :=
  {| current_position := current_position s; trade_count := trade_count s;
     completed_trades := completed_trades s; is_running := is_running s;
     event := event s; tickers := tickers s; ws := ws s; sent := sent s;
     clock := v; log := log s |}.

Definition set_log (v : list (level * log_msg)) (s : trader) : trader :=
  {| current_position := current_position s; trade_count := trade_count s;
     completed_trades := completed_trades s; is_running := is_running s;
     event := event s; tickers := tickers s; ws := ws s; sent := sent s;
     clock := clock s; log := v |}.

(** [GateFuturesTrader.__init__], after the configuration is read. *)
Definition init : trader :=
  {| current_position := ∅; trade_count := 0; completed_trades := [];
     is_running := false; event := false; tickers := ∅; ws := None;
     sent := []; clock := 0%nat; log := [] |}.

(** ** State and exceptions

    A method is a function of the object state that returns the state it
    leaves and either a value or [None], an exception on its way up.  The
    mutations made before the exception are kept. *)

Definition M (A : Type) : Type := trader -> option A * trader.

Definition ret {A} (a : A) : M A := fun s => (Some a, s).

Definition bind {A B} (m : M A) (f : A -> M B) : M B :=
  fun s =>
    match m s with
    | (Some a, s') => f a s'
    | (None, s') => (None, s')
    end.

Definition raise {A} : M A := fun s => (None, s).

(** [try: body  except Exception: handler]. *)
Definition try_except {A} (body handler : M A) : M A :=
  fun s =>
    match body s with
    | (Some a, s') => (Some a, s')
    | (None, s') => handler s'
    end.

Definition get_self : M trader := fun s => (Some s, s).
Definition modify (f : trader -> trader) : M unit := fun s => (Some tt, f s).

(** An operation of [decimal] that may raise a trapped signal, or a
    subscript that may raise [KeyError]. *)
Definition lift {A} (o : option A) : M A :=
  match o with
  | Some a => ret a
  | None => raise
  end.

Declare Scope py_scope.
Delimit Scope py_scope with py.
Notation "'let*' x ':=' m 'in' k" := (bind m (fun x => k))
  (at level 10, x name, m at level 100, k at level 200) : py_scope.
Notation "'let*' ' pat ':=' m 'in' k" := (bind m (fun x => match x with pat => k end))
  (at level 10, pat pattern, m at level 100, k at level 200) : py_scope.
Notation "m ';;' k" := (bind m (fun _ => k))
  (at level 100, k at level 200, right associativity, only parsing) : py_scope.

(** [for x in xs: body x]. *)
Fixpoint for_each {A} (body : A -> M unit) (xs : list A) : M unit :=
  match xs with
  | [] => ret tt
  | x :: rest => bind (body x) (fun _ => for_each body rest)
  end.

(** ** The methods of [GateFuturesTrader] *)

Section Methods.

Variable E : env.
Variable cfg : config.

Local Open Scope py_scope.

(** [time.time()]. *)
Definition now : M Z :=
  fun s => (Some (time_time E (clock s)), set_clock (S (clock s)) s).

(** [logger.debug], [logger.info], [logger.warning], [logger.error]. *)
Definition logger (lv : level) (m : log_msg) : M unit :=
  modify (fun s => set_log (log s ++ [(lv, m)]) s).

(** [get_sign]: the hexadecimal digest of the HMAC-SHA512 of [message]
    under the API secret. *)
Definition get_sign (message : string) : string :=
  hexdigest (hmac_sha512 E (api_secret cfg) message).

(** [self.ws.send(data_str)], under the guard [if self.ws:]. *)
Definition ws_send (frame : json) : M unit :=
  let* s := get_self in
  match ws s with
  | None => ret tt
  | Some true => modify (fun s => set_sent (sent s ++ [frame]) s)
  | Some false => raise
  end.

(** [_request]. *)
Definition _request (channel : string) (event : option string)
    (payload : json) (auth_required : bool) : M unit :=
  let* t := now in
  let current_time := int_seconds t in
  let data :=
    [("time", JInt current_time); ("channel", JStr channel);
     ("event", json_opt event); ("payload", payload)] in
  let data :=
    if auth_required then
      let message := canonical channel event current_time in
      data ++ [("auth", JObj [("method", JStr "api_key");
                              ("KEY", JStr (api_key cfg));
                              ("SIGN", JStr (get_sign message))])]
    else data in
  logger INFO (LogSendRequest (JObj data));;
  ws_send (JObj data).

(** [subscribe] and [unsubscribe]. *)
Definition subscribe (channel : string) (payload : json) (auth_required : bool) : M unit :=
  _request channel (Some "subscribe") payload auth_required.

Definition unsubscribe (channel : string) (payload : json) (auth_required : bool) : M unit :=
  _request channel (Some "unsubscribe") payload auth_required.

(** [calculate_spread_percentage]. *)
Definition calculate_spread_percentage (current_price entry_price : decimal) : M decimal :=
  try_except
    (if PyDecimal.leb entry_price PyDecimal.zero then
       ret PyDecimal.one_point_zero
     else
       let* diff := lift (PyDecimal.sub current_price entry_price) in
       let* spread := lift (PyDecimal.abs diff) in
       let* ratio := lift (PyDecimal.div spread entry_price) in
       let* spread_percentage := lift (PyDecimal.mul ratio PyDecimal.hundred) in
       ret spread_percentage)
    (logger ERROR LogSpreadError;;
     ret PyDecimal.one_point_zero).

(** [should_place_buy_order]. *)
Definition should_place_buy_order (contract : string) : M (bool * reason) :=
  try_except
    (let* s := get_self in
     if match current_position s !! contract with
        | Some p => 0 <? size p
        | None => false
        end
     then ret (false, AlreadyHolding)
     else if max_trades cfg <=? trade_count s then ret (false, MaxTradesReached)
     else
       match tickers s !! contract with
       | None => ret (false, NoPriceData)
       | Some tk =>
           let current_ask := ask tk in
           if PyDecimal.leb current_ask PyDecimal.zero then ret (false, InvalidAsk)
           else ret (true, CanBuy current_ask)
       end)
    (logger ERROR LogBuyJudgeError;;
     ret (false, JudgeError)).

(** [should_place_sell_order]. *)
Definition should_place_sell_order (contract : string) : M (bool * reason) :=
  try_except
    (let* s := get_self in
     match current_position s !! contract with
     | None => ret (false, NoPosition)
     | Some position =>
         if size position <=? 0 then ret (false, NoPosition)
         else
           let entry_price := entry_price position in
           match tickers s !! contract with
           | None => ret (false, NoPriceData)
           | Some tk =>
               let current_bid := bid tk in
               if PyDecimal.leb current_bid PyDecimal.zero then ret (false, InvalidBid)
               else
                 let* spread_pct := calculate_spread_percentage current_bid entry_price in
                 let* limit := lift (PyDecimal.mul (spread_threshold cfg) PyDecimal.hundred) in
                 if PyDecimal.leb spread_pct limit
                 then ret (true, CanSell spread_pct)
                 else ret (false, Waiting spread_pct)
           end
     end)
    (logger ERROR LogSellJudgeError;;
     ret (false, JudgeError)).

(** [place_futures_order]. *)
Definition place_futures_order (contract : string) (size price : Z)
    (order_type : string) (close : bool) : M bool :=
  try_except
    (let* t := now in
     let payload :=
       [("contract", JStr contract); ("size", JInt size); ("price", JInt price);
        ("text", JStr ("auto_trade_" ++ str_int (int_seconds t)));
        ("tif", JStr order_type)] in
     let payload :=
       if close
       then payload ++ [("close", JBool true); ("reduce_only", JBool true)]
       else payload in
     logger INFO (LogPrepareOrder (JObj payload));;
     _request "futures.orders" None (JObj payload) true;;
     ret true)
    (logger ERROR LogOrderFailed;;
     ret false).

(** [execute_buy_order]. *)
Definition execute_buy_order (contract : string) : M bool :=
  try_except
    (logger INFO (LogBuyStart contract);;
     let* placed := place_futures_order contract (trade_amount cfg) 0 "IOC" false in
     if placed then
       let* s := get_self in
       let* tk := lift (tickers s !! contract) in
       let current_price := last tk in
       if PyDecimal.gtb current_price PyDecimal.zero then
         let* t := now in
         modify (fun s =>
           set_current_position
             (<[contract := {| size := trade_amount cfg;
                               entry_price := current_price;
                               entry_time := t |}]> (current_position s)) s);;
         logger INFO (LogBuyOk contract (trade_amount cfg) current_price);;
         ret true
       else
         (logger WARNING LogPriceAbnormal;;
          ret false)
     else
       (logger ERROR (LogBuyFailed contract);;
        ret false))
    (logger ERROR LogBuyError;;
     ret false).

(** [execute_sell_order]. *)
Definition execute_sell_order (contract : string) : M bool :=
  try_except
    (let* s := get_self in
     match current_position s !! contract with
     | None =>
         logger ERROR (LogNoPositionToSell contract);;
         ret false
     | Some position =>
         let entry_price := entry_price position in
         let* tk := lift (tickers s !! contract) in
         let current_price := bid tk in
         if PyDecimal.leb current_price PyDecimal.zero then
           (logger ERROR (LogInvalidCurrentPrice current_price);;
            ret false)
         else
           logger INFO (LogSellStart contract);;
           logger INFO (LogEntryCost entry_price);;
           logger INFO (LogCurrentPrice current_price);;
           let* diff := lift (PyDecimal.sub current_price entry_price) in
           let* profit := lift (PyDecimal.mul diff (PyDecimal.of_int (size position))) in
           let* profit_pct := calculate_spread_percentage current_price entry_price in
           let* placed := place_futures_order contract (- size position) 0 "IOC" true in
           if placed then
             let* exit_time := now in
             let* t := now in
             let trade_record :=
               {| tr_contract := contract;
                  tr_entry_price := entry_price;
                  tr_exit_price := current_price;
                  tr_size := size position;
                  tr_profit := profit;
                  tr_profit_pct := profit_pct;
                  tr_entry_time := entry_time position;
                  tr_exit_time := exit_time;
                  tr_duration := t - entry_time position |} in
             modify (fun s => set_completed_trades (completed_trades s ++ [trade_record]) s);;
             modify (fun s => set_trade_count (trade_count s + 1) s);;
             modify (fun s => set_current_position (delete contract (current_position s)) s);;
             logger INFO (LogSellOk contract);;
             logger INFO (LogProfit profit profit_pct);;
             let* s := get_self in
             logger INFO (LogTradeCount (trade_count s) (max_trades cfg));;
             ret true
           else
             (logger ERROR (LogSellFailed contract);;
              ret false)
     end)
    (logger ERROR LogSellError;;
     ret false).

(** [print_trading_summary]: the lines it logs are derived from
    [self.completed_trades] alone; they are kept as one entry. *)
Definition print_trading_summary : M unit :=
  let* s := get_self in
  logger INFO (LogSummary (completed_trades s)).

(** [stop_trading]. *)
Definition stop_trading : M unit :=
  logger INFO LogStopping;;
  modify (set_is_running false);;
  modify (set_event true);;
  let* s := get_self in
  match ws s with
  | Some _ => modify (set_ws (Some false))
  | None => ret tt
  end;;
  print_trading_summary.

(** [check_trading_opportunities]. *)
Definition check_trading_opportunities (contract : string) : M unit :=
  try_except
    (let* s := get_self in
     if negb (is_running s) then ret tt
     else
       let* '(should_buy, buy_reason) := should_place_buy_order contract in
       (if should_buy then
          logger INFO (LogBuyOpportunity contract buy_reason);;
          let* bought := execute_buy_order contract in
          if bought then logger INFO (LogLongOpened contract) else ret tt
        else ret tt);;
       let* '(should_sell, sell_reason) := should_place_sell_order contract in
       if should_sell then
         logger INFO (LogSellOpportunity contract sell_reason);;
         let* sold := execute_sell_order contract in
         if sold then
           logger INFO (LogClosed contract);;
           let* s := get_self in
           if max_trades cfg <=? trade_count s then
             logger INFO (LogMaxReached (max_trades cfg));;
             stop_trading
           else ret tt
         else ret tt
       else ret tt)
    (logger ERROR LogCheckError).

(** [Decimal(str(ticker.get(key, default)))]. *)
Definition parse (f : field) (default : decimal) : M decimal :=
  match f with
  | Absent => ret default
  | Unparsable => raise
  | Parsed d => ret d
  end.

(** The first half of the loop body of [on_ticker_message] (lines
    316-334): the fields are parsed and the cache entry of [contract] is
    replaced.  The test that guards the log line reads the entry just
    written. *)
Definition update_ticker (contract : string) (tm : ticker_msg) : M unit :=
  let* last_price := parse (tm_last tm) PyDecimal.zero in
  let* bid_default := lift (PyDecimal.mul last_price PyDecimal.d0_9999) in
  let* bid_price := parse (tm_bid tm) bid_default in
  let* ask_default := lift (PyDecimal.mul last_price PyDecimal.d1_0001) in
  let* ask_price := parse (tm_ask tm) ask_default in
  let* volume := parse (tm_volume_24h tm) PyDecimal.zero in
  let* change := parse (tm_change_percentage tm) PyDecimal.zero in
  let* mark := parse (tm_mark_price tm) last_price in
  let* index := parse (tm_index_price tm) last_price in
  modify (fun s =>
    set_tickers
      (<[contract := {| last := last_price; bid := bid_price; ask := ask_price;
                        volume := volume; change_24h := change;
                        mark_price := mark; index_price := index |}]> (tickers s)) s);;
  let* s := get_self in
  if match tickers s !! contract with
     | None => true
     | Some tk => negb (PyDecimal.eqb (last tk) last_price)
     end
  then logger INFO (LogPriceUpdate contract last_price)
  else ret tt.

(** The body of the loop of [on_ticker_message]: a ticker of a contract
    that is traded updates the cache and triggers the check. *)
Definition on_ticker (tm : ticker_msg) : M unit :=
  match tm_contract tm with
  | None => ret tt
  | Some contract =>
      if bool_decide (contract ∈ contracts cfg) then
        update_ticker contract tm;;
        check_trading_opportunities contract
      else ret tt
  end.

(** [on_ticker_message]; [data] is the list of tickers of the payload (a
    single object is wrapped into a list by the source). *)
Definition on_ticker_message (data : list ticker_msg) : M unit :=
  try_except
    (for_each on_ticker data)
    (logger ERROR LogTickerError;;
     logger DEBUG LogRawData).

(** [on_open]. *)
Definition on_open : M unit :=
  logger INFO LogConnected;;
  for_each (fun contract =>
              logger INFO (LogSubscribing contract);;
              subscribe "futures.tickers" (JList [JStr contract]) false)
           (contracts cfg);;
  subscribe "futures.orders" JNull true;;
  subscribe "futures.usertrades" JNull true;;
  modify (set_is_running true);;
  logger INFO LogStarted.

(** [on_close]. *)
Definition on_close : M unit :=
  logger INFO LogSocketClosed;;
  modify (set_is_running false).

(** ** Runs of a session

    What happens to the object once [start_trading] has created the
    socket: a ticker payload arrives, the transport breaks (a later
    [send] raises), the operator interrupts the process ([stop_trading]
    from the [KeyboardInterrupt] handler), or the library reports the
    socket closed.  A run is a sequence of calls of the handlers; the
    heartbeat thread that [on_open] starts, which sends its own
    [futures.ping] frames every ten seconds, is not a step of it. *)
Inductive input : Type :=
| Tickers (data : list ticker_msg)
| TransportDown
| Interrupt
| SocketClosed.

(** The inputs that stop the session from outside. *)
Definition is_stop (i : input) : bool :=
  match i with
  | Interrupt | SocketClosed => true
  | Tickers _ | TransportDown => false
  end.

Definition handle (i : input) : M unit :=
  match i with
  | Tickers data => on_ticker_message data
  | TransportDown =>
      modify (fun s => match ws s with
                       | Some _ => set_ws (Some false) s
                       | None => s
                       end)
  | Interrupt => stop_trading
  | SocketClosed => on_close
  end.

(** The state a handler leaves, whether or not it raised. *)
Definition exec {A} (m : M A) (s : trader) : trader := snd (m s).

Definition run (inputs : list input) (s : trader) : trader :=
  fold_left (fun s i => exec (handle i) s) inputs s.

(** [start_trading] up to the end of [on_open]: the socket exists and is
    connected, the subscriptions are sent. *)
Definition started : trader := exec on_open (set_ws (Some true) init).

End Methods.

(** * Properties *)

(** ** What the statements are about *)

(** The part of the object that the trading logic reads and writes: all of
    it but the log, the clock and the frames sent. *)
Definition core (s : trader) :
    gmap string position * Z * list trade_record * bool * bool
    * gmap string ticker * option bool :=
  (current_position s, trade_count s, completed_trades s, is_running s,
   event s, tickers s, ws s).

(** [wp m s Q]: running [m] from [s] ends, with a value or an exception, in
    a state that satisfies [Q]. *)
Definition wp {A} (m : M A) (s : trader) (Q : option A -> trader -> Prop) : Prop :=
  Q (fst (m s)) (snd (m s)).

Section Moves.

Variable cfg : config.

(** A position is open for [contract]: the test of line 138. *)
Definition held (s : trader) (contract : string) : Prop :=
  exists p, current_position s !! contract = Some p /\ 0 < size p.

(** The test of [should_place_sell_order], on the values it reads. *)
Definition sell_eligible (s : trader) (contract : string) : Prop :=
  exists p tk v limit,
    current_position s !! contract = Some p /\ 0 < size p /\
    tickers s !! contract = Some tk /\
    PyDecimal.leb (bid tk) PyDecimal.zero = false /\
    fst (calculate_spread_percentage (bid tk) (entry_price p) s) = Some v /\
    PyDecimal.mul (spread_threshold cfg) PyDecimal.hundred = Some limit /\
    PyDecimal.leb v limit = true.

(** The ledger after a buy recorded at time [t]. *)
Definition opened (contract : string) (tk : ticker) (t : Z) (s : trader) : trader :=
  set_current_position
    (<[contract := {| size := trade_amount cfg; entry_price := last tk;
                      entry_time := t |}]> (current_position s)) s.

(** The ledger after a close that appends [r]. *)
Definition closed (contract : string) (r : trade_record) (s : trader) : trader :=
  set_current_position (delete contract (current_position s))
    (set_trade_count (trade_count s + 1)
       (set_completed_trades (completed_trades s ++ [r]) s)).

(** The object after [stop_trading]: the socket, if there is one, is
    closed. *)
Definition ws_closed (w : option bool) : option bool :=
  match w with
  | Some _ => Some false
  | None => None
  end.

Definition stopped (s : trader) : trader :=
  set_ws (ws_closed (ws s)) (set_event true (set_is_running false s)).

(** What one call of [check_trading_opportunities] can do to the ledger:
    open a position, then close one. *)
Definition opens (contract : string) (s s' : trader) : Prop :=
  ~ held s contract /\ trade_count s < max_trades cfg /\
  exists tk t,
    tickers s !! contract = Some tk /\
    PyDecimal.gtb (last tk) PyDecimal.zero = true /\
    core s' = core (opened contract tk t s).

Definition closes (contract : string) (s s' : trader) : Prop :=
  exists p tk r,
    current_position s !! contract = Some p /\ 0 < size p /\
    tickers s !! contract = Some tk /\
    tr_contract r = contract /\ tr_entry_price r = entry_price p /\
    tr_exit_price r = bid tk /\ tr_size r = size p /\
    core s' = core (if max_trades cfg <=? trade_count s + 1
                    then stopped (closed contract r s)
                    else closed contract r s).

Definition checked (contract : string) (s s' : trader) : Prop :=
  if is_running s then
    exists s1, (core s1 = core s \/ opens contract s s1) /\
               (core s' = core s1 \/ closes contract s1 s')
  else core s' = core s.

(** What the processing of one ticker does to the ledger. *)
Definition ticked (s s' : trader) : Prop :=
  core s' = core s \/
  exists contract tk su,
    core su = core (set_tickers (<[contract := tk]> (tickers s)) s) /\
    checked contract su s'.

(** Every recorded position has an entry price above zero and the
    configured size. *)
Definition positions_well_formed (s : trader) : Prop :=
  forall contract p,
    current_position s !! contract = Some p ->
    PyDecimal.gtb (entry_price p) PyDecimal.zero = true /\ size p = trade_amount cfg.

(** The counter equals the length of the history and stays within the
    budget; while the session runs with a position open, there is budget
    left. *)
Definition counted (s : trader) : Prop :=
  trade_count s = Z.of_nat (length (completed_trades s)) /\
  trade_count s <= max_trades cfg /\
  (is_running s = true -> trade_count s < max_trades cfg \/ current_position s = ∅).


End Moves.

(** The records of [current_position] for [contract]. *)
Definition records_of (s : trader) (contract : string) : list (string * position) :=
  filter (fun kv => kv.1 = contract) (map_to_list (current_position s)).

(** The entries a handler appends to the log, and among them the two
    that report a position opened and a position closed
    ([已建立多头持仓], [已平仓]). *)
Definition logged_since (s s' : trader) : list (level * log_msg) :=
  drop (length (log s)) (log s').

Fixpoint ledger_marks (l : list (level * log_msg)) : list log_msg :=
  match l with
  | [] => []
  | (_, LogLongOpened c) :: rest => LogLongOpened c :: ledger_marks rest
  | (_, LogClosed c) :: rest => LogClosed c :: ledger_marks rest
  | _ :: rest => ledger_marks rest
  end.

(** The digits of a digest are lowercase. *)
Fixpoint all_lower_hex (s : string) : bool :=
  match s with
  | EmptyString => true
  | String c rest => is_lower_hex c && all_lower_hex rest
  end.

(** ** A session used in the examples *)

(** A clock that advances by a millisecond per reading, and a stand-in for
    the digest (the statements below hold for every digest function). *)
Definition demo_env : env :=
  {| time_time := fun n => 1700000000000000 + 1000 * Z.of_nat n;
     hmac_sha512 := fun key msg => list_byte_of_string (key ++ msg) |}.

(** [max_trades = 1], [spread_threshold = Decimal('0.0005')]. *)
Definition demo_config : config :=
  {| api_key := "key"; api_secret := "secret"; contracts := ["BTC_USDT"%string];
     trade_amount := 1; max_trades := 1;
     spread_threshold := PyDecimal.mk false 5 (-4) |}.

(** [{"contract": "BTC_USDT", "last": "100"}]: bid and ask omitted. *)
Definition ticker_last_100 : ticker_msg :=
  {| tm_contract := Some "BTC_USDT"%string; tm_last := Parsed (PyDecimal.mk false 100 0);
     tm_bid := Absent; tm_ask := Absent; tm_volume_24h := Absent;
     tm_change_percentage := Absent; tm_mark_price := Absent;
     tm_index_price := Absent |}.

(** A ticker with [last = 100] and the given bid. *)
Definition ticker_bid (b : decimal) : ticker_msg :=
  {| tm_contract := Some "BTC_USDT"%string; tm_last := Parsed (PyDecimal.mk false 100 0);
     tm_bid := Parsed b; tm_ask := Absent; tm_volume_24h := Absent;
     tm_change_percentage := Absent; tm_mark_price := Absent;
     tm_index_price := Absent |}.

(** A ledger that holds one contract of BTC_USDT entered at 100, with the
    given bid in the cache. *)
Definition holding_at_100 (b : decimal) : trader :=
  set_tickers
    {[ "BTC_USDT"%string :=
         {| last := PyDecimal.mk false 100 0; bid := b;
            ask := PyDecimal.mk false 1000100 (-4);
            volume := PyDecimal.zero; change_24h := PyDecimal.zero;
            mark_price := PyDecimal.mk false 100 0;
            index_price := PyDecimal.mk false 100 0 |} ]}
    (set_current_position
       {[ "BTC_USDT"%string :=
            {| size := 1; entry_price := PyDecimal.mk false 100 0; entry_time := 0 |} ]}
       (set_is_running true (set_ws (Some true) init))).

(** The session of the scenario once the ticker [last = 100] is in the
    cache, and after the buy that follows. *)
Definition cached_100 (E : env) : trader :=
  exec (update_ticker "BTC_USDT" ticker_last_100) (started E demo_config).

Definition bought_100 (E : env) : trader :=
  exec (execute_buy_order E demo_config "BTC_USDT") (cached_100 E).

(** A ticker that opens a position and leaves it open: the bid of 99 is
    1% away from the entry at 100. *)
Definition holding_run : list input :=
  [Tickers [ticker_bid (PyDecimal.mk false 99 0)]].

Definition held_position : position :=
  {| size := 1; entry_price := PyDecimal.mk false 100 0;
     entry_time := time_time demo_env 5 |}.

(** A cache whose last price is zero while an ask is quoted. *)
Definition last_zero_cached : trader :=
  set_tickers
    {[ "BTC_USDT"%string :=
         {| last := PyDecimal.zero; bid := PyDecimal.zero;
            ask := PyDecimal.mk false 1 0; volume := PyDecimal.zero;
            change_24h := PyDecimal.zero; mark_price := PyDecimal.zero;
            index_price := PyDecimal.zero |} ]}
    (set_is_running true (set_ws (Some true) init)).

(** ** Frames on the wire *)

(** Tests on the keys of a JSON object. *)
Definition json_str_is (key value : string) (j : json) : bool :=
  match json_get key j with
  | Some (JStr v) => String.eqb v value
  | _ => false
  end.

Definition json_int_is (key : string) (n : Z) (j : json) : bool :=
  match json_get key j with
  | Some (JInt v) => v =? n
  | _ => false
  end.

Definition json_true (key : string) (j : json) : bool :=
  match json_get key j with
  | Some (JBool true) => true
  | _ => false
  end.

Definition json_has (key : string) (j : json) : bool :=
  match json_get key j with
  | Some _ => true
  | None => false
  end.

(** An authenticated frame on [futures.orders] whose payload is a market
    order ([price = 0]) with [tif = "IOC"]. *)
Definition is_market_ioc_order (frame : json) : bool :=
  json_str_is "channel" "futures.orders" frame && json_has "auth" frame &&
  match json_get "payload" frame with
  | Some payload => json_int_is "price" 0 payload && json_str_is "tif" "IOC" payload
  | None => false
  end.

(** Such a frame for [contract] and [size]; a closing order carries
    [close] and [reduce_only], an opening order neither. *)
Definition is_order (contract : string) (sz : Z) (close : bool) (frame : json) : bool :=
  is_market_ioc_order frame &&
  match json_get "payload" frame with
  | Some payload =>
      json_str_is "contract" contract payload && json_int_is "size" sz payload &&
      (if close
       then json_true "close" payload && json_true "reduce_only" payload
       else negb (json_has "close" payload) && negb (json_has "reduce_only" payload))
  | None => false
  end.

(** What a call of [place_futures_order] for a market IOC order leaves:
    on a connected socket one order frame and [True]; on a broken one
    nothing and [False]; without a socket nothing and [True]. *)
Definition placed (contract : string) (sz : Z) (close : bool)
    (s : trader) (b : bool) (s' : trader) : Prop :=
  core s' = core s /\
  match ws s with
  | Some true =>
      b = true /\ exists frame, sent s' = sent s ++ [frame] /\
                                is_order contract sz close frame = true
  | Some false => b = false /\ sent s' = sent s
  | None => b = true /\ sent s' = sent s
  end.

Section Outcomes.

Variable cfg : config.

(** What [execute_buy_order] leaves behind: the order goes out first; the
    position is recorded only if the order was placed and the cached last
    price is above zero. *)
Definition bought (contract : string) (s : trader) (r : bool) (s' : trader) : Prop :=
  exists b s1,
    placed contract (trade_amount cfg) false s b s1 /\ sent s' = sent s1 /\
    ((r = false /\ core s' = core s /\
      (b = false \/ tickers s !! contract = None \/
       exists tk, tickers s !! contract = Some tk /\
                  PyDecimal.gtb (last tk) PyDecimal.zero = false))
     \/
     (r = true /\ b = true /\
      exists tk t, tickers s !! contract = Some tk /\
                   PyDecimal.gtb (last tk) PyDecimal.zero = true /\
                   core s' = core (opened cfg contract tk t s))).

(** What [execute_sell_order] leaves behind: nothing (but log lines) when it
    returns [False], which it does without a record, without a cached bid
    above zero, when the profit raises a decimal signal or when the socket
    is broken; when it returns [True], the closing order went out and the
    record of the trade is appended. *)
Definition sold (contract : string) (s : trader) (r : bool) (s' : trader) : Prop :=
  (r = false /\ core s' = core s /\ sent s' = sent s /\
   (current_position s !! contract = None \/
    exists p, current_position s !! contract = Some p /\
      (tickers s !! contract = None \/
       exists tk, tickers s !! contract = Some tk /\
         (PyDecimal.leb (bid tk) PyDecimal.zero = true \/
          PyDecimal.sub (bid tk) (entry_price p) = None \/
          (exists diff, PyDecimal.sub (bid tk) (entry_price p) = Some diff /\
                        PyDecimal.mul diff (PyDecimal.of_int (size p)) = None) \/
          ws s = Some false))))
  \/
  (r = true /\
   exists p tk diff profit pct rec s1,
     current_position s !! contract = Some p /\
     tickers s !! contract = Some tk /\
     PyDecimal.leb (bid tk) PyDecimal.zero = false /\
     PyDecimal.sub (bid tk) (entry_price p) = Some diff /\
     PyDecimal.mul diff (PyDecimal.of_int (size p)) = Some profit /\
     fst (calculate_spread_percentage (bid tk) (entry_price p) s) = Some pct /\
     tr_contract rec = contract /\ tr_entry_price rec = entry_price p /\
     tr_exit_price rec = bid tk /\ tr_size rec = size p /\
     tr_profit rec = profit /\ tr_profit_pct rec = pct /\
     tr_entry_time rec = entry_time p /\
     placed contract (- size p) true s true s1 /\ sent s' = sent s1 /\
     core s' = core (closed contract rec s)).

End Outcomes.

(** ** States used in the examples of the extra properties *)

(** The ledger [holding_at_100] with the socket broken. *)
Definition holding_socket_down : trader :=
  set_ws (Some false) (holding_at_100 (PyDecimal.mk false 9995 (-2))).

(** ** The cache *)

(** The decimal [d] is what [Decimal(str(ticker.get(key, default)))] gives
    for the field [f]. *)
Definition field_value (f : field) (default d : decimal) : Prop :=
  match f with
  | Absent => d = default
  | Unparsable => False
  | Parsed x => d = x
  end.

(** The entry [tk] is the one [update_ticker] builds from [tm]: the bid
    and the ask default to the last price times 0.9999 and 1.0001 (the
    products are computed whether or not the field is there), the mark and
    the index price to the last price, the rest to zero. *)
Definition entry_of (tm : ticker_msg) (tk : ticker) : Prop :=
  field_value (tm_last tm) PyDecimal.zero (last tk) /\
  (exists bid_default,
      PyDecimal.mul (last tk) PyDecimal.d0_9999 = Some bid_default /\
      field_value (tm_bid tm) bid_default (bid tk)) /\
  (exists ask_default,
      PyDecimal.mul (last tk) PyDecimal.d1_0001 = Some ask_default /\
      field_value (tm_ask tm) ask_default (ask tk)) /\
  field_value (tm_volume_24h tm) PyDecimal.zero (volume tk) /\
  field_value (tm_change_percentage tm) PyDecimal.zero (change_24h tk) /\
  field_value (tm_mark_price tm) (last tk) (mark_price tk) /\
  field_value (tm_index_price tm) (last tk) (index_price tk).

(** One of the seven fields is present and not a decimal. *)
Definition has_unparsable (tm : ticker_msg) : Prop :=
  tm_last tm = Unparsable \/ tm_bid tm = Unparsable \/ tm_ask tm = Unparsable \/
  tm_volume_24h tm = Unparsable \/ tm_change_percentage tm = Unparsable \/
  tm_mark_price tm = Unparsable \/ tm_index_price tm = Unparsable.

(** A ticker of BTC_USDT whose last price is not a number. *)
Definition ticker_bad_last : ticker_msg :=
  {| tm_contract := Some "BTC_USDT"%string; tm_last := Unparsable;
     tm_bid := Absent; tm_ask := Absent; tm_volume_24h := Absent;
     tm_change_percentage := Absent; tm_mark_price := Absent;
     tm_index_price := Absent |}.

(** ** A session that is not running *)

(** The ledger and the wire are as they were, and the session is not
    running. *)
Definition frozen (s s' : trader) : Prop :=
  current_position s' = current_position s /\
  trade_count s' = trade_count s /\
  completed_trades s' = completed_trades s /\
  sent s' = sent s /\
  is_running s' = false.

(** The ledger [holding_at_100] after [stop_trading], with a bid within
    the threshold of the entry. *)
Definition holding_stopped : trader :=
  stopped (holding_at_100 (PyDecimal.mk false 9995 (-2))).

(** ** What a session holds *)

Section Tracked.

Variable cfg : config.

(** The cache and the ledger know only the contracts of the configuration,
    a contract that is held has a cached ticker, and a position has a
    positive entry price and the configured size. *)
Definition tracked (s : trader) : Prop :=
  (forall contract tk, tickers s !! contract = Some tk -> contract ∈ contracts cfg) /\
  (forall contract p,
      current_position s !! contract = Some p ->
      contract ∈ contracts cfg /\
      (exists tk, tickers s !! contract = Some tk) /\
      PyDecimal.gtb (entry_price p) PyDecimal.zero = true /\
      size p = trade_amount cfg).

(** The records of the history are trades of configured contracts, of the
    configured size. *)
Definition history_sound (s : trader) : Prop :=
  forall r, r ∈ completed_trades s ->
    tr_contract r ∈ contracts cfg /\ tr_size r = trade_amount cfg.

Definition sound (s : trader) : Prop := tracked s /\ history_sound s.

(** What the processing of one ticker does to the ledger, with the
    contract known to be a configured one. *)
Definition ticked_in (s s' : trader) : Prop :=
  core s' = core s \/
  exists contract tk su,
    contract ∈ contracts cfg /\
    core su = core (set_tickers (<[contract := tk]> (tickers s)) s) /\
    checked cfg contract su s'.

End Tracked.

(** The trade of the scenario of C9 under [demo_env]: bought at 100, sold
    at the defaulted bid 99.99. *)
Definition scenario_trade : trade_record :=
  {| tr_contract := "BTC_USDT"; tr_entry_price := PyDecimal.mk false 100 0;
     tr_exit_price := PyDecimal.mk false 999900 (-4); tr_size := 1;
     tr_profit := PyDecimal.mk true 100 (-4);
     tr_profit_pct := PyDecimal.mk false 100 (-4);
     tr_entry_time := time_time demo_env 5; tr_exit_time := time_time demo_env 8;
     tr_duration := time_time demo_env 9 - time_time demo_env 5 |}.

(** ** Frames sent by the handlers *)

(** The frames sent between two states are market IOC orders. *)
Definition orders_since (s s' : trader) : Prop :=
  exists frames, sent s' = sent s ++ frames /\
                 forallb is_market_ioc_order frames = true.

(** An order frame for [contract], opening or closing. *)
Definition is_order_for (contract : string) (frame : json) : Prop :=
  exists sz close, is_order contract sz close frame = true.

(** A subscription frame on [channel], with an [auth] object or without. *)
Definition is_subscription (channel : string) (auth : bool) (frame : json) : bool :=
  json_str_is "channel" channel frame && json_str_is "event" "subscribe" frame &&
  Bool.eqb (json_has "auth" frame) auth.

(** The subscription to the tickers of [contract]: no [auth], the contract
    alone in the payload. *)
Definition is_ticker_subscription (contract : string) (frame : json) : Prop :=
  is_subscription "futures.tickers" false frame = true /\
  json_get "payload" frame = Some (JList [JStr contract]).

(** What a call of [subscribe] leaves. *)
Definition subscribed (channel : string) (payload : json) (auth : bool)
    (s : trader) (r : option unit) (s' : trader) : Prop :=
  core s' = core s /\
  match ws s with
  | Some true =>
      r = Some tt /\ exists frame, sent s' = sent s ++ [frame] /\
                                   is_subscription channel auth frame = true /\
                                   json_get "payload" frame = Some payload
  | Some false => r = None /\ sent s' = sent s
  | None => r = Some tt /\ sent s' = sent s
  end.

(** ** A broken socket *)

(** The ledger and the wire are as they were, and the socket is still
    broken. *)
Definition stalled (s s' : trader) : Prop :=
  current_position s' = current_position s /\
  trade_count s' = trade_count s /\
  completed_trades s' = completed_trades s /\
  sent s' = sent s /\
  ws s' = Some false.

(** ** Configurations outside the usual range *)

(** A budget below zero, as [config.json] or [--max-trades -1] can give
    it. *)
Definition negative_budget_config : config :=
  {| api_key := "key"; api_secret := "secret"; contracts := ["BTC_USDT"%string];
     trade_amount := 1; max_trades := -1;
     spread_threshold := PyDecimal.mk false 5 (-4) |}.

(** A trade amount of zero, as [config.json] can give it. *)
Definition zero_amount_config : config :=
  {| api_key := "key"; api_secret := "secret"; contracts := ["BTC_USDT"%string];
     trade_amount := 0; max_trades := 1;
     spread_threshold := PyDecimal.mk false 5 (-4) |}.

(** The session with a trade amount of zero after the ticker
    [last = 100]: the buy has recorded a position of size zero. *)
Definition zero_size_held : trader :=
  run demo_env zero_amount_config [Tickers [ticker_last_100]]
    (started demo_env zero_amount_config).

(** ** Reasoning about methods *)

Lemma core_fields s s' :
  core s' = core s ->
  current_position s' = current_position s /\ trade_count s' = trade_count s /\
  completed_trades s' = completed_trades s /\ is_running s' = is_running s /\
  event s' = event s /\ tickers s' = tickers s /\ ws s' = ws s.
Proof. unfold core. intros H. injection H. auto 10. Qed.

Section Rules.

Context {A B : Type}.

Lemma wp_bind (m : M A) (f : A -> M B) s Q :
  wp m s (fun r s' => match r with
                      | Some a => wp (f a) s' Q
                      | None => Q None s'
                      end) ->
  wp (bind m f) s Q.
Proof. unfold wp, bind. destruct (m s) as [[a|] s']; auto. Qed.

Lemma wp_try (body handler : M A) s Q :
  wp body s (fun r s' => match r with
                         | Some a => Q (Some a) s'
                         | None => wp handler s' Q
                         end) ->
  wp (try_except body handler) s Q.
Proof. unfold wp, try_except. destruct (body s) as [[a|] s']; auto. Qed.

Lemma wp_mono (m : M A) s (Q Q' : option A -> trader -> Prop) :
  wp m s Q -> (forall r s', Q r s' -> Q' r s') -> wp m s Q'.
Proof. unfold wp. auto. Qed.

Lemma wp_ret (a : A) s Q : Q (Some a) s -> wp (ret a) s Q.
Proof. auto. Qed.

Lemma wp_raise s (Q : option A -> trader -> Prop) : Q None s -> wp raise s Q.
Proof. auto. Qed.

Lemma wp_lift (o : option A) s Q : Q o s -> wp (lift o) s Q.
Proof. destruct o; auto. Qed.

End Rules.

Lemma wp_get_self s Q : Q (Some s) s -> wp get_self s Q.
Proof. auto. Qed.

Lemma wp_modify g s Q : Q (Some tt) (g s) -> wp (modify g) s Q.
Proof. auto. Qed.

Lemma wp_logger lv msg s Q :
  Q (Some tt) (set_log (log s ++ [(lv, msg)]) s) -> wp (logger lv msg) s Q.
Proof. auto. Qed.

Lemma wp_now E s Q :
  Q (Some (time_time E (clock s))) (set_clock (S (clock s)) s) -> wp (now E) s Q.
Proof. auto. Qed.

Ltac wp_step :=
  lazymatch goal with
  | |- wp (bind _ _) _ _ => apply wp_bind
  | |- wp (try_except _ _) _ _ => apply wp_try
  | |- wp (ret _) _ _ => apply wp_ret
  | |- wp raise _ _ => apply wp_raise
  | |- wp get_self _ _ => apply wp_get_self
  | |- wp (modify _) _ _ => apply wp_modify
  | |- wp (logger _ _) _ _ => apply wp_logger
  | |- wp (now _) _ _ => apply wp_now
  | |- wp (lift _) _ _ => apply wp_lift
  end;
  cbv beta iota zeta.

Ltac wp_steps := repeat wp_step.

(** Equations between the cores of states built with the setters. *)
Ltac proj_simpl :=
  cbn [current_position trade_count completed_trades is_running event tickers
       ws sent clock log set_current_position set_trade_count
       set_completed_trades set_is_running set_event set_tickers set_ws
       set_sent set_clock set_log] in *.

Ltac core_tac := unfold core in *; proj_simpl; congruence.

Lemma wp_run {A} (m : M A) s r s' (Q : option A -> trader -> Prop) :
  m s = (r, s') -> Q r s' -> wp m s Q.
Proof. unfold wp. intros ->. auto. Qed.

Lemma wp_inv {A} (m : M A) s (Q : option A -> trader -> Prop) :
  wp m s Q -> Q (fst (m s)) (snd (m s)).
Proof. auto. Qed.

Section Specs.

Variable E : env.
Variable cfg : config.

Lemma request_wp channel ev payload auth s (Q : option unit -> trader -> Prop) :
  (forall r s', core s' = core s -> Q r s') ->
  wp (_request E cfg channel ev payload auth) s Q.
Proof.
  intros HQ. unfold _request, ws_send. wp_steps.
  match goal with |- context [ws ?x] => destruct (ws x) as [[|]|] end;
    wp_steps; apply HQ; core_tac.
Qed.

Lemma place_futures_order_wp contract sz price ot close s (Q : option bool -> trader -> Prop) :
  (forall b s', core s' = core s -> Q (Some b) s') ->
  wp (place_futures_order E cfg contract sz price ot close) s Q.
Proof.
  intros HQ. unfold place_futures_order. wp_steps.
  apply request_wp. intros [[]|] s' Hs'; wp_steps; apply HQ; core_tac.
Qed.

Lemma calculate_spread_percentage_wp cur entry s (Q : option decimal -> trader -> Prop) :
  (forall v s', core s' = core s -> Q (Some v) s') ->
  wp (calculate_spread_percentage cur entry) s Q.
Proof.
  intros HQ. unfold calculate_spread_percentage. wp_step.
  destruct (PyDecimal.leb entry PyDecimal.zero).
  { wp_steps. apply HQ. reflexivity. }
  wp_steps.
  destruct (PyDecimal.sub cur entry) as [diff|]; cbv beta iota;
    [|wp_steps; apply HQ; core_tac].
  wp_steps.
  destruct (PyDecimal.abs diff) as [spread|]; cbv beta iota;
    [|wp_steps; apply HQ; core_tac].
  wp_steps.
  destruct (PyDecimal.div spread entry) as [ratio|]; cbv beta iota;
    [|wp_steps; apply HQ; core_tac].
  wp_steps.
  destruct (PyDecimal.mul ratio PyDecimal.hundred) as [pct|]; cbv beta iota;
    [|wp_steps; apply HQ; core_tac].
  wp_steps. apply HQ. reflexivity.
Qed.

Lemma calculate_spread_percentage_nonpositive cur entry s :
  PyDecimal.leb entry PyDecimal.zero = true ->
  calculate_spread_percentage cur entry s = (Some PyDecimal.one_point_zero, s).
Proof.
  intros H. unfold calculate_spread_percentage, try_except. rewrite H. reflexivity.
Qed.

Lemma should_place_buy_order_wp contract s (Q : option (bool * reason) -> trader -> Prop) :
  (forall b r,
      (held s contract -> b = false /\ r = AlreadyHolding) ->
      (b = true ->
       ~ held s contract /\ trade_count s < max_trades cfg /\
       exists tk, tickers s !! contract = Some tk /\
                  PyDecimal.leb (ask tk) PyDecimal.zero = false) ->
      Q (Some (b, r)) s) ->
  wp (should_place_buy_order cfg contract) s Q.
Proof.
  intros HQ. unfold should_place_buy_order. wp_steps.
  destruct (current_position s !! contract) as [p|] eqn:Hp.
  - destruct (0 <? size p) eqn:Hsz.
    + wp_steps. apply HQ; [auto | discriminate].
    + assert (~ held s contract) as Hn.
      { intros (p' & Hp' & Hlt). rewrite Hp in Hp'. injection Hp' as <-.
        apply Z.ltb_ge in Hsz. lia. }
      destruct (max_trades cfg <=? trade_count s) eqn:Hmax.
      { wp_steps. apply HQ; [tauto | discriminate]. }
      apply Z.leb_gt in Hmax.
      destruct (tickers s !! contract) as [tk|] eqn:Htk.
      2:{ wp_steps. apply HQ; [tauto | discriminate]. }
      destruct (PyDecimal.leb (ask tk) PyDecimal.zero) eqn:Hask.
      { wp_steps. apply HQ; [tauto | discriminate]. }
      wp_steps. apply HQ; [tauto |]. intros _. eauto 6.
  - assert (~ held s contract) as Hn.
    { intros (p' & Hp' & _). rewrite Hp in Hp'. discriminate. }
    destruct (max_trades cfg <=? trade_count s) eqn:Hmax.
    { wp_steps. apply HQ; [tauto | discriminate]. }
    apply Z.leb_gt in Hmax.
    destruct (tickers s !! contract) as [tk|] eqn:Htk.
    2:{ wp_steps. apply HQ; [tauto | discriminate]. }
    destruct (PyDecimal.leb (ask tk) PyDecimal.zero) eqn:Hask.
    { wp_steps. apply HQ; [tauto | discriminate]. }
    wp_steps. apply HQ; [tauto |]. intros _. eauto 6.
Qed.

Lemma should_place_sell_order_wp contract s (Q : option (bool * reason) -> trader -> Prop) :
  (forall b r s',
      core s' = core s ->
      (b = true <-> sell_eligible cfg s contract) ->
      Q (Some (b, r)) s') ->
  wp (should_place_sell_order cfg contract) s Q.
Proof.
  intros HQ. unfold should_place_sell_order. wp_steps.
  destruct (current_position s !! contract) as [p|] eqn:Hp.
  2:{ wp_steps. apply HQ; [reflexivity|]. split; [discriminate|].
      intros (p' & tk & v & l & Hp' & _). rewrite Hp in Hp'. discriminate. }
  destruct (size p <=? 0) eqn:Hsz.
  { wp_steps. apply HQ; [reflexivity|]. split; [discriminate|].
    intros (p' & tk & v & l & Hp' & Hlt & _). rewrite Hp in Hp'. injection Hp' as <-.
    apply Z.leb_le in Hsz. lia. }
  apply Z.leb_gt in Hsz.
  destruct (tickers s !! contract) as [tk|] eqn:Htk.
  2:{ wp_steps. apply HQ; [reflexivity|]. split; [discriminate|].
      intros (p' & tk & v & l & _ & _ & Htk' & _). rewrite Htk in Htk'. discriminate. }
  destruct (PyDecimal.leb (bid tk) PyDecimal.zero) eqn:Hbid.
  { wp_steps. apply HQ; [reflexivity|]. split; [discriminate|].
    intros (p' & tk' & v & l & _ & _ & Htk' & Hb & _). rewrite Htk in Htk'.
    injection Htk' as <-. rewrite Hbid in Hb. discriminate. }
  wp_step.
  destruct (calculate_spread_percentage (bid tk) (entry_price p) s) as [r s1] eqn:Hc.
  pose proof (wp_inv _ s _ (calculate_spread_percentage_wp (bid tk) (entry_price p) s
    (fun r s' => (exists v, r = Some v) /\ core s' = core s)
    (fun v s' H => conj (ex_intro _ v eq_refl) H))) as Hspec.
  cbv beta in Hspec. rewrite Hc in Hspec. cbn [fst snd] in Hspec.
  destruct Hspec as [[v ->] Hcore].
  eapply wp_run; [exact Hc|]. cbv beta iota.
  wp_step. wp_step.
  destruct (PyDecimal.mul (spread_threshold cfg) PyDecimal.hundred) as [limit|] eqn:Hlim;
    cbv beta iota.
  2:{ wp_steps. apply HQ; [core_tac|]. split; [discriminate|].
      intros (p' & tk' & v' & l & _ & _ & _ & _ & _ & Hl & _). congruence. }
  destruct (PyDecimal.leb v limit) eqn:Hle.
  - wp_steps. apply HQ; [core_tac|]. split; [|reflexivity]. intros _.
    exists p, tk, v, limit. rewrite Hc. auto 10.
  - wp_steps. apply HQ; [core_tac|]. split; [discriminate|].
    intros (p' & tk' & v' & l & Hp' & _ & Htk' & _ & Hv & Hl & Hle').
    rewrite Hp in Hp'. injection Hp' as <-. rewrite Htk in Htk'. injection Htk' as <-.
    rewrite Hc in Hv. cbn [fst] in Hv. congruence.
Qed.

Lemma execute_buy_order_wp contract s (Q : option bool -> trader -> Prop) :
  (forall s', core s' = core s -> Q (Some false) s') ->
  (forall tk t s',
      tickers s !! contract = Some tk ->
      PyDecimal.gtb (last tk) PyDecimal.zero = true ->
      core s' = core (opened cfg contract tk t s) ->
      Q (Some true) s') ->
  wp (execute_buy_order E cfg contract) s Q.
Proof.
  intros Hno Hyes. unfold execute_buy_order. wp_steps.
  apply place_futures_order_wp. intros [|] s1 H1.
  2:{ wp_steps. apply Hno. core_tac. }
  wp_steps.
  destruct (tickers s1 !! contract) as [tk|] eqn:Htk; cbv beta iota.
  2:{ wp_steps. apply Hno. core_tac. }
  destruct (PyDecimal.gtb (last tk) PyDecimal.zero) eqn:Hgt.
  2:{ wp_steps. apply Hno. core_tac. }
  wp_steps.
  match goal with
  | |- context [Build_position _ _ ?t] => apply (Hyes tk t); [| exact Hgt |]
  end.
  - assert (tickers s1 = tickers s) as <- by core_tac. exact Htk.
  - unfold opened. core_tac.
Qed.

Lemma execute_sell_order_wp contract s (Q : option bool -> trader -> Prop) :
  (forall s', core s' = core s -> Q (Some false) s') ->
  (forall p tk r s',
      current_position s !! contract = Some p ->
      tickers s !! contract = Some tk ->
      PyDecimal.leb (bid tk) PyDecimal.zero = false ->
      tr_contract r = contract -> tr_entry_price r = entry_price p ->
      tr_exit_price r = bid tk -> tr_size r = size p ->
      tr_entry_time r = entry_time p ->
      core s' = core (closed contract r s) ->
      Q (Some true) s') ->
  wp (execute_sell_order E cfg contract) s Q.
Proof.
  intros Hno Hyes. unfold execute_sell_order. wp_steps.
  destruct (current_position s !! contract) as [p|] eqn:Hp.
  2:{ wp_steps. apply Hno. core_tac. }
  wp_steps.
  destruct (tickers s !! contract) as [tk|] eqn:Htk; cbv beta iota.
  2:{ wp_steps. apply Hno. core_tac. }
  destruct (PyDecimal.leb (bid tk) PyDecimal.zero) eqn:Hbid.
  { wp_steps. apply Hno. core_tac. }
  wp_steps.
  destruct (PyDecimal.sub (bid tk) (entry_price p)) as [diff|]; cbv beta iota.
  2:{ wp_steps. apply Hno. core_tac. }
  wp_steps.
  destruct (PyDecimal.mul diff (PyDecimal.of_int (size p))) as [profit|]; cbv beta iota.
  2:{ wp_steps. apply Hno. core_tac. }
  wp_step. apply calculate_spread_percentage_wp. intros pct s1 H1.
  wp_step. apply place_futures_order_wp. intros [|] s2 H2.
  2:{ wp_steps. apply Hno. core_tac. }
  wp_steps.
  match goal with
  | |- context [set_completed_trades (_ ++ [?r]) _] =>
      apply (Hyes p tk r); try reflexivity; try assumption
  end.
  unfold closed. core_tac.
Qed.

Lemma stop_trading_wp s (Q : option unit -> trader -> Prop) :
  (forall s', core s' = core (stopped s) -> Q (Some tt) s') ->
  wp stop_trading s Q.
Proof.
  intros HQ. unfold stop_trading, print_trading_summary. wp_steps.
  match goal with |- context [ws ?x] => destruct (ws x) eqn:Hws end;
    wp_steps; apply HQ; unfold stopped; proj_simpl;
    unfold core; proj_simpl; rewrite Hws; reflexivity.
Qed.

Lemma held_core s s' contract : core s' = core s -> held s contract -> held s' contract.
Proof.
  intros H (p & Hp & Hlt). exists p. split; [|exact Hlt].
  assert (current_position s' = current_position s) as -> by core_tac. exact Hp.
Qed.

Lemma opens_core contract s0 s s' :
  core s = core s0 -> opens cfg contract s s' -> opens cfg contract s0 s'.
Proof.
  intros H (Hn & Hlt & tk & t & Htk & Hgt & Hc).
  split; [|split].
  - intros Hh. apply Hn. apply (held_core s0); [exact H | exact Hh].
  - assert (trade_count s = trade_count s0) as <- by core_tac. exact Hlt.
  - exists tk, t. split; [|split; [exact Hgt|]].
    + assert (tickers s = tickers s0) as <- by core_tac. exact Htk.
    + unfold opened in *. core_tac.
Qed.

Lemma closes_core contract s0 s s' :
  core s = core s0 -> closes cfg contract s s' -> closes cfg contract s0 s'.
Proof.
  intros H (p & tk & r & Hp & Hsz & Htk & H1 & H2 & H3 & H4 & Hc).
  exists p, tk, r.
  assert (current_position s = current_position s0) as <- by core_tac.
  assert (tickers s = tickers s0) as <- by core_tac.
  assert (trade_count s = trade_count s0) as <- by core_tac.
  repeat (split; [assumption|]).
  rewrite Hc. unfold stopped, closed. destruct (max_trades cfg <=? trade_count s + 1); core_tac.
Qed.

Lemma check_trading_opportunities_wp contract s (Q : option unit -> trader -> Prop) :
  (forall s', checked cfg contract s s' -> Q (Some tt) s') ->
  wp (check_trading_opportunities E cfg contract) s Q.
Proof.
  intros HQ. unfold check_trading_opportunities. wp_steps.
  destruct (is_running s) eqn:Hrun; cbn [negb]; cbv iota.
  2:{ wp_steps. apply HQ. unfold checked. rewrite Hrun. reflexivity. }
  assert (forall s', (exists s1, (core s1 = core s \/ opens cfg contract s s1) /\
                                 (core s' = core s1 \/ closes cfg contract s1 s')) ->
                     Q (Some tt) s') as HQ'.
  { intros s' H. apply HQ. unfold checked. rewrite Hrun. exact H. }
  clear HQ.
  wp_step. apply should_place_buy_order_wp. intros should_buy buy_reason _ Hbuy.
  cbv beta iota. wp_step.
  (* the buy branch ends in a state [s1] that is [s] or [s] with a position opened *)
  apply (wp_mono _ _ (fun r s1 => r = Some tt /\ (core s1 = core s \/ opens cfg contract s s1))).
  { destruct should_buy.
    2:{ wp_steps. auto. }
    destruct (Hbuy eq_refl) as (Hn & Hlt & _).
    wp_steps. apply execute_buy_order_wp.
    - intros s1 H1. wp_steps. split; [reflexivity|]. left. core_tac.
    - intros tk t s1 Htk Hgt H1. wp_steps. split; [reflexivity|]. right.
      split; [exact Hn|]. split; [exact Hlt|]. exists tk, t.
      proj_simpl. split; [exact Htk|]. split; [exact Hgt|].
      unfold opened in *. core_tac. }
  intros r s1 [-> Hs1]. 
  wp_step. apply should_place_sell_order_wp. intros should_sell sell_reason s2 H2 Hsell.
  cbv beta iota.
  destruct should_sell.
  2:{ wp_steps. apply HQ'. exists s1. split; [exact Hs1|]. left. exact H2. }
  destruct (proj1 Hsell eq_refl) as (p & tk & v & limit & Hp & Hsz & Htk & _).
  wp_steps. apply execute_sell_order_wp.
  { intros s3 H3. wp_steps. apply HQ'. exists s1. split; [exact Hs1|]. left. core_tac. }
  intros p' tk' r s3 Hp' Htk' Hbid Hr1 Hr2 Hr3 Hr4 _ H3. proj_simpl.
  assert (current_position s2 = current_position s1) as Hcp by core_tac.
  assert (tickers s2 = tickers s1) as Htks by core_tac.
  assert (trade_count s2 = trade_count s1) as Htc by core_tac.
  rewrite Hcp, Hp in Hp'. injection Hp' as <-.
  rewrite Htks, Htk in Htk'. injection Htk' as <-.
  wp_steps. proj_simpl.
  assert (trade_count s3 = trade_count s1 + 1) as Htc3.
  { unfold closed in H3. unfold core in H3. proj_simpl. congruence. }
  rewrite Htc3.
  destruct (max_trades cfg <=? trade_count s1 + 1) eqn:Hmax.
  - wp_steps. apply stop_trading_wp. intros s4 H4. apply HQ'.
    exists s1. split; [exact Hs1|]. right. exists p, tk, r.
    repeat (split; [assumption|]). rewrite Hmax.
    unfold stopped, closed in *. core_tac.
  - wp_steps. apply HQ'.
    exists s1. split; [exact Hs1|]. right. exists p, tk, r.
    repeat (split; [assumption|]). rewrite Hmax.
    unfold closed in *. core_tac.
Qed.

Lemma parse_wp f default s (Q : option decimal -> trader -> Prop) :
  Q None s -> (forall d, Q (Some d) s) -> wp (parse f default) s Q.
Proof. intros Hn Hs. destruct f; cbn [parse]; wp_steps; auto. Qed.

Lemma update_ticker_wp contract tm s (Q : option unit -> trader -> Prop) :
  (forall s', core s' = core s -> Q None s') ->
  (forall tk s',
      core s' = core (set_tickers (<[contract := tk]> (tickers s)) s) ->
      Q (Some tt) s') ->
  wp (update_ticker contract tm) s Q.
Proof.
  intros Hraise Hok. unfold update_ticker.
  assert (Q None s) as Hn by (apply Hraise; reflexivity).
  wp_step. apply parse_wp; [exact Hn|]. intros last_price.
  wp_steps.
  destruct (PyDecimal.mul last_price PyDecimal.d0_9999) as [bid_default|];
    cbv beta iota; [|exact Hn].
  wp_step. apply parse_wp; [exact Hn|]. intros bid_price.
  wp_steps.
  destruct (PyDecimal.mul last_price PyDecimal.d1_0001) as [ask_default|];
    cbv beta iota; [|exact Hn].
  wp_step. apply parse_wp; [exact Hn|]. intros ask_price.
  wp_step. apply parse_wp; [exact Hn|]. intros volume.
  wp_step. apply parse_wp; [exact Hn|]. intros change.
  wp_step. apply parse_wp; [exact Hn|]. intros mark.
  wp_step. apply parse_wp; [exact Hn|]. intros index.
  wp_steps.
  match goal with
  | |- context [tickers ?x !! contract] => destruct (tickers x !! contract) as [tk|]
  end.
  - destruct (negb (PyDecimal.eqb (last tk) last_price)); wp_steps;
      eapply Hok; unfold core; proj_simpl; reflexivity.
  - wp_steps. eapply Hok; unfold core; proj_simpl; reflexivity.
Qed.

Lemma on_ticker_wp tm s (Q : option unit -> trader -> Prop) :
  (forall r s', ticked cfg s s' -> Q r s') ->
  wp (on_ticker E cfg tm) s Q.
Proof.
  intros HQ. unfold on_ticker.
  destruct (tm_contract tm) as [contract|].
  2:{ wp_steps. apply HQ. left. reflexivity. }
  destruct (bool_decide (contract ∈ contracts cfg)).
  2:{ wp_steps. apply HQ. left. reflexivity. }
  wp_step. apply update_ticker_wp.
  - intros s' Hs'. apply HQ. left. exact Hs'.
  - intros tk su Hsu. apply check_trading_opportunities_wp.
    intros s' Hs'. apply HQ. right. exists contract, tk, su. auto.
Qed.
End Specs.

(** ** Invariants of a session *)

Section Invariant.

Variable E : env.
Variable cfg : config.
Variable P : trader -> Prop.

Hypothesis P_core : forall s s', core s' = core s -> P s -> P s'.
Hypothesis P_tick :
  forall s contract tk, P s -> P (set_tickers (<[contract := tk]> (tickers s)) s).
Hypothesis P_opens :
  forall contract s s', is_running s = true -> P s -> opens cfg contract s s' -> P s'.
Hypothesis P_closes :
  forall contract s s', is_running s = true -> P s -> closes cfg contract s s' -> P s'.

Lemma checked_inv contract s s' : checked cfg contract s s' -> P s -> P s'.
Proof.
  unfold checked. destruct (is_running s) eqn:Hrun.
  2:{ intros H. apply P_core. exact H. }
  intros (s1 & H1 & H2) HP.
  assert (P s1 /\ is_running s1 = true) as [HP1 Hrun1].
  { destruct H1 as [H1|H1].
    - split; [apply (P_core s); assumption|].
      assert (is_running s1 = is_running s) as -> by core_tac. exact Hrun.
    - split; [apply (P_opens contract s); assumption|].
      destruct H1 as (_ & _ & tk & t & _ & _ & Hc). unfold opened in Hc.
      assert (is_running s1 = is_running s) as -> by core_tac. exact Hrun. }
  destruct H2 as [H2|H2].
  - apply (P_core s1); assumption.
  - apply (P_closes contract s1); assumption.
Qed.

Lemma ticked_inv s s' : ticked cfg s s' -> P s -> P s'.
Proof.
  intros [H|(contract & tk & su & Hsu & Hc)] HP.
  - apply (P_core s); assumption.
  - apply (checked_inv contract su); [exact Hc|].
    eapply P_core; [exact Hsu|]. apply P_tick. exact HP.
Qed.

Lemma for_each_on_ticker_inv data s :
  P s -> P (snd (for_each (on_ticker E cfg) data s)).
Proof.
  revert s. induction data as [|tm data IH]; intros s HP; cbn [for_each].
  - exact HP.
  - change (wp (bind (on_ticker E cfg tm) (fun _ => for_each (on_ticker E cfg) data)) s
              (fun _ s' => P s')).
    wp_step. apply on_ticker_wp. intros [[]|] s' Hs'.
    + apply IH. apply (ticked_inv s); assumption.
    + apply (ticked_inv s); assumption.
Qed.

Lemma on_ticker_message_inv data s :
  P s -> P (exec (on_ticker_message E cfg data) s).
Proof.
  intros HP. unfold exec.
  change (wp (on_ticker_message E cfg data) s (fun _ s' => P s')).
  unfold on_ticker_message. wp_step.
  apply (wp_mono _ _ (fun _ s' => P s')).
  { apply for_each_on_ticker_inv. exact HP. }
  intros [[]|] s' HP'; [exact HP'|].
  wp_steps. eapply P_core; [|exact HP']. reflexivity.
Qed.

Hypothesis P_ws : forall s w, P s -> P (set_ws w s).

(** Runs without an external stop. *)
Lemma quiet_handle_inv i s : is_stop i = false -> P s -> P (exec (handle E cfg i) s).
Proof.
  intros Hq HP. destruct i as [data| | |]; try discriminate Hq; cbn [handle].
  - apply on_ticker_message_inv. exact HP.
  - unfold exec, modify. cbn [snd]. destruct (ws s); [apply P_ws|]; exact HP.
Qed.


Hypothesis P_stopped : forall s, P s -> P (stopped s).
Hypothesis P_not_running : forall s, P s -> P (set_is_running false s).

Lemma handle_inv i s : P s -> P (exec (handle E cfg i) s).
Proof.
  intros HP. destruct (is_stop i) eqn:Hq; [|apply quiet_handle_inv; assumption].
  destruct i as [data| | |]; try discriminate Hq; cbn [handle].
  - unfold exec. change (wp stop_trading s (fun _ s' => P s')).
    apply stop_trading_wp. intros s' Hs'. eapply P_core; [exact Hs'|].
    apply P_stopped. exact HP.
  - unfold exec, on_close.
    change (wp (bind (logger INFO LogSocketClosed) (fun _ => modify (set_is_running false))) s
              (fun _ s' => P s')).
    wp_steps. eapply P_core; [|apply P_not_running; exact HP]. reflexivity.
Qed.

Lemma run_inv inputs s : P s -> P (run E cfg inputs s).
Proof.
  revert s. induction inputs as [|i inputs IH]; intros s HP; [exact HP|].
  cbn [run fold_left]. apply IH. apply handle_inv. exact HP.
Qed.

End Invariant.

(** The history only grows, at its end, and the counter with it. *)
Lemma run_appends (E : env) (cfg : config) (inputs : list input) (s : trader) :
  exists added,
    completed_trades (run E cfg inputs s) = completed_trades s ++ added /\
    trade_count (run E cfg inputs s) = trade_count s + Z.of_nat (length added).
Proof.
  apply (run_inv E cfg
           (fun s' => exists added,
                completed_trades s' = completed_trades s ++ added /\
                trade_count s' = trade_count s + Z.of_nat (length added))).
  - intros s1 s2 Hc (l & H1 & H2). exists l.
    apply core_fields in Hc. destruct Hc as (_ & Htc & Hct & _). rewrite Htc, Hct. auto.
  - intros s1 contract tk H. exact H.
  - intros contract s1 s2 _ (l & H1 & H2) (_ & _ & tk & t & _ & _ & Hc). exists l.
    unfold opened in Hc. apply core_fields in Hc. proj_simpl.
    destruct Hc as (_ & Htc & Hct & _). rewrite Htc, Hct. auto.
  - intros contract s1 s2 _ (l & H1 & H2) (p & tk & r & _ & _ & _ & _ & _ & _ & _ & Hc).
    exists (l ++ [r]).
    assert (trade_count s2 = trade_count s1 + 1 /\
            completed_trades s2 = completed_trades s1 ++ [r]) as [Htc Hct].
    { unfold stopped, closed in Hc. destruct (max_trades cfg <=? trade_count s1 + 1);
        apply core_fields in Hc; proj_simpl; tauto. }
    rewrite Htc, Hct, H1, H2, length_app, app_assoc. cbn [length]. split; [reflexivity|lia].
  - intros s1 w H. exact H.
  - intros s1 H. exact H.
  - intros s1 H. exact H.
  - exists []. rewrite app_nil_r. cbn. split; [reflexivity|lia].
Qed.

(** ** Order of decimals *)

Lemma cmp_antisym (a b : decimal) : PyDecimal.cmp b a = CompOpp (PyDecimal.cmp a b).
Proof. unfold PyDecimal.cmp. rewrite (Z.min_comm (PyDecimal.expo b)). apply Z.compare_antisym. Qed.

(** [a > b] is the negation of [a <= b]. *)
Lemma gtb_leb (a b : decimal) : PyDecimal.gtb a b = negb (PyDecimal.leb a b).
Proof.
  unfold PyDecimal.gtb, PyDecimal.ltb, PyDecimal.leb. rewrite (cmp_antisym a b).
  destruct (PyDecimal.cmp a b); reflexivity.
Qed.

(** ** The decimal arithmetic on the values of the source

    The results are those of the interpreter: [Decimal('100') *
    Decimal('0.9999')] is [Decimal('99.9900')], a quotient is rounded to 28
    digits, half to even, and a product above [Emax] or a division by zero
    raises. *)

Example mul_default_bid :
  PyDecimal.mul (PyDecimal.mk false 100 0) PyDecimal.d0_9999
  = Some (PyDecimal.mk false 999900 (-4)).
Proof. vm_compute. reflexivity. Qed.

Example mul_default_ask :
  PyDecimal.mul (PyDecimal.mk false 100 0) PyDecimal.d1_0001
  = Some (PyDecimal.mk false 1000100 (-4)).
Proof. vm_compute. reflexivity. Qed.

Example div_rounds_down :
  PyDecimal.div (PyDecimal.mk false 1 (-2)) (PyDecimal.mk false 3 0)
  = Some (PyDecimal.mk false 3333333333333333333333333333 (-30)).
Proof. vm_compute. reflexivity. Qed.

Example div_rounds_up :
  PyDecimal.div (PyDecimal.mk false 2 0) (PyDecimal.mk false 3 0)
  = Some (PyDecimal.mk false 6666666666666666666666666667 (-28)).
Proof. vm_compute. reflexivity. Qed.

Example div_one_seventh :
  PyDecimal.div (PyDecimal.mk false 1 0) (PyDecimal.mk false 7 0)
  = Some (PyDecimal.mk false 1428571428571428571428571429 (-28)).
Proof. vm_compute. reflexivity. Qed.

Example div_by_zero_raises :
  PyDecimal.div (PyDecimal.mk false 1 0) PyDecimal.zero = None.
Proof. reflexivity. Qed.

Example mul_overflow_raises :
  PyDecimal.mul (PyDecimal.mk false 1 999998) PyDecimal.hundred = None.
Proof. vm_compute. reflexivity. Qed.

Example canonical_order_request :
  canonical "futures.orders" None 1700000000
  = "channel=futures.orders&event=None&time=1700000000"%string.
Proof. vm_compute. reflexivity. Qed.

(** ** The state of a freshly started session *)

Section Started.

Variable E : env.
Variable cfg : config.

Lemma request_up_wp channel ev payload auth s (Q : option unit -> trader -> Prop) :
  ws s = Some true ->
  (forall s', core s' = core s -> Q (Some tt) s') ->
  wp (_request E cfg channel ev payload auth) s Q.
Proof.
  intros Hws HQ. unfold _request, ws_send. wp_steps. proj_simpl. rewrite Hws.
  wp_steps. apply HQ. reflexivity.
Qed.

Lemma subscribe_all_wp cs s (Q : option unit -> trader -> Prop) :
  ws s = Some true ->
  (forall s', core s' = core s -> Q (Some tt) s') ->
  wp (for_each (fun contract =>
                  bind (logger INFO (LogSubscribing contract))
                    (fun _ => subscribe E cfg "futures.tickers" (JList [JStr contract]) false))
               cs) s Q.
Proof.
  revert s. induction cs as [|c cs IH]; intros s Hws HQ; cbn [for_each].
  - wp_steps. apply HQ. reflexivity.
  - wp_steps. unfold subscribe. apply request_up_wp; [exact Hws|].
    intros s1 H1. apply IH.
    + assert (ws s1 = ws s) as -> by core_tac. exact Hws.
    + intros s2 H2. apply HQ. core_tac.
Qed.

Lemma started_core :
  core (started E cfg) = core (set_is_running true (set_ws (Some true) init)).
Proof.
  unfold started, exec.
  change (wp (on_open E cfg) (set_ws (Some true) init)
            (fun _ s' => core s' = core (set_is_running true (set_ws (Some true) init)))).
  unfold on_open. wp_steps. apply subscribe_all_wp; [reflexivity|].
  intros s1 H1. wp_step. unfold subscribe.
  assert (ws s1 = Some true) as Hws1 by (apply core_fields in H1; tauto).
  apply request_up_wp; [exact Hws1|]. intros s2 H2. wp_step.
  assert (ws s2 = Some true) as Hws2 by (apply core_fields in H2; destruct H2 as (_&_&_&_&_&_&->); exact Hws1).
  apply request_up_wp; [exact Hws2|]. intros s3 H3. wp_steps.
  core_tac.
Qed.

End Started.

(** ** The claims *)

(** C1 (the code departs from the claim).  For a reference price that is
    not above zero [calculate_spread_percentage] returns [Decimal('1.0')],
    whatever the current price and without raising, and that value is 1,
    not 100: the sentinel is 1 on the percent scale of the function, where
    the claim and the comment of the source say 100%. *)
Theorem C1_sentinel_is_one_not_hundred
    (current_price reference_price : decimal) (s : trader) :
  (if PyDecimal.leb reference_price PyDecimal.zero
   then calculate_spread_percentage current_price reference_price s
        = (Some PyDecimal.one_point_zero, s)
   else True)
  /\ calculate_spread_percentage (PyDecimal.mk false 50 0) PyDecimal.zero s
    = (Some PyDecimal.one_point_zero, s)
  /\ PyDecimal.eqb PyDecimal.one_point_zero PyDecimal.hundred = false
  /\ PyDecimal.eqb PyDecimal.one_point_zero (PyDecimal.of_int 1) = true.
Proof.
  split; [|split; [|split]].
  - destruct (PyDecimal.leb reference_price PyDecimal.zero) eqn:Hle; [|exact I].
    apply calculate_spread_percentage_nonpositive. exact Hle.
  - apply calculate_spread_percentage_nonpositive. reflexivity.
  - reflexivity.
  - reflexivity.
Qed.

(** C7 as stated, where the position recorded for the contract has size
    zero, which [should_place_sell_order] and [should_place_buy_order] take
    for no position: [execute_sell_order] tests the key alone, returns
    [True], deletes the record and adds a trade to the history and one to
    [trade_count].  It is no logged no-op there. *)
Lemma C7_counterexample :
  (exists p, current_position zero_size_held !! "BTC_USDT" = Some p /\ size p <= 0)
  /\ fst (should_place_sell_order zero_amount_config "BTC_USDT" zero_size_held)
     = Some (false, NoPosition)
  /\ fst (execute_sell_order demo_env zero_amount_config "BTC_USDT" zero_size_held)
     = Some true
  /\ trade_count
       (exec (execute_sell_order demo_env zero_amount_config "BTC_USDT") zero_size_held)
     = trade_count zero_size_held + 1
  /\ ~ (fst (execute_sell_order demo_env zero_amount_config "BTC_USDT" zero_size_held)
        = Some false /\
        current_position
          (exec (execute_sell_order demo_env zero_amount_config "BTC_USDT") zero_size_held)
        = current_position zero_size_held /\
        trade_count
          (exec (execute_sell_order demo_env zero_amount_config "BTC_USDT") zero_size_held)
        = trade_count zero_size_held /\
        completed_trades
          (exec (execute_sell_order demo_env zero_amount_config "BTC_USDT") zero_size_held)
        = completed_trades zero_size_held).
Proof.
  split; [|split; [|split; [|split]]].
  - eexists. split; [vm_compute; reflexivity|]. cbn. lia.
  - vm_compute. reflexivity.
  - vm_compute. reflexivity.
  - vm_compute. reflexivity.
  - intros (H & _). vm_compute in H. discriminate H.
Qed.

(** C7 (amended).  [execute_sell_order] on a contract without an entry in
    [current_position] returns [False] without raising and only logs the
    error: the position map, [trade_count] and [completed_trades] are
    unchanged (and so is everything else but the log). *)
Theorem C7_close_without_position_is_logged_noop
    (E : env) (cfg : config) (contract : string) (s : trader) :
  current_position s !! contract = None ->
  execute_sell_order E cfg contract s
    = (Some false, set_log (log s ++ [(ERROR, LogNoPositionToSell contract)]) s)
  /\ current_position (exec (execute_sell_order E cfg contract) s) = current_position s
  /\ trade_count (exec (execute_sell_order E cfg contract) s) = trade_count s
  /\ completed_trades (exec (execute_sell_order E cfg contract) s) = completed_trades s.
Proof.
  intros Hnone.
  assert (execute_sell_order E cfg contract s
          = (Some false, set_log (log s ++ [(ERROR, LogNoPositionToSell contract)]) s)) as Heq.
  { unfold execute_sell_order, try_except, bind, get_self. rewrite Hnone. reflexivity. }
  unfold exec. rewrite Heq. auto.
Qed.

Lemma C7_witness :
  execute_sell_order demo_env demo_config "BTC_USDT" init
    = (Some false, set_log (log init ++ [(ERROR, LogNoPositionToSell "BTC_USDT")]) init)
  /\ current_position (exec (execute_sell_order demo_env demo_config "BTC_USDT") init)
     = current_position init
  /\ trade_count (exec (execute_sell_order demo_env demo_config "BTC_USDT") init)
     = trade_count init
  /\ completed_trades (exec (execute_sell_order demo_env demo_config "BTC_USDT") init)
     = completed_trades init.
Proof.
  apply (C7_close_without_position_is_logged_noop demo_env demo_config "BTC_USDT" init).
  reflexivity.
Defined.

(** C4.  With an open position and a cached bid above zero,
    [should_place_sell_order] answers [True] exactly when the value of
    [calculate_spread_percentage(bid, entry_price)] is at most
    [spread_threshold * Decimal('100')], bound included.  For an entry of
    100 and a threshold of 0.0005: at a bid of 99.95 the spread is 0.05 and
    the answer is [True]; at a bid of 99.90 the spread is 0.10 and the
    answer is [False] (waiting). *)
Theorem C4_sell_iff_spread_within_threshold :
  (forall (cfg : config) (s : trader) (contract : string) (p : position) (tk : ticker),
      current_position s !! contract = Some p -> 0 < size p ->
      tickers s !! contract = Some tk ->
      PyDecimal.gtb (bid tk) PyDecimal.zero = true ->
      (exists r, fst (should_place_sell_order cfg contract s) = Some (true, r)) <->
      (exists spread_pct limit,
          fst (calculate_spread_percentage (bid tk) (entry_price p) s) = Some spread_pct /\
          PyDecimal.mul (spread_threshold cfg) PyDecimal.hundred = Some limit /\
          PyDecimal.leb spread_pct limit = true))
  /\ (exists spread_pct,
        fst (calculate_spread_percentage (PyDecimal.mk false 9995 (-2))
               (PyDecimal.mk false 100 0) (holding_at_100 (PyDecimal.mk false 9995 (-2))))
          = Some spread_pct /\
        PyDecimal.eqb spread_pct (PyDecimal.mk false 5 (-2)) = true /\
        fst (should_place_sell_order demo_config "BTC_USDT"
               (holding_at_100 (PyDecimal.mk false 9995 (-2))))
          = Some (true, CanSell spread_pct))
  /\ (exists spread_pct,
        fst (calculate_spread_percentage (PyDecimal.mk false 9990 (-2))
               (PyDecimal.mk false 100 0) (holding_at_100 (PyDecimal.mk false 9990 (-2))))
          = Some spread_pct /\
        PyDecimal.eqb spread_pct (PyDecimal.mk false 10 (-2)) = true /\
        fst (should_place_sell_order demo_config "BTC_USDT"
               (holding_at_100 (PyDecimal.mk false 9990 (-2))))
          = Some (false, Waiting spread_pct)).
Proof.
  split; [|split].
  - intros cfg s contract p tk Hp Hsz Htk Hbid.
    assert (PyDecimal.leb (bid tk) PyDecimal.zero = false) as Hbid'.
    { rewrite gtb_leb in Hbid. apply negb_true_iff in Hbid. exact Hbid. }
    pose proof (wp_inv _ s _ (should_place_sell_order_wp cfg contract s
      (fun r _ => exists b why, r = Some (b, why) /\ (b = true <-> sell_eligible cfg s contract))
      (fun b why s' _ H => ex_intro _ b (ex_intro _ why (conj eq_refl H))))) as Hspec.
    cbv beta in Hspec. destruct Hspec as (b & why & Hr & Hiff). rewrite Hr.
    split.
    + intros (r & Heq). injection Heq as -> _.
      destruct (proj1 Hiff eq_refl) as (p' & tk' & v & limit & Hp' & _ & Htk' & _ & Hv & Hl & Hle).
      rewrite Hp in Hp'. injection Hp' as <-. rewrite Htk in Htk'. injection Htk' as <-.
      exists v, limit. auto.
    + intros (v & limit & Hv & Hl & Hle). exists why. f_equal. f_equal.
      apply Hiff. exists p, tk, v, limit. auto 10.
  - eexists. split; [vm_compute; reflexivity|]. split; vm_compute; reflexivity.
  - eexists. split; [vm_compute; reflexivity|]. split; vm_compute; reflexivity.
Qed.

Lemma C4_witness :
  (exists r, fst (should_place_sell_order demo_config "BTC_USDT"
                    (holding_at_100 (PyDecimal.mk false 9995 (-2)))) = Some (true, r)) <->
  (exists spread_pct limit,
      fst (calculate_spread_percentage (PyDecimal.mk false 9995 (-2)) (PyDecimal.mk false 100 0)
             (holding_at_100 (PyDecimal.mk false 9995 (-2)))) = Some spread_pct /\
      PyDecimal.mul (spread_threshold demo_config) PyDecimal.hundred = Some limit /\
      PyDecimal.leb spread_pct limit = true).
Proof.
  apply (proj1 C4_sell_iff_spread_within_threshold demo_config
           (holding_at_100 (PyDecimal.mk false 9995 (-2))) "BTC_USDT"
           {| size := 1; entry_price := PyDecimal.mk false 100 0; entry_time := 0 |}
           {| last := PyDecimal.mk false 100 0; bid := PyDecimal.mk false 9995 (-2);
              ask := PyDecimal.mk false 1000100 (-4);
              volume := PyDecimal.zero; change_24h := PyDecimal.zero;
              mark_price := PyDecimal.mk false 100 0;
              index_price := PyDecimal.mk false 100 0 |});
    [reflexivity | cbn; lia | reflexivity | reflexivity].
Defined.

(** C5 as stated, at the scenario: the position recorded by the buy has
    an entry price of 100.01.  It fails. *)
Lemma C5_counterexample :
  ~ (exists p, current_position (bought_100 demo_env) !! "BTC_USDT" = Some p /\
               PyDecimal.eqb (entry_price p) (PyDecimal.mk false 10001 (-2)) = true).
Proof.
  intros (p & Hp & Heq). vm_compute in Hp. injection Hp as <-. vm_compute in Heq.
  discriminate Heq.
Qed.

(** C5 (amended).  In a session with [max_trades = 1] and
    [spread_threshold = 0.0005], a ticker with [last = 100] and no bid or
    ask puts an ask of 100.01 in the cache and makes the buy eligible at
    that ask; the buy succeeds and the position it records has the last
    price, 100, as its entry price, and the configured amount as size. *)
Theorem C5_buy_records_last_price (E : env) :
  (exists tk, tickers (cached_100 E) !! "BTC_USDT" = Some tk /\
              ask tk = PyDecimal.mk false 1000100 (-4) /\
              PyDecimal.eqb (ask tk) (PyDecimal.mk false 10001 (-2)) = true)
  /\ fst (should_place_buy_order demo_config "BTC_USDT" (cached_100 E))
     = Some (true, CanBuy (PyDecimal.mk false 1000100 (-4)))
  /\ fst (execute_buy_order E demo_config "BTC_USDT" (cached_100 E)) = Some true
  /\ (exists p, current_position (bought_100 E) !! "BTC_USDT" = Some p /\
                entry_price p = PyDecimal.mk false 100 0 /\
                size p = trade_amount demo_config /\
                PyDecimal.eqb (entry_price p) (PyDecimal.mk false 10001 (-2)) = false).
Proof.
  split; [|split; [|split]].
  - eexists. split; [vm_compute; reflexivity|]. split; reflexivity.
  - vm_compute. reflexivity.
  - vm_compute. reflexivity.
  - eexists. split; [vm_compute; reflexivity|]. repeat split; reflexivity.
Qed.

(** C9.  There is a ticker (last = 100, bid and ask omitted) for which,
    under a threshold of 0.0005, with no position and the budget untouched,
    one call of [check_trading_opportunities] opens a position and closes
    it: the log of that call reports the position opened and then closed,
    the trade recorded has the last price 100 as entry price and the
    defaulted bid 99.99 as exit price, with a spread of 0.01 that is within
    the limit of 0.05, [trade_count] goes from 0 to 1 and no position is
    left. *)
Theorem C9_open_and_close_in_one_check (E : env) :
  exists tm : ticker_msg,
    tm_last tm = Parsed (PyDecimal.mk false 100 0) /\ tm_bid tm = Absent /\ tm_ask tm = Absent /\
    let s0 := exec (update_ticker "BTC_USDT" tm) (started E demo_config) in
    let s1 := exec (check_trading_opportunities E demo_config "BTC_USDT") s0 in
    current_position s0 !! "BTC_USDT" = None /\ trade_count s0 = 0 /\
    ledger_marks (logged_since s0 s1)
      = [LogLongOpened "BTC_USDT"; LogClosed "BTC_USDT"] /\
    trade_count s1 = 1 /\
    current_position s1 !! "BTC_USDT" = None /\
    (exists r limit,
        completed_trades s1 = [r] /\
        tr_entry_price r = PyDecimal.mk false 100 0 /\
        tr_exit_price r = PyDecimal.mk false 999900 (-4) /\
        PyDecimal.eqb (tr_exit_price r) (PyDecimal.mk false 9999 (-2)) = true /\
        PyDecimal.eqb (tr_profit_pct r) (PyDecimal.mk false 1 (-2)) = true /\
        PyDecimal.mul (spread_threshold demo_config) PyDecimal.hundred = Some limit /\
        PyDecimal.eqb limit (PyDecimal.mk false 5 (-2)) = true /\
        PyDecimal.leb (tr_profit_pct r) limit = true).
Proof.
  exists ticker_last_100.
  split; [reflexivity|]. split; [reflexivity|]. split; [reflexivity|].
  cbv zeta.
  split; [vm_compute; reflexivity|].
  split; [vm_compute; reflexivity|].
  split; [vm_compute; reflexivity|].
  split; [vm_compute; reflexivity|].
  split; [vm_compute; reflexivity|].
  eexists _, _. split; [vm_compute; reflexivity|].
  cbn [tr_entry_price tr_exit_price tr_profit_pct].
  split; [reflexivity|]. split; [reflexivity|]. split; [reflexivity|].
  split; [reflexivity|]. split; [vm_compute; reflexivity|].
  split; reflexivity.
Qed.

(** ** Invariants of the ledger *)

Section LedgerInvariants.

Variable E : env.
Variable cfg : config.

Lemma positions_well_formed_run inputs s :
  positions_well_formed cfg s -> positions_well_formed cfg (run E cfg inputs s).
Proof.
  apply run_inv; clear s.
  - intros s s' Hc HP contract p Hp. apply (HP contract p).
    assert (current_position s' = current_position s) as <- by core_tac. exact Hp.
  - intros s contract tk HP. exact HP.
  - intros contract s s' _ HP (_ & _ & tk & t & _ & Hgt & Hc) c p Hp.
    unfold opened in Hc.
    assert (current_position s'
            = <[contract := {| size := trade_amount cfg; entry_price := last tk;
                               entry_time := t |}]> (current_position s)) as Hcp by core_tac.
    rewrite Hcp in Hp. destruct (decide (contract = c)) as [->|Hne].
    + rewrite lookup_insert_eq in Hp. injection Hp as <-. cbn. auto.
    + rewrite lookup_insert_ne in Hp by exact Hne. apply (HP c p Hp).
  - intros contract s s' _ HP (p0 & tk & r & _ & _ & _ & _ & _ & _ & _ & Hc) c p Hp.
    assert (current_position s' = delete contract (current_position s)) as Hcp.
    { unfold stopped, closed in Hc. destruct (max_trades cfg <=? trade_count s + 1); core_tac. }
    rewrite Hcp in Hp. apply lookup_delete_Some in Hp. destruct Hp as [_ Hp].
    apply (HP c p Hp).
  - intros s w HP. exact HP.
  - intros s HP. exact HP.
  - intros s HP. exact HP.
Qed.

Lemma counted_run inputs s : counted cfg s -> counted cfg (run E cfg inputs s).
Proof.
  apply run_inv; clear s.
  - intros s s' Hc (H1 & H2 & H3).
    apply core_fields in Hc. destruct Hc as (Hcp & Htc & Hct & Hr & _).
    unfold counted. rewrite Hcp, Htc, Hct, Hr. auto.
  - intros s contract tk HP. exact HP.
  - intros contract s s' _ (H1 & H2 & H3) (_ & Hlt & tk & t & _ & _ & Hc).
    unfold opened in Hc. apply core_fields in Hc. proj_simpl.
    destruct Hc as (_ & Htc & Hct & _). unfold counted. rewrite Htc, Hct. auto.
  - intros contract s s' Hrun (H1 & H2 & H3) (p & tk & r & Hp & _ & _ & _ & _ & _ & _ & Hc).
    assert (trade_count s < max_trades cfg) as Hlt.
    { destruct (H3 Hrun) as [Hlt|Hempty]; [exact Hlt|].
      rewrite Hempty, lookup_empty in Hp. discriminate. }
    unfold counted.
    destruct (max_trades cfg <=? trade_count s + 1) eqn:Hmax;
      unfold stopped, closed in Hc; apply core_fields in Hc; proj_simpl;
      destruct Hc as (_ & Htc & Hct & Hr & _); rewrite Htc, Hct, Hr, length_app;
      cbn [length]; (split; [lia|]); (split; [lia|]).
    + discriminate.
    + apply Z.leb_gt in Hmax. intros _. left. lia.
  - intros s w HP. exact HP.
  - intros s (H1 & H2 & _). unfold counted, stopped. proj_simpl.
    split; [exact H1|]. split; [exact H2|]. discriminate.
  - intros s (H1 & H2 & _). unfold counted. proj_simpl.
    split; [exact H1|]. split; [exact H2|]. discriminate.
Qed.


End LedgerInvariants.

Lemma started_counted E cfg : 0 <= max_trades cfg -> counted cfg (started E cfg).
Proof.
  intros Hmax. pose proof (started_core E cfg) as Hc. apply core_fields in Hc. proj_simpl.
  destruct Hc as (Hcp & Htc & Hct & _). unfold counted. rewrite Hcp, Htc, Hct.
  cbn. split; [reflexivity|]. split; [exact Hmax|]. auto.
Qed.

Lemma started_well_formed E cfg : positions_well_formed cfg (started E cfg).
Proof.
  pose proof (started_core E cfg) as Hc. apply core_fields in Hc. proj_simpl.
  destruct Hc as (Hcp & _). intros c p Hp. rewrite Hcp in Hp. unfold init in Hp.
  proj_simpl. rewrite lookup_empty in Hp. discriminate.
Qed.

(** A dictionary holds at most one record per key. *)
Lemma filter_key_absent {V} (l : list (string * V)) (k : string) :
  k ∉ l.*1 -> filter (fun kv => kv.1 = k) l = [].
Proof.
  induction l as [|[k' v] l IH]; intros Hnotin; [reflexivity|].
  cbn [fmap list_fmap fst] in Hnotin. apply not_elem_of_cons in Hnotin.
  destruct Hnotin as [Hne Hnotin].
  rewrite filter_cons. cbn [fst]. destruct (decide (k' = k)) as [Heq|_]; [congruence|].
  apply IH. exact Hnotin.
Qed.

Lemma at_most_one_entry {V} (m : gmap string V) (k : string) :
  (length (filter (fun kv => kv.1 = k) (map_to_list m)) <= 1)%nat.
Proof.
  pose proof (NoDup_fst_map_to_list m) as Hnd.
  induction (map_to_list m) as [|[k' v] l IH]; [cbn; lia|].
  cbn [fmap list_fmap fst] in Hnd. apply NoDup_cons in Hnd. destruct Hnd as [Hnotin Hnd].
  rewrite filter_cons. cbn [fst]. destruct (decide (k' = k)) as [->|Hne].
  - cbn [length]. rewrite (filter_key_absent l k Hnotin). cbn. lia.
  - apply IH. exact Hnd.
Qed.

(** A position held for [contract] survives a check of any contract
    unchanged, or is closed by it: it is never replaced. *)
Lemma checked_keeps_or_closes cfg contract' s s' contract p :
  checked cfg contract' s s' ->
  current_position s !! contract = Some p -> 0 < size p ->
  current_position s' !! contract = Some p \/ current_position s' !! contract = None.
Proof.
  unfold checked. intros H Hp Hsz. destruct (is_running s).
  2:{ left. assert (current_position s' = current_position s) as -> by core_tac. exact Hp. }
  destruct H as (s1 & H1 & H2).
  assert (current_position s1 !! contract = Some p) as Hp1.
  { destruct H1 as [H1|(Hn & _ & tk & t & _ & _ & H1)].
    - assert (current_position s1 = current_position s) as -> by core_tac. exact Hp.
    - unfold opened in H1.
      assert (current_position s1
              = <[contract' := {| size := trade_amount cfg; entry_price := last tk;
                                  entry_time := t |}]> (current_position s)) as -> by core_tac.
      destruct (decide (contract' = contract)) as [->|Hne].
      + exfalso. apply Hn. exists p. auto.
      + rewrite lookup_insert_ne by exact Hne. exact Hp. }
  destruct H2 as [H2|(p0 & tk & r & _ & _ & _ & _ & _ & _ & _ & H2)].
  - left. assert (current_position s' = current_position s1) as -> by core_tac. exact Hp1.
  - assert (current_position s' = delete contract' (current_position s1)) as ->.
    { unfold stopped, closed in H2. destruct (max_trades cfg <=? trade_count s1 + 1); core_tac. }
    destruct (decide (contract' = contract)) as [->|Hne].
    + right. apply lookup_delete_eq.
    + left. rewrite lookup_delete_ne by exact Hne. exact Hp1.
Qed.

(** C2.  After any sequence of inputs, from any state: when a position of
    positive size is recorded for a contract, it is the only record for
    that contract, [should_place_buy_order] refuses with "already holding",
    and the processing of a ticker (cache update, decisions, ledger
    mutation) leaves that very position in place or closes it.  A second
    entry never replaces or joins an open one. *)
Theorem C2_no_double_entry
    (E : env) (cfg : config) (inputs : list input) (s0 : trader)
    (contract : string) (p : position) :
  let s := run E cfg inputs s0 in
  current_position s !! contract = Some p -> 0 < size p ->
  (length (records_of s contract) <= 1)%nat
  /\ should_place_buy_order cfg contract s = (Some (false, AlreadyHolding), s)
  /\ (forall tm : ticker_msg,
        let s' := exec (on_ticker E cfg tm) s in
        current_position s' !! contract = Some p \/ current_position s' !! contract = None)
  /\ (forall contract' : string,
        let s' := exec (check_trading_opportunities E cfg contract') s in
        current_position s' !! contract = Some p \/ current_position s' !! contract = None).
Proof.
  intros s Hp Hsz. split; [|split; [|split]].
  - apply at_most_one_entry.
  - unfold should_place_buy_order, try_except, bind, get_self. rewrite Hp.
    apply Z.ltb_lt in Hsz. rewrite Hsz. reflexivity.
  - intros tm s'. subst s'. unfold exec.
    change (wp (on_ticker E cfg tm) s
              (fun _ s' => current_position s' !! contract = Some p \/
                           current_position s' !! contract = None)).
    apply on_ticker_wp. intros _ s' [Hc|(contract' & tk & su & Hsu & Hch)].
    + left. assert (current_position s' = current_position s) as -> by core_tac. exact Hp.
    + apply (checked_keeps_or_closes cfg contract' su s'); [exact Hch| |exact Hsz].
      assert (current_position su = current_position s) as -> by core_tac. exact Hp.
  - intros contract' s'. subst s'. unfold exec.
    change (wp (check_trading_opportunities E cfg contract') s
              (fun _ s' => current_position s' !! contract = Some p \/
                           current_position s' !! contract = None)).
    apply check_trading_opportunities_wp. intros s' Hch.
    apply (checked_keeps_or_closes cfg contract' s s'); assumption.
Qed.

Lemma C2_witness :
  let s := run demo_env demo_config holding_run (started demo_env demo_config) in
  (length (records_of s "BTC_USDT") <= 1)%nat
  /\ should_place_buy_order demo_config "BTC_USDT" s = (Some (false, AlreadyHolding), s)
  /\ (forall tm : ticker_msg,
        let s' := exec (on_ticker demo_env demo_config tm) s in
        current_position s' !! "BTC_USDT" = Some held_position \/
        current_position s' !! "BTC_USDT" = None)
  /\ (forall contract' : string,
        let s' := exec (check_trading_opportunities demo_env demo_config contract') s in
        current_position s' !! "BTC_USDT" = Some held_position \/
        current_position s' !! "BTC_USDT" = None).
Proof.
  apply (C2_no_double_entry demo_env demo_config holding_run
           (started demo_env demo_config) "BTC_USDT" held_position).
  - vm_compute. reflexivity.
  - cbn. lia.
Defined.




(** C6 as stated, with the budget [max_trades = -1], which the
    configuration accepts: right after [__init__] and at the start of the
    session [trade_count] is 0, above [max_trades]. *)
Lemma C6_counterexample :
  ~ (trade_count init <= max_trades negative_budget_config)
  /\ ~ (trade_count (started demo_env negative_budget_config)
        <= max_trades negative_budget_config).
Proof. split; intros H; vm_compute in H; apply H; reflexivity. Qed.

(** C6 (amended).  After [__init__], at the start of the session and after
    every sequence of inputs, [trade_count] is the length of
    [completed_trades]; for a budget that is not negative it does not
    exceed [max_trades].  [execute_buy_order] changes neither the count nor
    the history; [execute_sell_order] either succeeds, adding one to
    [trade_count] and one record to the history, or fails and changes
    neither. *)
Theorem C6_trade_count_is_history_length (E : env) (cfg : config) :
  trade_count init = Z.of_nat (length (completed_trades init))
  /\ (forall inputs : list input,
        let s := run E cfg inputs (started E cfg) in
        trade_count s = Z.of_nat (length (completed_trades s)))
  /\ (0 <= max_trades cfg ->
      trade_count init <= max_trades cfg /\
      forall inputs : list input,
        trade_count (run E cfg inputs (started E cfg)) <= max_trades cfg)
  /\ (forall (contract : string) (s : trader),
        let s' := exec (execute_buy_order E cfg contract) s in
        trade_count s' = trade_count s /\ completed_trades s' = completed_trades s)
  /\ (forall (contract : string) (s : trader),
        let s' := exec (execute_sell_order E cfg contract) s in
        (fst (execute_sell_order E cfg contract s) = Some true /\
         trade_count s' = trade_count s + 1 /\
         exists r, completed_trades s' = completed_trades s ++ [r])
        \/
        (fst (execute_sell_order E cfg contract s) = Some false /\
         trade_count s' = trade_count s /\ completed_trades s' = completed_trades s)).
Proof.
  split; [|split; [|split; [|split]]].
  - reflexivity.
  - intros inputs s. subst s.
    destruct (run_appends E cfg inputs (started E cfg)) as (added & H1 & H2).
    pose proof (started_core E cfg) as Hc. apply core_fields in Hc. proj_simpl.
    destruct Hc as (_ & Htc & Hct & _).
    rewrite H1, H2, Htc, Hct. cbn. reflexivity.
  - intros Hmax. split; [exact Hmax|]. intros inputs.
    destruct (counted_run E cfg inputs (started E cfg) (started_counted E cfg Hmax))
      as (_ & H2 & _).
    exact H2.
  - intros contract s s'. subst s'. unfold exec.
    change (wp (execute_buy_order E cfg contract) s
              (fun _ s' => trade_count s' = trade_count s /\
                           completed_trades s' = completed_trades s)).
    apply execute_buy_order_wp.
    + intros s' Hc. apply core_fields in Hc. tauto.
    + intros tk t s' _ _ Hc. unfold opened in Hc. apply core_fields in Hc. proj_simpl. tauto.
  - intros contract s s'. subst s'. unfold exec.
    change (wp (execute_sell_order E cfg contract) s
              (fun r s' =>
                 (r = Some true /\ trade_count s' = trade_count s + 1 /\
                  exists r, completed_trades s' = completed_trades s ++ [r])
                 \/ (r = Some false /\ trade_count s' = trade_count s /\
                     completed_trades s' = completed_trades s))).
    apply execute_sell_order_wp.
    + intros s' Hc. right. apply core_fields in Hc. tauto.
    + intros p tk r s' _ _ _ _ _ _ _ _ Hc. left. unfold closed in Hc.
      apply core_fields in Hc. proj_simpl. destruct Hc as (_ & Htc & Hct & _).
      split; [reflexivity|]. split; [exact Htc|]. exists r. exact Hct.
Qed.

Lemma C6_witness :
  0 <= max_trades demo_config /\
  trade_count init <= max_trades demo_config /\
  forall inputs : list input,
    trade_count (run demo_env demo_config inputs (started demo_env demo_config))
    <= max_trades demo_config.
Proof.
  split; [cbn; lia|].
  apply (proj1 (proj2 (proj2 (C6_trade_count_is_history_length demo_env demo_config)))).
  cbn. lia.
Defined.

(** C10.  After any sequence of inputs of a session, every position in
    [current_position] has an entry price above zero and the configured
    trade amount as size.  A buy whose cached last price is not above zero
    returns [False] and leaves the position map as it was. *)
Theorem C10_positions_have_positive_entry (E : env) (cfg : config) :
  (forall (inputs : list input) (contract : string) (p : position),
      current_position (run E cfg inputs (started E cfg)) !! contract = Some p ->
      PyDecimal.gtb (entry_price p) PyDecimal.zero = true /\ size p = trade_amount cfg)
  /\ (forall (contract : string) (s : trader) (tk : ticker),
        tickers s !! contract = Some tk ->
        PyDecimal.leb (last tk) PyDecimal.zero = true ->
        fst (execute_buy_order E cfg contract s) = Some false /\
        current_position (exec (execute_buy_order E cfg contract) s) = current_position s).
Proof.
  split.
  - intros inputs contract p.
    apply (positions_well_formed_run E cfg inputs (started E cfg) (started_well_formed E cfg)).
  - intros contract s tk Htk Hle. unfold exec.
    change (wp (execute_buy_order E cfg contract) s
              (fun r s' => r = Some false /\ current_position s' = current_position s)).
    apply execute_buy_order_wp.
    + intros s' Hc. apply core_fields in Hc. tauto.
    + intros tk' t s' Htk' Hgt _. rewrite Htk in Htk'. injection Htk' as <-.
      rewrite gtb_leb, Hle in Hgt. discriminate.
Qed.

Lemma C10_witness :
  (PyDecimal.gtb (entry_price held_position) PyDecimal.zero = true /\
   size held_position = trade_amount demo_config)
  /\ (fst (execute_buy_order demo_env demo_config "BTC_USDT" last_zero_cached) = Some false /\
      current_position (exec (execute_buy_order demo_env demo_config "BTC_USDT") last_zero_cached)
      = current_position last_zero_cached).
Proof.
  split.
  - apply (proj1 (C10_positions_have_positive_entry demo_env demo_config)
             holding_run "BTC_USDT" held_position).
    vm_compute. reflexivity.
  - apply (proj2 (C10_positions_have_positive_entry demo_env demo_config)
             "BTC_USDT" last_zero_cached
             {| last := PyDecimal.zero; bid := PyDecimal.zero;
                ask := PyDecimal.mk false 1 0; volume := PyDecimal.zero;
                change_24h := PyDecimal.zero; mark_price := PyDecimal.zero;
                index_price := PyDecimal.zero |});
      reflexivity.
Defined.

(** ** The signature *)

Lemma all_lower_hex_app s1 s2 :
  all_lower_hex (s1 ++ s2) = all_lower_hex s1 && all_lower_hex s2.
Proof.
  induction s1 as [|c s1 IH]; [reflexivity|].
  change (String c s1 ++ s2)%string with (String c (s1 ++ s2)).
  cbn [all_lower_hex]. rewrite IH. apply andb_assoc.
Qed.

Lemma hex_of_byte_lower b : all_lower_hex (hex_of_byte b) = true.
Proof. destruct b; reflexivity. Qed.

Lemma hexdigest_lower digest : all_lower_hex (hexdigest digest) = true.
Proof.
  induction digest as [|b digest IH]; [reflexivity|].
  cbn [hexdigest]. rewrite all_lower_hex_app, hex_of_byte_lower, IH. reflexivity.
Qed.

Lemma hexdigest_length digest :
  String.length (hexdigest digest) = (2 * length digest)%nat.
Proof.
  induction digest as [|b digest IH]; [reflexivity|].
  change (String.length (hexdigest (b :: digest)))
    with (S (S (String.length (hexdigest digest)))).
  rewrite IH. cbn [length]. lia.
Qed.

(** C8.  On a connected socket [_request] sends one frame.  With
    [auth_required] the frame carries, next to [time], [channel], [event]
    and [payload], an [auth] object with [method = "api_key"], the API key
    as [KEY] and as [SIGN] the hexadecimal digest, in lowercase and two
    digits per byte, of the HMAC-SHA512 under the API secret of the string
    [channel=<channel>&event=<event>&time=<time>], where [<time>] is the
    [time] of the frame.  Without [auth_required] the frame has no [auth]
    key. *)
Theorem C8_authenticated_frame_is_signed
    (E : env) (cfg : config) (channel : string) (event : option string)
    (payload : json) (s : trader) :
  ws s = Some true ->
  let time := int_seconds (time_time E (clock s)) in
  let message := ("channel=" ++ channel ++ "&event=" ++ str_opt event
                    ++ "&time=" ++ str_int time)%string in
  let digest := hmac_sha512 E (api_secret cfg) message in
  (exists frame,
      sent (exec (_request E cfg channel event payload true) s) = sent s ++ [frame] /\
      json_get "time" frame = Some (JInt time) /\
      json_get "channel" frame = Some (JStr channel) /\
      json_get "event" frame = Some (json_opt event) /\
      json_get "payload" frame = Some payload /\
      json_get "auth" frame
        = Some (JObj [("method", JStr "api_key"); ("KEY", JStr (api_key cfg));
                      ("SIGN", JStr (hexdigest digest))]))
  /\ get_sign E cfg message = hexdigest digest
  /\ all_lower_hex (hexdigest digest) = true
  /\ String.length (hexdigest digest) = (2 * length digest)%nat
  /\ (exists frame,
        sent (exec (_request E cfg channel event payload false) s) = sent s ++ [frame] /\
        json_get "time" frame = Some (JInt time) /\
        json_get "channel" frame = Some (JStr channel) /\
        json_get "auth" frame = None).
Proof.
  intros Hws time message digest.
  split; [|split; [|split; [|split]]].
  - eexists. split.
    + unfold exec, _request, ws_send, bind, now, logger, modify, get_self. cbn [fst snd].
      proj_simpl. rewrite Hws. cbn [snd]. proj_simpl. reflexivity.
    + repeat split; reflexivity.
  - reflexivity.
  - apply hexdigest_lower.
  - apply hexdigest_length.
  - eexists. split.
    + unfold exec, _request, ws_send, bind, now, logger, modify, get_self. cbn [fst snd].
      proj_simpl. rewrite Hws. cbn [snd]. proj_simpl. reflexivity.
    + repeat split; reflexivity.
Qed.

Lemma C8_witness :
  let s := set_ws (Some true) init in
  let time := int_seconds (time_time demo_env (clock s)) in
  let message := "channel=futures.orders&event=subscribe&time=1700000000"%string in
  let digest := hmac_sha512 demo_env (api_secret demo_config) message in
  (exists frame,
      sent (exec (_request demo_env demo_config "futures.orders" (Some "subscribe"%string)
                    JNull true) s) = sent s ++ [frame] /\
      json_get "time" frame = Some (JInt time) /\
      json_get "channel" frame = Some (JStr "futures.orders") /\
      json_get "event" frame = Some (JStr "subscribe") /\
      json_get "payload" frame = Some JNull /\
      json_get "auth" frame
        = Some (JObj [("method", JStr "api_key"); ("KEY", JStr "key");
                      ("SIGN", JStr (hexdigest digest))]))
  /\ get_sign demo_env demo_config message = hexdigest digest
  /\ all_lower_hex (hexdigest digest) = true
  /\ String.length (hexdigest digest) = (2 * length digest)%nat
  /\ (exists frame,
        sent (exec (_request demo_env demo_config "futures.orders" (Some "subscribe"%string)
                      JNull false) s) = sent s ++ [frame] /\
        json_get "time" frame = Some (JInt time) /\
        json_get "channel" frame = Some (JStr "futures.orders") /\
        json_get "auth" frame = None).
Proof.
  apply (C8_authenticated_frame_is_signed demo_env demo_config "futures.orders"
           (Some "subscribe"%string) JNull (set_ws (Some true) init)).
  reflexivity.
Defined.

Lemma place_futures_order_placed E cfg contract sz close s :
  exists b s',
    place_futures_order E cfg contract sz 0 "IOC" close s = (Some b, s') /\
    placed contract sz close s b s'.
Proof.
  unfold placed, place_futures_order, _request, ws_send, try_except, bind, now, logger,
    modify, get_self, ret, raise.
  cbn [fst snd]. proj_simpl.
  destruct (ws s) as [[|]|] eqn:Hws; cbn [fst snd]; proj_simpl.
  - eexists _, _. split; [reflexivity|]. split; [unfold core; proj_simpl; rewrite Hws; reflexivity|].
    split; [reflexivity|]. eexists. split; [reflexivity|].
    destruct close; unfold is_order, is_market_ioc_order, json_str_is, json_int_is,
      json_true, json_has; cbn; rewrite String.eqb_refl, Z.eqb_refl; reflexivity.
  - eexists _, _. split; [reflexivity|].
    split; [unfold core; proj_simpl; rewrite Hws; reflexivity|]. split; reflexivity.
  - eexists _, _. split; [reflexivity|].
    split; [unfold core; proj_simpl; rewrite Hws; reflexivity|]. split; reflexivity.
Qed.

Lemma place_futures_order_placed_wp E cfg contract sz close s
    (Q : option bool -> trader -> Prop) :
  (forall b s', placed contract sz close s b s' -> Q (Some b) s') ->
  wp (place_futures_order E cfg contract sz 0 "IOC" close) s Q.
Proof.
  intros HQ. destruct (place_futures_order_placed E cfg contract sz close s)
    as (b & s' & Heq & Hp).
  eapply wp_run; [exact Heq|]. apply HQ. exact Hp.
Qed.

(** [placed] reads the core and the frames of the state it starts from. *)
Lemma placed_transport contract sz close s0 s b s' :
  core s = core s0 -> sent s = sent s0 ->
  placed contract sz close s b s' -> placed contract sz close s0 b s'.
Proof.
  intros Hc Hs [Hc' Hm]. unfold placed.
  assert (ws s = ws s0) as Hws by (apply core_fields in Hc; tauto).
  rewrite <- Hc, <- Hws, <- Hs. auto.
Qed.

(** The value of [calculate_spread_percentage] does not depend on the
    state. *)
Lemma calculate_spread_percentage_value cur entry s1 s2 :
  fst (calculate_spread_percentage cur entry s1)
  = fst (calculate_spread_percentage cur entry s2).
Proof.
  unfold calculate_spread_percentage, try_except, bind, lift, ret, raise, logger, modify.
  destruct (PyDecimal.leb entry PyDecimal.zero); [reflexivity|].
  destruct (PyDecimal.sub cur entry) as [diff|]; [|reflexivity].
  destruct (PyDecimal.abs diff) as [spread|]; [|reflexivity].
  destruct (PyDecimal.div spread entry) as [ratio|]; [|reflexivity].
  destruct (PyDecimal.mul ratio PyDecimal.hundred); reflexivity.
Qed.

Lemma calculate_spread_percentage_full_wp cur entry s (Q : option decimal -> trader -> Prop) :
  (forall v s', core s' = core s -> sent s' = sent s ->
                fst (calculate_spread_percentage cur entry s) = Some v ->
                Q (Some v) s') ->
  wp (calculate_spread_percentage cur entry) s Q.
Proof.
  intros HQ. unfold wp.
  destruct (calculate_spread_percentage cur entry s) as [r s'] eqn:Heq. cbn [fst snd].
  revert Heq.
  unfold calculate_spread_percentage, try_except, bind, lift, ret, raise, logger, modify.
  destruct (PyDecimal.leb entry PyDecimal.zero).
  { intros [= <- <-]. apply HQ; reflexivity. }
  destruct (PyDecimal.sub cur entry) as [diff|].
  2:{ intros [= <- <-]. apply HQ; reflexivity. }
  destruct (PyDecimal.abs diff) as [spread|].
  2:{ intros [= <- <-]. apply HQ; reflexivity. }
  destruct (PyDecimal.div spread entry) as [ratio|].
  2:{ intros [= <- <-]. apply HQ; reflexivity. }
  destruct (PyDecimal.mul ratio PyDecimal.hundred).
  - intros [= <- <-]. apply HQ; reflexivity.
  - intros [= <- <-]. apply HQ; reflexivity.
Qed.

Section Full.

Variable E : env.
Variable cfg : config.

Lemma execute_buy_order_bought_wp contract s (Q : option bool -> trader -> Prop) :
  (forall r s', bought cfg contract s r s' -> Q (Some r) s') ->
  wp (execute_buy_order E cfg contract) s Q.
Proof.
  intros HQ. unfold execute_buy_order. wp_steps.
  apply place_futures_order_placed_wp. intros b s1 Hp.
  apply (placed_transport _ _ _ s) in Hp; [|reflexivity|reflexivity].
  assert (core s1 = core s) as Hc1 by exact (proj1 Hp).
  destruct b.
  2:{ wp_steps. apply HQ. exists false, s1. split; [exact Hp|]. split; [reflexivity|].
      left. split; [reflexivity|]. split; [core_tac|]. left. reflexivity. }
  wp_steps.
  assert (tickers s1 = tickers s) as Htks by core_tac. rewrite Htks.
  destruct (tickers s !! contract) as [tk|] eqn:Htk; cbv beta iota.
  2:{ wp_steps. apply HQ. exists true, s1. split; [exact Hp|]. split; [reflexivity|].
      left. split; [reflexivity|]. split; [core_tac|]. right. left. exact Htk. }
  destruct (PyDecimal.gtb (last tk) PyDecimal.zero) eqn:Hgt.
  2:{ wp_steps. apply HQ. exists true, s1. split; [exact Hp|]. split; [reflexivity|].
      left. split; [reflexivity|]. split; [core_tac|]. right. right. exists tk. auto. }
  wp_steps.
  match goal with
  | |- context [Build_position _ _ ?t] =>
      apply HQ; exists true, s1; split; [exact Hp|]; split; [reflexivity|];
      right; split; [reflexivity|]; split; [reflexivity|]; exists tk, t
  end.
  split; [exact Htk|]. split; [exact Hgt|]. unfold opened. core_tac.
Qed.

Lemma execute_sell_order_sold_wp contract s (Q : option bool -> trader -> Prop) :
  (forall r s', sold contract s r s' -> Q (Some r) s') ->
  wp (execute_sell_order E cfg contract) s Q.
Proof.
  intros HQ. unfold execute_sell_order. wp_steps.
  destruct (current_position s !! contract) as [p|] eqn:Hp.
  2:{ wp_steps. apply HQ. left. repeat (split; [reflexivity|]). left. exact Hp. }
  assert (forall s', core s' = core s -> sent s' = sent s ->
            (tickers s !! contract = None \/
             exists tk, tickers s !! contract = Some tk /\
               (PyDecimal.leb (bid tk) PyDecimal.zero = true \/
                PyDecimal.sub (bid tk) (entry_price p) = None \/
                (exists diff, PyDecimal.sub (bid tk) (entry_price p) = Some diff /\
                              PyDecimal.mul diff (PyDecimal.of_int (size p)) = None) \/
                ws s = Some false)) ->
            Q (Some false) s') as Hno.
  { intros s' Hc Hs Hwhy. apply HQ. left. split; [reflexivity|]. split; [exact Hc|].
    split; [exact Hs|]. right. exists p. split; [exact Hp|]. exact Hwhy. }
  wp_steps.
  destruct (tickers s !! contract) as [tk|] eqn:Htk; cbv beta iota.
  2:{ wp_steps. apply Hno; [reflexivity|reflexivity|]. left. first [assumption|reflexivity]. }
  assert (forall s', core s' = core s -> sent s' = sent s ->
            (PyDecimal.leb (bid tk) PyDecimal.zero = true \/
             PyDecimal.sub (bid tk) (entry_price p) = None \/
             (exists diff, PyDecimal.sub (bid tk) (entry_price p) = Some diff /\
                           PyDecimal.mul diff (PyDecimal.of_int (size p)) = None) \/
             ws s = Some false) ->
            Q (Some false) s') as Hno'.
  { intros s' Hc Hs Hwhy. apply Hno; [exact Hc|exact Hs|]. right. exists tk.
    split; [first [assumption|reflexivity]|exact Hwhy]. }
  clear Hno.
  destruct (PyDecimal.leb (bid tk) PyDecimal.zero) eqn:Hbid.
  { wp_steps. apply Hno'; [reflexivity|reflexivity|]. left. first [assumption|reflexivity]. }
  wp_steps.
  destruct (PyDecimal.sub (bid tk) (entry_price p)) as [diff|] eqn:Hdiff; cbv beta iota.
  2:{ wp_steps. apply Hno'; [reflexivity|reflexivity|]. right. left. first [assumption|reflexivity]. }
  wp_steps.
  destruct (PyDecimal.mul diff (PyDecimal.of_int (size p))) as [profit|] eqn:Hprofit;
    cbv beta iota.
  2:{ wp_steps. apply Hno'; [reflexivity|reflexivity|]. right. right. left.
      exists diff. split; first [assumption|reflexivity]. }
  wp_step. apply calculate_spread_percentage_full_wp. intros pct s1 Hc1 Hs1 Hpct.
  rewrite (calculate_spread_percentage_value _ _ _ s) in Hpct.
  wp_step. apply place_futures_order_placed_wp. intros b s2 Hpl.
  apply (placed_transport _ _ _ s) in Hpl; [|core_tac|exact Hs1].
  assert (core s2 = core s) as Hc2 by exact (proj1 Hpl).
  destruct b.
  2:{ wp_steps.
      assert (ws s = Some false /\ sent s2 = sent s) as [Hdown Hs2].
      { destruct Hpl as [_ Hm].
        destruct (ws s) as [[|]|]; destruct Hm as [Hb Hm]; try discriminate Hb. auto. }
      apply Hno'; [core_tac|exact Hs2|]. right. right. right. exact Hdown. }
  wp_steps.
  match goal with
  | |- context [set_completed_trades (_ ++ [?r]) _] =>
      apply HQ; right; split; [reflexivity|];
      exists p, tk, diff, profit, pct, r, s2
  end.
  repeat (split; [first [assumption | reflexivity]|]).
  unfold closed. core_tac.
Qed.

End Full.

(** ** Orders *)

(** X1.  [place_futures_order], as the engine calls it (price 0, IOC),
    never raises and leaves the ledger, the cache and the flags alone.  On
    a connected socket it returns [True] and sends exactly one
    authenticated frame on [futures.orders] with the contract, the size,
    price 0 and tif IOC, and with [close] and [reduce_only] exactly for a
    closing order; on a broken socket it returns [False] and sends nothing;
    without a socket it returns [True] although nothing is sent. *)
Theorem X1_place_futures_order_outcome
    (E : env) (cfg : config) (contract : string) (sz : Z) (close : bool) (s : trader) :
  exists b s',
    place_futures_order E cfg contract sz 0 "IOC" close s = (Some b, s') /\
    core s' = core s /\
    match ws s with
    | Some true =>
        b = true /\ exists frame, sent s' = sent s ++ [frame] /\
                                  is_order contract sz close frame = true
    | Some false => b = false /\ sent s' = sent s
    | None => b = true /\ sent s' = sent s
    end.
Proof. exact (place_futures_order_placed E cfg contract sz close s). Qed.

(** X2.  On a connected socket and with a cached last price above zero,
    [execute_buy_order] sends one opening order for the configured amount
    and records the position at the last price, replacing whatever record
    the contract had: the function itself has no guard against a position
    already held.  [trade_count] and the history are untouched. *)
Theorem X2_buy_records_and_replaces
    (E : env) (cfg : config) (contract : string) (s : trader) (tk : ticker) :
  ws s = Some true ->
  tickers s !! contract = Some tk ->
  PyDecimal.gtb (last tk) PyDecimal.zero = true ->
  let s' := exec (execute_buy_order E cfg contract) s in
  fst (execute_buy_order E cfg contract s) = Some true /\
  (exists t, current_position s'
             = <[contract := {| size := trade_amount cfg; entry_price := last tk;
                                entry_time := t |}]> (current_position s)) /\
  trade_count s' = trade_count s /\ completed_trades s' = completed_trades s /\
  exists frame, sent s' = sent s ++ [frame] /\
                is_order contract (trade_amount cfg) false frame = true.
Proof.
  intros Hws Htk Hgt s'. subst s'. unfold exec.
  change (wp (execute_buy_order E cfg contract) s
    (fun r s' =>
       r = Some true /\
       (exists t, current_position s'
                  = <[contract := {| size := trade_amount cfg; entry_price := last tk;
                                     entry_time := t |}]> (current_position s)) /\
       trade_count s' = trade_count s /\ completed_trades s' = completed_trades s /\
       exists frame, sent s' = sent s ++ [frame] /\
                     is_order contract (trade_amount cfg) false frame = true)).
  apply execute_buy_order_bought_wp.
  intros r s' (b & s1 & [_ Hm] & Hs & Hcase). rewrite Hws in Hm.
  destruct Hm as [-> (frame & Hsent & Hframe)].
  destruct Hcase as [(_ & _ & [Hb|[Hn|(tk' & Htk' & Hgt')]])
                    |(-> & _ & tk' & t & Htk' & _ & Hc)].
  - discriminate Hb.
  - congruence.
  - congruence.
  - rewrite Htk in Htk'. injection Htk' as <-. unfold opened in Hc.
    apply core_fields in Hc. proj_simpl. destruct Hc as (Hcp & Htc & Hct & _).
    split; [reflexivity|]. split; [exists t; exact Hcp|].
    split; [exact Htc|]. split; [exact Hct|]. exists frame. rewrite Hs. auto.
Qed.

Lemma X2_witness :
  let s := holding_at_100 (PyDecimal.mk false 9995 (-2)) in
  let s' := exec (execute_buy_order demo_env demo_config "BTC_USDT") s in
  fst (execute_buy_order demo_env demo_config "BTC_USDT" s) = Some true /\
  (exists t, current_position s'
             = <["BTC_USDT"%string :=
                   {| size := trade_amount demo_config;
                      entry_price := PyDecimal.mk false 100 0;
                      entry_time := t |}]> (current_position s)) /\
  trade_count s' = trade_count s /\ completed_trades s' = completed_trades s /\
  exists frame, sent s' = sent s ++ [frame] /\
                is_order "BTC_USDT" (trade_amount demo_config) false frame = true.
Proof.
  apply (X2_buy_records_and_replaces demo_env demo_config "BTC_USDT"
           (holding_at_100 (PyDecimal.mk false 9995 (-2)))
           {| last := PyDecimal.mk false 100 0; bid := PyDecimal.mk false 9995 (-2);
              ask := PyDecimal.mk false 1000100 (-4);
              volume := PyDecimal.zero; change_24h := PyDecimal.zero;
              mark_price := PyDecimal.mk false 100 0;
              index_price := PyDecimal.mk false 100 0 |});
    reflexivity.
Defined.

(** X3.  On a connected socket, when the cache has no entry for the
    contract or its last price is not above zero, [execute_buy_order] still
    sends the opening order and then returns [False] without recording a
    position: the order is on the wire, the ledger does not know it. *)
Theorem X3_buy_order_sent_without_record
    (E : env) (cfg : config) (contract : string) (s : trader) :
  ws s = Some true ->
  (tickers s !! contract = None \/
   exists tk, tickers s !! contract = Some tk /\
              PyDecimal.gtb (last tk) PyDecimal.zero = false) ->
  let s' := exec (execute_buy_order E cfg contract) s in
  fst (execute_buy_order E cfg contract s) = Some false /\
  core s' = core s /\
  exists frame, sent s' = sent s ++ [frame] /\
                is_order contract (trade_amount cfg) false frame = true.
Proof.
  intros Hws Hbad s'. subst s'. unfold exec.
  change (wp (execute_buy_order E cfg contract) s
    (fun r s' =>
       r = Some false /\ core s' = core s /\
       exists frame, sent s' = sent s ++ [frame] /\
                     is_order contract (trade_amount cfg) false frame = true)).
  apply execute_buy_order_bought_wp.
  intros r s' (b & s1 & [_ Hm] & Hs & Hcase). rewrite Hws in Hm.
  destruct Hm as [-> (frame & Hsent & Hframe)].
  destruct Hcase as [(-> & Hc & _)|(_ & _ & tk' & t & Htk' & Hgt' & _)].
  - split; [reflexivity|]. split; [exact Hc|]. exists frame. rewrite Hs. auto.
  - exfalso. destruct Hbad as [Hn|(tk & Htk & Hgt)]; congruence.
Qed.

Lemma X3_witness :
  let s' := exec (execute_buy_order demo_env demo_config "BTC_USDT") last_zero_cached in
  fst (execute_buy_order demo_env demo_config "BTC_USDT" last_zero_cached) = Some false /\
  core s' = core last_zero_cached /\
  exists frame, sent s' = sent last_zero_cached ++ [frame] /\
                is_order "BTC_USDT" (trade_amount demo_config) false frame = true.
Proof.
  apply (X3_buy_order_sent_without_record demo_env demo_config "BTC_USDT" last_zero_cached).
  - reflexivity.
  - right. eexists. split; reflexivity.
Defined.

(** X4.  On a broken socket neither [execute_buy_order] nor
    [execute_sell_order] does anything but log: both return [False], the
    ledger, the cache and the flags are as before and no frame is sent. *)
Theorem X4_broken_socket_changes_nothing
    (E : env) (cfg : config) (contract : string) (s : trader) :
  ws s = Some false ->
  (fst (execute_buy_order E cfg contract s) = Some false /\
   core (exec (execute_buy_order E cfg contract) s) = core s /\
   sent (exec (execute_buy_order E cfg contract) s) = sent s)
  /\
  (fst (execute_sell_order E cfg contract s) = Some false /\
   core (exec (execute_sell_order E cfg contract) s) = core s /\
   sent (exec (execute_sell_order E cfg contract) s) = sent s).
Proof.
  intros Hws. split; unfold exec.
  - change (wp (execute_buy_order E cfg contract) s
      (fun r s' => r = Some false /\ core s' = core s /\ sent s' = sent s)).
    apply execute_buy_order_bought_wp.
    intros r s' (b & s1 & [_ Hm] & Hs & Hcase). rewrite Hws in Hm.
    destruct Hm as [-> Hsent].
    destruct Hcase as [(-> & Hc & _)|(_ & Hb & _)]; [|discriminate Hb].
    split; [reflexivity|]. split; [exact Hc|]. congruence.
  - change (wp (execute_sell_order E cfg contract) s
      (fun r s' => r = Some false /\ core s' = core s /\ sent s' = sent s)).
    apply execute_sell_order_sold_wp.
    intros r s' [(-> & Hc & Hs & _)|(_ & p & tk & diff & profit & pct & rec & s1 & H)].
    + auto.
    + exfalso. destruct H as (_ & _ & _ & _ & _ & _ & _ & _ & _ & _ & _ & _ & _ & [_ Hm] & _).
      rewrite Hws in Hm. destruct Hm as [Hb _]. discriminate Hb.
Qed.

Lemma X4_witness :
  (fst (execute_buy_order demo_env demo_config "BTC_USDT" holding_socket_down) = Some false /\
   core (exec (execute_buy_order demo_env demo_config "BTC_USDT") holding_socket_down)
   = core holding_socket_down /\
   sent (exec (execute_buy_order demo_env demo_config "BTC_USDT") holding_socket_down)
   = sent holding_socket_down)
  /\
  (fst (execute_sell_order demo_env demo_config "BTC_USDT" holding_socket_down) = Some false /\
   core (exec (execute_sell_order demo_env demo_config "BTC_USDT") holding_socket_down)
   = core holding_socket_down /\
   sent (exec (execute_sell_order demo_env demo_config "BTC_USDT") holding_socket_down)
   = sent holding_socket_down).
Proof.
  apply (X4_broken_socket_changes_nothing demo_env demo_config "BTC_USDT" holding_socket_down).
  reflexivity.
Defined.

(** X5.  On a connected socket, with a record for the contract, a cached
    bid above zero and a profit that raises no decimal signal,
    [execute_sell_order] closes whatever the spread is and whatever the
    sign of the size: it sends one closing order for minus the size, with
    [close] and [reduce_only], appends one record (entry price, the bid as
    exit price, the size, the profit [(bid - entry) * size] and the spread
    percentage), adds one to [trade_count] and removes the record of the
    contract. *)
Theorem X5_sell_closes_and_records
    (E : env) (cfg : config) (contract : string) (s : trader)
    (p : position) (tk : ticker) (diff profit : decimal) :
  ws s = Some true ->
  current_position s !! contract = Some p ->
  tickers s !! contract = Some tk ->
  PyDecimal.gtb (bid tk) PyDecimal.zero = true ->
  PyDecimal.sub (bid tk) (entry_price p) = Some diff ->
  PyDecimal.mul diff (PyDecimal.of_int (size p)) = Some profit ->
  let s' := exec (execute_sell_order E cfg contract) s in
  fst (execute_sell_order E cfg contract s) = Some true /\
  current_position s' = delete contract (current_position s) /\
  trade_count s' = trade_count s + 1 /\
  (exists rec,
      completed_trades s' = completed_trades s ++ [rec] /\
      tr_contract rec = contract /\ tr_entry_price rec = entry_price p /\
      tr_exit_price rec = bid tk /\ tr_size rec = size p /\ tr_profit rec = profit /\
      fst (calculate_spread_percentage (bid tk) (entry_price p) s)
      = Some (tr_profit_pct rec) /\
      tr_entry_time rec = entry_time p) /\
  exists frame, sent s' = sent s ++ [frame] /\
                is_order contract (- size p) true frame = true.
Proof.
  intros Hws Hp Htk Hbid Hdiff Hprofit s'. subst s'. unfold exec.
  assert (PyDecimal.leb (bid tk) PyDecimal.zero = false) as Hbid'.
  { rewrite gtb_leb in Hbid. apply negb_true_iff in Hbid. exact Hbid. }
  change (wp (execute_sell_order E cfg contract) s
    (fun r s' =>
       r = Some true /\
       current_position s' = delete contract (current_position s) /\
       trade_count s' = trade_count s + 1 /\
       (exists rec,
           completed_trades s' = completed_trades s ++ [rec] /\
           tr_contract rec = contract /\ tr_entry_price rec = entry_price p /\
           tr_exit_price rec = bid tk /\ tr_size rec = size p /\ tr_profit rec = profit /\
           fst (calculate_spread_percentage (bid tk) (entry_price p) s)
           = Some (tr_profit_pct rec) /\
           tr_entry_time rec = entry_time p) /\
       exists frame, sent s' = sent s ++ [frame] /\
                     is_order contract (- size p) true frame = true)).
  apply execute_sell_order_sold_wp.
  intros r s' [(_ & _ & _ & Hwhy)|(-> & p' & tk' & diff' & profit' & pct & rec & s1 & H)].
  - exfalso. destruct Hwhy as [Hn|(p' & Hp' & Hwhy)]; [congruence|].
    rewrite Hp in Hp'. injection Hp' as <-.
    destruct Hwhy as [Hn|(tk' & Htk' & Hwhy)]; [congruence|].
    rewrite Htk in Htk'. injection Htk' as <-.
    destruct Hwhy as [H|[H|[(d & Hd & Hm)|H]]]; congruence.
  - destruct H as (Hp' & Htk' & _ & Hd' & Hm' & Hpct & H1 & H2 & H3 & H4 & H5 & H6 & H7
                   & [_ Hpl] & Hs & Hc).
    rewrite Hp in Hp'. injection Hp' as <-. rewrite Htk in Htk'. injection Htk' as <-.
    rewrite Hdiff in Hd'. injection Hd' as <-. rewrite Hprofit in Hm'. injection Hm' as <-.
    rewrite Hws in Hpl. destruct Hpl as [_ (frame & Hsent & Hframe)].
    unfold closed in Hc. apply core_fields in Hc. proj_simpl.
    destruct Hc as (Hcp & Htc & Hct & _).
    split; [reflexivity|]. split; [exact Hcp|]. split; [exact Htc|].
    split.
    + exists rec. rewrite H6. auto 10.
    + exists frame. rewrite Hs. auto.
Qed.

Lemma X5_witness :
  let s := holding_at_100 (PyDecimal.mk false 99 0) in
  let s' := exec (execute_sell_order demo_env demo_config "BTC_USDT") s in
  fst (execute_sell_order demo_env demo_config "BTC_USDT" s) = Some true /\
  current_position s' = delete "BTC_USDT"%string (current_position s) /\
  trade_count s' = trade_count s + 1 /\
  (exists rec,
      completed_trades s' = completed_trades s ++ [rec] /\
      tr_contract rec = "BTC_USDT"%string /\
      tr_entry_price rec = PyDecimal.mk false 100 0 /\
      tr_exit_price rec = PyDecimal.mk false 99 0 /\ tr_size rec = 1 /\
      tr_profit rec = PyDecimal.mk true 1 0 /\
      fst (calculate_spread_percentage (PyDecimal.mk false 99 0) (PyDecimal.mk false 100 0) s)
      = Some (tr_profit_pct rec) /\
      tr_entry_time rec = 0) /\
  exists frame, sent s' = sent s ++ [frame] /\ is_order "BTC_USDT" (- 1) true frame = true.
Proof.
  apply (X5_sell_closes_and_records demo_env demo_config "BTC_USDT"
           (holding_at_100 (PyDecimal.mk false 99 0))
           {| size := 1; entry_price := PyDecimal.mk false 100 0; entry_time := 0 |}
           {| last := PyDecimal.mk false 100 0; bid := PyDecimal.mk false 99 0;
              ask := PyDecimal.mk false 1000100 (-4);
              volume := PyDecimal.zero; change_24h := PyDecimal.zero;
              mark_price := PyDecimal.mk false 100 0;
              index_price := PyDecimal.mk false 100 0 |}
           (PyDecimal.mk true 1 0) (PyDecimal.mk true 1 0));
    reflexivity.
Defined.

(** X6.  When [execute_sell_order] returns [False] it has sent nothing and
    changed nothing but the log: unlike a buy, a close never leaves an order
    on the wire that the ledger does not know. *)
Theorem X6_failed_sell_sends_nothing
    (E : env) (cfg : config) (contract : string) (s : trader) :
  fst (execute_sell_order E cfg contract s) = Some false ->
  core (exec (execute_sell_order E cfg contract) s) = core s /\
  sent (exec (execute_sell_order E cfg contract) s) = sent s.
Proof.
  unfold exec.
  change (wp (execute_sell_order E cfg contract) s
    (fun r s' => r = Some false -> core s' = core s /\ sent s' = sent s)).
  apply execute_sell_order_sold_wp.
  intros r s' [(_ & Hc & Hs & _)|(-> & _)]; [auto|discriminate].
Qed.

Lemma X6_witness :
  core (exec (execute_sell_order demo_env demo_config "BTC_USDT")
          (holding_at_100 PyDecimal.zero))
  = core (holding_at_100 PyDecimal.zero) /\
  sent (exec (execute_sell_order demo_env demo_config "BTC_USDT")
          (holding_at_100 PyDecimal.zero))
  = sent (holding_at_100 PyDecimal.zero).
Proof.
  apply (X6_failed_sell_sends_nothing demo_env demo_config "BTC_USDT"
           (holding_at_100 PyDecimal.zero)).
  vm_compute. reflexivity.
Defined.

(** ** The cache *)

Lemma eqb_refl (a : decimal) : PyDecimal.eqb a a = true.
Proof. unfold PyDecimal.eqb, PyDecimal.cmp. rewrite Z.compare_refl. reflexivity. Qed.

Lemma parse_value_wp f default s (Q : option decimal -> trader -> Prop) :
  (f = Unparsable -> Q None s) ->
  (forall d, field_value f default d -> Q (Some d) s) ->
  wp (parse f default) s Q.
Proof.
  intros Hn Hs. destruct f; cbn [parse]; wp_steps.
  - apply Hs. reflexivity.
  - apply Hn. reflexivity.
  - apply Hs. reflexivity.
Qed.

Lemma update_ticker_exact_wp contract tm s (Q : option unit -> trader -> Prop) :
  Q None s ->
  (forall tk, entry_of tm tk ->
              Q (Some tt) (set_tickers (<[contract := tk]> (tickers s)) s)) ->
  wp (update_ticker contract tm) s Q.
Proof.
  intros Hn Hok. unfold update_ticker.
  wp_step. apply parse_value_wp; [intros _; exact Hn|]. intros last_price Hlast.
  wp_steps.
  destruct (PyDecimal.mul last_price PyDecimal.d0_9999) as [bid_default|] eqn:Hbd;
    cbv beta iota; [|exact Hn].
  wp_step. apply parse_value_wp; [intros _; exact Hn|]. intros bid_price Hbid.
  wp_steps.
  destruct (PyDecimal.mul last_price PyDecimal.d1_0001) as [ask_default|] eqn:Had;
    cbv beta iota; [|exact Hn].
  wp_step. apply parse_value_wp; [intros _; exact Hn|]. intros ask_price Hask.
  wp_step. apply parse_value_wp; [intros _; exact Hn|]. intros vol Hvol.
  wp_step. apply parse_value_wp; [intros _; exact Hn|]. intros chg Hch.
  wp_step. apply parse_value_wp; [intros _; exact Hn|]. intros mrk Hmark.
  wp_step. apply parse_value_wp; [intros _; exact Hn|]. intros idx Hidx.
  wp_steps. proj_simpl. rewrite lookup_insert_eq. cbn [last]. rewrite eqb_refl.
  cbn [negb]. wp_steps. apply Hok.
  unfold entry_of. cbn [last bid ask volume change_24h mark_price index_price].
  split; [exact Hlast|]. split; [exists bid_default; auto|].
  split; [exists ask_default; auto|]. auto.
Qed.

Lemma update_ticker_unparsable contract tm s :
  has_unparsable tm -> update_ticker contract tm s = (None, s).
Proof.
  intros Hbad.
  pose proof (wp_inv _ s _ (update_ticker_exact_wp contract tm s
    (fun r s' => r = None -> (r, s') = (None, s))
    (fun _ => eq_refl) (fun tk _ H => ltac:(discriminate H)))) as Hatomic.
  cbv beta in Hatomic.
  destruct (update_ticker contract tm s) as [[[]|] s'] eqn:Heq; cbn [fst snd] in Hatomic;
    [|apply Hatomic; reflexivity].
  exfalso.
  pose proof (wp_inv _ s _ (update_ticker_exact_wp contract tm s
    (fun r _ => r = Some tt -> exists tk, entry_of tm tk)
    (fun H => ltac:(discriminate H)) (fun tk Htk _ => ex_intro _ tk Htk))) as Hentry.
  cbv beta in Hentry. rewrite Heq in Hentry. cbn [fst] in Hentry.
  destruct (Hentry eq_refl) as (tk & H1 & (bd & _ & H2) & (ad & _ & H3) & H4 & H5 & H6 & H7).
  destruct Hbad as [H|[H|[H|[H|[H|[H|H]]]]]];
    rewrite H in *; cbn [field_value] in *; assumption.
Qed.

Lemma update_ticker_outcome (contract : string) (tm : ticker_msg) (s : trader) :
  match fst (update_ticker contract tm s) with
  | Some _ =>
      exists tk, entry_of tm tk /\
                 exec (update_ticker contract tm) s
                 = set_tickers (<[contract := tk]> (tickers s)) s
  | None => exec (update_ticker contract tm) s = s
  end.
Proof.
  unfold exec.
  change (wp (update_ticker contract tm) s
    (fun r s' => match r with
                 | Some _ => exists tk, entry_of tm tk /\
                                        s' = set_tickers (<[contract := tk]> (tickers s)) s
                 | None => s' = s
                 end)).
  apply update_ticker_exact_wp; [reflexivity|]. intros tk Htk. exists tk. auto.
Qed.

(** X7.  The cache update of [on_ticker_message] is all or nothing.  When
    it returns, the entry of the contract is replaced as a whole by one
    built from the message alone (absent bid and ask default to the last
    price times 0.9999 and 1.0001, mark and index price to the last price,
    the rest to zero); the ledger, the flags, the socket and the frames
    sent are as before, and nothing but the log can differ besides.  When
    it raises, which it does as soon as one present field is not a
    decimal, the object is exactly as before, log included. *)
Theorem X7_update_ticker_all_or_nothing
    (contract : string) (tm : ticker_msg) (s : trader) :
  match fst (update_ticker contract tm s) with
  | Some _ =>
      exists tk, entry_of tm tk /\
                 core (exec (update_ticker contract tm) s)
                 = core (set_tickers (<[contract := tk]> (tickers s)) s) /\
                 sent (exec (update_ticker contract tm) s) = sent s
  | None => exec (update_ticker contract tm) s = s
  end
  /\ (has_unparsable tm -> update_ticker contract tm s = (None, s)).
Proof.
  split; [|apply update_ticker_unparsable].
  pose proof (update_ticker_outcome contract tm s) as H.
  destruct (fst (update_ticker contract tm s)); [|exact H].
  destruct H as (tk & Htk & ->). exists tk. auto.
Qed.

Lemma X7_witness :
  update_ticker "BTC_USDT" ticker_bad_last (started demo_env demo_config)
  = (None, started demo_env demo_config).
Proof.
  apply (proj2 (X7_update_ticker_all_or_nothing "BTC_USDT" ticker_bad_last
                  (started demo_env demo_config))).
  left. reflexivity.
Defined.

(** ** A payload of tickers *)

Lemma check_trading_opportunities_returns E cfg contract s :
  fst (check_trading_opportunities E cfg contract s) = Some tt.
Proof.
  change (wp (check_trading_opportunities E cfg contract) s (fun r _ => r = Some tt)).
  apply check_trading_opportunities_wp. reflexivity.
Qed.

(** [on_ticker] raises only out of the cache update, before any change. *)
Lemma on_ticker_raise_unchanged E cfg tm s :
  fst (on_ticker E cfg tm s) = None -> on_ticker E cfg tm s = (None, s).
Proof.
  unfold on_ticker. destruct (tm_contract tm) as [contract|]; [|discriminate].
  destruct (bool_decide (contract ∈ contracts cfg)); [|discriminate].
  unfold bind.
  pose proof (update_ticker_outcome contract tm s) as Hup.
  unfold exec in Hup.
  destruct (update_ticker contract tm s) as [[[]|] su]; cbn [fst snd] in Hup.
  - rewrite (surjective_pairing (check_trading_opportunities E cfg contract su)).
    rewrite check_trading_opportunities_returns. discriminate.
  - intros _. rewrite Hup. reflexivity.
Qed.

Lemma for_each_app {A} (body : A -> M unit) (xs ys : list A) (s : trader) :
  for_each body (xs ++ ys) s
  = match for_each body xs s with
    | (Some _, s1) => for_each body ys s1
    | (None, s1) => (None, s1)
    end.
Proof.
  revert s. induction xs as [|x xs IH]; intros s; [reflexivity|].
  cbn [app for_each]. unfold bind. destruct (body x s) as [[[]|] s1]; [apply IH|reflexivity].
Qed.

(** X8.  [on_ticker_message] never raises.  A ticker of the payload that
    raises (a tracked contract with a field that is not a decimal) ends the
    processing of the payload: the tickers before it have been processed,
    the tickers after it are dropped, whatever they are, and two lines are
    logged. *)
Theorem X8_bad_ticker_drops_rest_of_payload
    (E : env) (cfg : config) (pre post : list ticker_msg) (tm : ticker_msg)
    (s s1 : trader) :
  for_each (on_ticker E cfg) pre s = (Some tt, s1) ->
  fst (on_ticker E cfg tm s1) = None ->
  on_ticker_message E cfg (pre ++ tm :: post) s
  = (Some tt, set_log (log s1 ++ [(ERROR, LogTickerError); (DEBUG, LogRawData)]) s1)
  /\ forall (data : list ticker_msg) (s0 : trader),
       fst (on_ticker_message E cfg data s0) = Some tt.
Proof.
  intros Hpre Hbad. split.
  - unfold on_ticker_message, try_except. rewrite for_each_app, Hpre.
    cbn [for_each]. unfold bind at 1.
    rewrite (on_ticker_raise_unchanged E cfg tm s1 Hbad).
    unfold bind, logger, modify. cbn. rewrite <- app_assoc. reflexivity.
  - intros data s0.
    change (wp (on_ticker_message E cfg data) s0 (fun r _ => r = Some tt)).
    unfold on_ticker_message. wp_step.
    destruct (for_each (on_ticker E cfg) data s0) as [[[]|] s2] eqn:Heq;
      (eapply wp_run; [exact Heq|]); cbv beta iota; [reflexivity|].
    wp_steps. reflexivity.
Qed.

Lemma X8_witness :
  on_ticker_message demo_env demo_config ([] ++ ticker_bad_last :: [ticker_last_100])
    (started demo_env demo_config)
  = (Some tt, set_log (log (started demo_env demo_config)
                         ++ [(ERROR, LogTickerError); (DEBUG, LogRawData)])
                (started demo_env demo_config))
  /\ forall (data : list ticker_msg) (s0 : trader),
       fst (on_ticker_message demo_env demo_config data s0) = Some tt.
Proof.
  apply (X8_bad_ticker_drops_rest_of_payload demo_env demo_config [] [ticker_last_100]
           ticker_bad_last (started demo_env demo_config) (started demo_env demo_config)).
  - reflexivity.
  - vm_compute. reflexivity.
Defined.

(** ** A session that is not running *)

Lemma check_not_running E cfg contract s :
  is_running s = false -> check_trading_opportunities E cfg contract s = (Some tt, s).
Proof.
  intros Hrun. unfold check_trading_opportunities, try_except, bind, get_self.
  rewrite Hrun. reflexivity.
Qed.

Lemma frozen_refl s : is_running s = false -> frozen s s.
Proof. unfold frozen. auto. Qed.

Lemma frozen_trans s1 s2 s3 : frozen s1 s2 -> frozen s2 s3 -> frozen s1 s3.
Proof.
  unfold frozen. intros (H1 & H2 & H3 & H4 & _) (K1 & K2 & K3 & K4 & K5).
  rewrite K1, K2, K3, K4. auto.
Qed.

Section Frozen.

Variable E : env.
Variable cfg : config.

Lemma on_ticker_frozen tm s :
  is_running s = false -> frozen s (snd (on_ticker E cfg tm s)).
Proof.
  intros Hrun. unfold on_ticker.
  destruct (tm_contract tm) as [contract|]; [|apply frozen_refl; exact Hrun].
  destruct (bool_decide (contract ∈ contracts cfg)); [|apply frozen_refl; exact Hrun].
  change (wp (bind (update_ticker contract tm)
                (fun _ => check_trading_opportunities E cfg contract)) s
            (fun _ s' => frozen s s')).
  wp_step. apply update_ticker_exact_wp; [apply frozen_refl; exact Hrun|].
  intros tk _. unfold wp. rewrite check_not_running by exact Hrun.
  cbn [snd]. unfold frozen. proj_simpl. auto.
Qed.

Lemma for_each_on_ticker_frozen data s :
  is_running s = false -> frozen s (snd (for_each (on_ticker E cfg) data s)).
Proof.
  revert s. induction data as [|tm data IH]; intros s Hrun; cbn [for_each].
  - apply frozen_refl. exact Hrun.
  - pose proof (on_ticker_frozen tm s Hrun) as H1. unfold bind.
    destruct (on_ticker E cfg tm s) as [[[]|] s1]; cbn [snd] in *; [|exact H1].
    eapply frozen_trans; [exact H1|]. apply IH. destruct H1 as (_ & _ & _ & _ & H). exact H.
Qed.

Lemma handle_frozen i s : is_running s = false -> frozen s (exec (handle E cfg i) s).
Proof.
  intros Hrun. unfold exec. destruct i as [data| | |]; cbn [handle].
  - unfold on_ticker_message, try_except.
    pose proof (for_each_on_ticker_frozen data s Hrun) as H1.
    destruct (for_each (on_ticker E cfg) data s) as [[[]|] s1]; cbn [snd] in *; [exact H1|].
    unfold bind, logger, modify. cbn [snd]. unfold frozen in *. proj_simpl. exact H1.
  - unfold modify. cbn [snd]. destruct (ws s); unfold frozen; proj_simpl; auto.
  - change (wp stop_trading s (fun _ s' => frozen s s')).
    unfold stop_trading, print_trading_summary. wp_steps.
    match goal with |- context [ws ?x] => destruct (ws x) end;
      wp_steps; unfold frozen; proj_simpl; auto.
  - unfold on_close, bind, logger, modify. cbn [snd]. unfold frozen. proj_simpl. auto.
Qed.

Lemma run_frozen inputs s : is_running s = false -> frozen s (run E cfg inputs s).
Proof.
  revert s. induction inputs as [|i inputs IH]; intros s Hrun.
  - apply frozen_refl. exact Hrun.
  - cbn [run fold_left]. pose proof (handle_frozen i s Hrun) as H1.
    eapply frozen_trans; [exact H1|]. apply IH. destruct H1 as (_ & _ & _ & _ & H). exact H.
Qed.

End Frozen.

(** X9.  A session that is not running stays so whatever arrives (nothing
    but [on_open] sets the flag), and from then on no position is opened or
    closed, [trade_count] and the history stay as they are and no frame is
    sent: tickers only refresh the cache.  A position that is open when the
    session stops is therefore never closed by the engine. *)
Theorem X9_stopped_session_is_frozen
    (E : env) (cfg : config) (inputs : list input) (s : trader) :
  is_running s = false ->
  let s' := run E cfg inputs s in
  current_position s' = current_position s /\
  trade_count s' = trade_count s /\
  completed_trades s' = completed_trades s /\
  sent s' = sent s /\
  is_running s' = false.
Proof. intros Hrun. exact (run_frozen E cfg inputs s Hrun). Qed.

Lemma X9_witness :
  let s' := run demo_env demo_config [Tickers [ticker_last_100]] holding_stopped in
  current_position s' = current_position holding_stopped /\
  trade_count s' = trade_count holding_stopped /\
  completed_trades s' = completed_trades holding_stopped /\
  sent s' = sent holding_stopped /\
  is_running s' = false.
Proof.
  apply (X9_stopped_session_is_frozen demo_env demo_config [Tickers [ticker_last_100]]
           holding_stopped).
  reflexivity.
Defined.

(** ** The history *)

(** X10.  Whatever arrives, from any state, the history only grows at its
    end and [trade_count] grows by the number of records added: a record
    is never changed or removed and the counter never goes down. *)
Theorem X10_history_is_append_only
    (E : env) (cfg : config) (inputs : list input) (s : trader) :
  exists added,
    completed_trades (run E cfg inputs s) = completed_trades s ++ added /\
    trade_count (run E cfg inputs s) = trade_count s + Z.of_nat (length added).
Proof. exact (run_appends E cfg inputs s). Qed.

(** ** What a session holds *)

Section TrackedProofs.

Variable E : env.
Variable cfg : config.

Lemma on_ticker_in_wp tm s (Q : option unit -> trader -> Prop) :
  (forall r s', ticked_in cfg s s' -> Q r s') ->
  wp (on_ticker E cfg tm) s Q.
Proof.
  intros HQ. unfold on_ticker.
  destruct (tm_contract tm) as [contract|].
  2:{ wp_steps. apply HQ. left. reflexivity. }
  destruct (bool_decide (contract ∈ contracts cfg)) eqn:Hin.
  2:{ wp_steps. apply HQ. left. reflexivity. }
  apply bool_decide_eq_true in Hin.
  wp_step. apply update_ticker_wp.
  - intros s' Hs'. apply HQ. left. exact Hs'.
  - intros tk su Hsu. apply check_trading_opportunities_wp.
    intros s' Hs'. apply HQ. right. exists contract, tk, su. auto.
Qed.

Lemma sound_core s s' : core s' = core s -> sound cfg s -> sound cfg s'.
Proof.
  intros Hc HJ. apply core_fields in Hc.
  destruct Hc as (Hcp & _ & Hct & _ & _ & Htk & _).
  unfold sound, tracked, history_sound. rewrite Hcp, Hct, Htk. exact HJ.
Qed.

Lemma sound_tick s contract tk :
  contract ∈ contracts cfg -> sound cfg s ->
  sound cfg (set_tickers (<[contract := tk]> (tickers s)) s).
Proof.
  intros Hin [[Ht Hp] Hh]. split; [split|exact Hh]; proj_simpl.
  - intros c tk' Hl. destruct (decide (contract = c)) as [<-|Hne]; [exact Hin|].
    rewrite lookup_insert_ne in Hl by exact Hne. exact (Ht c tk' Hl).
  - intros c p Hl. destruct (Hp c p Hl) as (H1 & (tk' & H2) & H3 & H4).
    split; [exact H1|]. split; [|auto].
    destruct (decide (contract = c)) as [<-|Hne].
    + exists tk. apply lookup_insert_eq.
    + exists tk'. rewrite lookup_insert_ne by exact Hne. exact H2.
Qed.

Lemma sound_opens contract s s' :
  contract ∈ contracts cfg -> sound cfg s -> opens cfg contract s s' -> sound cfg s'.
Proof.
  intros Hin [[Ht Hp] Hh] (_ & _ & tk & t & Htk & Hgt & Hc).
  unfold opened in Hc. apply core_fields in Hc. proj_simpl.
  destruct Hc as (Hcp & _ & Hct & _ & _ & Htks & _).
  unfold sound, tracked, history_sound. rewrite Hcp, Hct, Htks.
  split; [split; [exact Ht|]|exact Hh].
  intros c p Hl. destruct (decide (contract = c)) as [<-|Hne].
  - rewrite lookup_insert_eq in Hl. injection Hl as <-. cbn [entry_price size].
    split; [exact Hin|]. split; [exists tk; exact Htk|]. auto.
  - rewrite lookup_insert_ne in Hl by exact Hne. exact (Hp c p Hl).
Qed.

Lemma sound_closes contract s s' :
  contract ∈ contracts cfg -> sound cfg s -> closes cfg contract s s' -> sound cfg s'.
Proof.
  intros Hin [[Ht Hp] Hh] (p & tk & r & Hlp & _ & _ & Hr1 & _ & _ & Hr4 & Hc).
  assert (current_position s' = delete contract (current_position s) /\
          completed_trades s' = completed_trades s ++ [r] /\
          tickers s' = tickers s) as (Hcp & Hct & Htks).
  { unfold stopped, closed in Hc. destruct (max_trades cfg <=? trade_count s + 1);
      apply core_fields in Hc; proj_simpl; tauto. }
  unfold sound, tracked, history_sound. rewrite Hcp, Hct, Htks.
  split; [split; [exact Ht|]|].
  - intros c p' Hl. apply lookup_delete_Some in Hl. destruct Hl as [_ Hl]. exact (Hp c p' Hl).
  - intros r' Hin'. apply elem_of_app in Hin'. destruct Hin' as [Hin'|Hin'].
    + exact (Hh r' Hin').
    + apply list_elem_of_singleton in Hin'. subst r'.
      destruct (Hp contract p Hlp) as (_ & _ & _ & Hsz).
      rewrite Hr1, Hr4. auto.
Qed.

Lemma sound_checked contract s s' :
  contract ∈ contracts cfg -> sound cfg s -> checked cfg contract s s' -> sound cfg s'.
Proof.
  intros Hin HJ. unfold checked. destruct (is_running s).
  2:{ intros Hc. exact (sound_core s s' Hc HJ). }
  intros (s1 & H1 & H2).
  assert (sound cfg s1) as HJ1.
  { destruct H1 as [H1|H1]; [exact (sound_core s s1 H1 HJ)|].
    exact (sound_opens contract s s1 Hin HJ H1). }
  destruct H2 as [H2|H2]; [exact (sound_core s1 s' H2 HJ1)|].
  exact (sound_closes contract s1 s' Hin HJ1 H2).
Qed.

Lemma sound_ticked s s' : ticked_in cfg s s' -> sound cfg s -> sound cfg s'.
Proof.
  intros [Hc|(contract & tk & su & Hin & Hsu & Hch)] HJ.
  - exact (sound_core s s' Hc HJ).
  - apply (sound_checked contract su s' Hin); [|exact Hch].
    apply (sound_core _ su Hsu). apply sound_tick; assumption.
Qed.

Lemma sound_for_each data s :
  sound cfg s -> sound cfg (snd (for_each (on_ticker E cfg) data s)).
Proof.
  revert s. induction data as [|tm data IH]; intros s HJ; cbn [for_each]; [exact HJ|].
  change (wp (bind (on_ticker E cfg tm) (fun _ => for_each (on_ticker E cfg) data)) s
            (fun _ s' => sound cfg s')).
  wp_step. apply on_ticker_in_wp. intros [[]|] s' Hs'.
  - apply IH. exact (sound_ticked s s' Hs' HJ).
  - exact (sound_ticked s s' Hs' HJ).
Qed.

Lemma sound_handle i s : sound cfg s -> sound cfg (exec (handle E cfg i) s).
Proof.
  intros HJ. unfold exec. destruct i as [data| | |]; cbn [handle].
  - change (wp (on_ticker_message E cfg data) s (fun _ s' => sound cfg s')).
    unfold on_ticker_message. wp_step.
    apply (wp_mono _ _ (fun _ s' => sound cfg s')); [apply sound_for_each; exact HJ|].
    intros [[]|] s' HJ'; [exact HJ'|]. wp_steps.
    apply (sound_core s'); [reflexivity|exact HJ'].
  - unfold modify. cbn [snd]. destruct (ws s); exact HJ.
  - change (wp stop_trading s (fun _ s' => sound cfg s')).
    apply stop_trading_wp. intros s' Hs'. apply (sound_core _ s' Hs'). exact HJ.
  - unfold on_close, bind, logger, modify. cbn [snd]. exact HJ.
Qed.

Lemma sound_run inputs s : sound cfg s -> sound cfg (run E cfg inputs s).
Proof.
  revert s. induction inputs as [|i inputs IH]; intros s HJ; [exact HJ|].
  cbn [run fold_left]. apply IH. apply sound_handle. exact HJ.
Qed.

Lemma sound_started : sound cfg (started E cfg).
Proof.
  pose proof (started_core E cfg) as Hc. apply core_fields in Hc. proj_simpl.
  destruct Hc as (Hcp & _ & Hct & _ & _ & Htk & _).
  unfold sound, tracked, history_sound. rewrite Hcp, Hct, Htk. unfold init. proj_simpl.
  split; [split|].
  - intros c tk Hl. rewrite lookup_empty in Hl. discriminate.
  - intros c p Hl. rewrite lookup_empty in Hl. discriminate.
  - intros r Hin. apply elem_of_nil in Hin. destruct Hin.
Qed.

End TrackedProofs.

(** X11.  After any sequence of inputs of a session, the cache and the
    ledger hold only contracts of the configuration, and every contract
    with a recorded position has a ticker in the cache (so the lookup of
    the bid in [execute_sell_order] finds one). *)
Theorem X11_only_configured_contracts
    (E : env) (cfg : config) (inputs : list input) :
  let s := run E cfg inputs (started E cfg) in
  (forall contract tk, tickers s !! contract = Some tk -> contract ∈ contracts cfg)
  /\ (forall contract p,
        current_position s !! contract = Some p ->
        contract ∈ contracts cfg /\ exists tk, tickers s !! contract = Some tk).
Proof.
  intros s. destruct (sound_run E cfg inputs (started E cfg) (sound_started E cfg))
    as [[Ht Hp] _].
  split; [exact Ht|]. intros contract p Hl. destruct (Hp contract p Hl) as (H1 & H2 & _).
  auto.
Qed.

Lemma X11_witness :
  "BTC_USDT"%string ∈ contracts demo_config /\
  exists tk, tickers (run demo_env demo_config holding_run (started demo_env demo_config))
             !! "BTC_USDT"%string = Some tk.
Proof.
  apply (proj2 (X11_only_configured_contracts demo_env demo_config holding_run)
           "BTC_USDT"%string held_position).
  vm_compute. reflexivity.
Defined.

(** X12.  After any sequence of inputs of a session, every record of the
    history is a trade of a configured contract and of the configured trade
    amount. *)
Theorem X12_history_records_are_sound
    (E : env) (cfg : config) (inputs : list input) (r : trade_record) :
  r ∈ completed_trades (run E cfg inputs (started E cfg)) ->
  tr_contract r ∈ contracts cfg /\ tr_size r = trade_amount cfg.
Proof.
  destruct (sound_run E cfg inputs (started E cfg) (sound_started E cfg)) as [_ Hh].
  exact (Hh r).
Qed.

Lemma X12_witness :
  tr_contract scenario_trade ∈ contracts demo_config /\
  tr_size scenario_trade = trade_amount demo_config.
Proof.
  apply (X12_history_records_are_sound demo_env demo_config [Tickers [ticker_last_100]]
           scenario_trade).
  assert (completed_trades (run demo_env demo_config [Tickers [ticker_last_100]]
                              (started demo_env demo_config)) = [scenario_trade]) as ->
    by (vm_compute; reflexivity).
  apply list_elem_of_singleton. reflexivity.
Defined.

(** ** Frames sent by the handlers *)

Lemma is_order_market contract sz close frame :
  is_order contract sz close frame = true -> is_market_ioc_order frame = true.
Proof. unfold is_order. intros H. apply andb_prop in H. tauto. Qed.

Lemma orders_since_refl s s' : sent s' = sent s -> orders_since s s'.
Proof. intros H. exists []. rewrite app_nil_r. auto. Qed.

Lemma orders_since_trans s1 s2 s3 :
  orders_since s1 s2 -> orders_since s2 s3 -> orders_since s1 s3.
Proof.
  intros (l1 & H1 & F1) (l2 & H2 & F2). exists (l1 ++ l2).
  rewrite H2, H1, app_assoc, forallb_app, F1, F2. auto.
Qed.

Section Sent.

Variable E : env.
Variable cfg : config.

Lemma should_place_sell_order_sent_wp contract s
    (Q : option (bool * reason) -> trader -> Prop) :
  (forall b r s', core s' = core s -> sent s' = sent s -> Q (Some (b, r)) s') ->
  wp (should_place_sell_order cfg contract) s Q.
Proof.
  intros HQ. unfold should_place_sell_order. wp_steps.
  destruct (current_position s !! contract) as [p|]; [|wp_steps; apply HQ; reflexivity].
  destruct (size p <=? 0); [wp_steps; apply HQ; reflexivity|].
  destruct (tickers s !! contract) as [tk|]; [|wp_steps; apply HQ; reflexivity].
  destruct (PyDecimal.leb (bid tk) PyDecimal.zero); [wp_steps; apply HQ; reflexivity|].
  wp_step. apply calculate_spread_percentage_full_wp. intros v s1 Hc Hs _.
  wp_steps.
  destruct (PyDecimal.mul (spread_threshold cfg) PyDecimal.hundred) as [limit|];
    cbv beta iota.
  2:{ wp_steps. apply HQ; [core_tac|exact Hs]. }
  destruct (PyDecimal.leb v limit); wp_steps; apply HQ; assumption.
Qed.

Lemma stop_trading_sent_wp s (Q : option unit -> trader -> Prop) :
  (forall s', core s' = core (stopped s) -> sent s' = sent s -> Q (Some tt) s') ->
  wp stop_trading s Q.
Proof.
  intros HQ. unfold stop_trading, print_trading_summary. wp_steps.
  match goal with |- context [ws ?x] => destruct (ws x) eqn:Hws end;
    wp_steps; apply HQ; try reflexivity; unfold stopped; proj_simpl;
    unfold core; proj_simpl; rewrite Hws; reflexivity.
Qed.

(** The frames of one check: at most an opening order, then at most a
    closing order, both for the contract checked. *)
Lemma check_trading_opportunities_sent_wp contract s (Q : option unit -> trader -> Prop) :
  (forall s', (exists frames,
                  sent s' = sent s ++ frames /\ (length frames <= 2)%nat /\
                  Forall (is_order_for contract) frames) ->
              Q (Some tt) s') ->
  wp (check_trading_opportunities E cfg contract) s Q.
Proof.
  intros HQ. unfold check_trading_opportunities. wp_steps.
  destruct (is_running s); cbn [negb]; cbv iota.
  2:{ wp_steps. apply HQ. exists []. rewrite app_nil_r. auto. }
  wp_step. apply should_place_buy_order_wp. intros should_buy buy_reason _ _.
  cbv beta iota. wp_step.
  apply (wp_mono _ _ (fun r s1 =>
           r = Some tt /\
           exists l1, sent s1 = sent s ++ l1 /\ (length l1 <= 1)%nat /\
                      Forall (is_order_for contract) l1)).
  { destruct should_buy.
    2:{ wp_steps. split; [reflexivity|]. exists []. rewrite app_nil_r. auto. }
    wp_steps. apply execute_buy_order_bought_wp.
    intros r s1 (b & s0 & [_ Hm] & Hs & _).
    assert (exists l1, sent s1 = sent s ++ l1 /\ (length l1 <= 1)%nat /\
                       Forall (is_order_for contract) l1) as Hl.
    { proj_simpl. rewrite Hs.
      destruct (ws s) as [[|]|].
      - destruct Hm as [_ (frame & Hsent & Hframe)]. exists [frame].
        split; [exact Hsent|]. split; [cbn; lia|].
        apply Forall_singleton. exists (trade_amount cfg), false. exact Hframe.
      - destruct Hm as [_ Hsent]. exists []. rewrite app_nil_r. auto.
      - destruct Hm as [_ Hsent]. exists []. rewrite app_nil_r. auto. }
    destruct r; wp_steps; (split; [reflexivity|]); proj_simpl; exact Hl. }
  intros r s1 [-> (l1 & Hl1 & Hlen1 & HF1)].
  wp_step. apply should_place_sell_order_sent_wp. intros should_sell sell_reason s2 _ Hs2.
  cbv beta iota.
  assert (forall s', sent s' = sent s2 -> Q (Some tt) s') as Hkeep.
  { intros s' Hs'. apply HQ. exists l1. rewrite Hs', Hs2. split; [exact Hl1|].
    split; [lia|exact HF1]. }
  destruct should_sell; [|wp_steps; apply Hkeep; reflexivity].
  wp_steps. apply execute_sell_order_sold_wp.
  intros r s3 [(-> & _ & Hs3 & _)|(-> & p & tk & diff & profit & pct & rec & s0 & H)].
  { wp_steps. apply Hkeep. exact Hs3. }
  destruct H as (_ & _ & _ & _ & _ & _ & _ & _ & _ & _ & _ & _ & _ & [_ Hm] & Hs3 & _).
  proj_simpl.
  assert (exists l2, sent s3 = sent s2 ++ l2 /\ (length l2 <= 1)%nat /\
                     Forall (is_order_for contract) l2) as (l2 & Hl2 & Hlen2 & HF2).
  { rewrite Hs3. destruct (ws s2) as [[|]|].
    - destruct Hm as [_ (frame & Hsent & Hframe)]. exists [frame].
      split; [exact Hsent|]. split; [cbn; lia|].
      apply Forall_singleton. exists (- size p), true. exact Hframe.
    - destruct Hm as [Hb _]. discriminate Hb.
    - destruct Hm as [_ Hsent]. exists []. rewrite app_nil_r. auto. }
  assert (forall s', sent s' = sent s3 -> Q (Some tt) s') as Hend.
  { intros s' Hs'. apply HQ. exists (l1 ++ l2).
    rewrite Hs', Hl2, Hs2, Hl1, app_assoc, length_app.
    split; [reflexivity|]. split; [lia|]. apply Forall_app. auto. }
  wp_steps. proj_simpl.
  match goal with |- context [max_trades cfg <=? ?x] => destruct (max_trades cfg <=? x) end.
  - wp_steps. apply stop_trading_sent_wp. intros s4 _ Hs4. apply Hend. exact Hs4.
  - wp_steps. apply Hend. reflexivity.
Qed.

End Sent.

Section SentRuns.

Variable E : env.
Variable cfg : config.

Lemma on_ticker_orders tm s : orders_since s (snd (on_ticker E cfg tm s)).
Proof.
  unfold on_ticker.
  destruct (tm_contract tm) as [contract|]; [|apply orders_since_refl; reflexivity].
  destruct (bool_decide (contract ∈ contracts cfg)); [|apply orders_since_refl; reflexivity].
  change (wp (bind (update_ticker contract tm)
                (fun _ => check_trading_opportunities E cfg contract)) s
            (fun _ s' => orders_since s s')).
  wp_step. apply update_ticker_exact_wp; [apply orders_since_refl; reflexivity|].
  intros tk _. apply check_trading_opportunities_sent_wp.
  intros s' (frames & Hs & _ & HF). exists frames. split; [exact Hs|].
  apply forallb_forall. intros f Hin. apply list_elem_of_In in Hin.
  rewrite Forall_forall in HF. destruct (HF f Hin) as (sz & close & Hf).
  exact (is_order_market contract sz close f Hf).
Qed.

Lemma for_each_on_ticker_orders data s :
  orders_since s (snd (for_each (on_ticker E cfg) data s)).
Proof.
  revert s. induction data as [|tm data IH]; intros s; cbn [for_each].
  - apply orders_since_refl. reflexivity.
  - pose proof (on_ticker_orders tm s) as H1. unfold bind.
    destruct (on_ticker E cfg tm s) as [[[]|] s1]; cbn [snd] in *; [|exact H1].
    eapply orders_since_trans; [exact H1|apply IH].
Qed.

Lemma handle_orders i s : orders_since s (exec (handle E cfg i) s).
Proof.
  unfold exec. destruct i as [data| | |]; cbn [handle].
  - unfold on_ticker_message, try_except.
    pose proof (for_each_on_ticker_orders data s) as H1.
    destruct (for_each (on_ticker E cfg) data s) as [[[]|] s1]; cbn [snd] in *; [exact H1|].
    unfold bind, logger, modify. cbn [snd]. unfold orders_since in *. proj_simpl. exact H1.
  - unfold modify. cbn [snd]. apply orders_since_refl. destruct (ws s); reflexivity.
  - change (wp stop_trading s (fun _ s' => orders_since s s')).
    apply stop_trading_sent_wp. intros s' _ Hs. apply orders_since_refl. exact Hs.
  - unfold on_close, bind, logger, modify. cbn [snd]. apply orders_since_refl. reflexivity.
Qed.

Lemma run_orders inputs s : orders_since s (run E cfg inputs s).
Proof.
  revert s. induction inputs as [|i inputs IH]; intros s.
  - apply orders_since_refl. reflexivity.
  - cbn [run fold_left]. eapply orders_since_trans; [apply handle_orders|apply IH].
Qed.

End SentRuns.

(** X13.  One call of [check_trading_opportunities] sends at most two
    frames, and each is an order for the contract checked (an
    authenticated market IOC order on [futures.orders]). *)
Theorem X13_check_sends_at_most_two_orders
    (E : env) (cfg : config) (contract : string) (s : trader) :
  exists frames,
    sent (exec (check_trading_opportunities E cfg contract) s) = sent s ++ frames /\
    (length frames <= 2)%nat /\
    Forall (is_order_for contract) frames.
Proof.
  unfold exec.
  change (wp (check_trading_opportunities E cfg contract) s
    (fun _ s' => exists frames, sent s' = sent s ++ frames /\ (length frames <= 2)%nat /\
                                Forall (is_order_for contract) frames)).
  apply check_trading_opportunities_sent_wp. auto.
Qed.

(** X14.  Whatever arrives, from any state, the handlers of a run (of a
    ticker payload, of an interrupt, of the close of the socket) leave the
    frames already sent as they are, and every frame they send is an
    authenticated market order (price 0) with tif IOC on [futures.orders]:
    they never send a limit order, a subscription or an unsubscription.
    The pings of the heartbeat thread, which is no handler, are not
    concerned. *)
Theorem X14_handlers_send_only_market_ioc_orders
    (E : env) (cfg : config) (inputs : list input) (s : trader) :
  exists frames,
    sent (run E cfg inputs s) = sent s ++ frames /\
    forallb is_market_ioc_order frames = true.
Proof. exact (run_orders E cfg inputs s). Qed.

(** ** Opening the session *)

Section Open.

Variable E : env.
Variable cfg : config.

Lemma subscribe_subscribed channel payload auth s :
  exists r s',
    subscribe E cfg channel payload auth s = (r, s') /\
    subscribed channel payload auth s r s'.
Proof.
  unfold subscribed, subscribe, _request, ws_send, bind, now, logger, modify, get_self,
    ret, raise.
  cbn [fst snd]. proj_simpl.
  destruct (ws s) as [[|]|] eqn:Hws; cbn [fst snd]; proj_simpl.
  - eexists _, _. split; [reflexivity|].
    split; [unfold core; proj_simpl; rewrite Hws; reflexivity|].
    split; [reflexivity|]. eexists. split; [reflexivity|].
    split; [|destruct auth; reflexivity].
    destruct auth; unfold is_subscription, json_str_is, json_has; cbn;
      rewrite String.eqb_refl; reflexivity.
  - eexists _, _. split; [reflexivity|].
    split; [unfold core; proj_simpl; rewrite Hws; reflexivity|]. split; reflexivity.
  - eexists _, _. split; [reflexivity|].
    split; [unfold core; proj_simpl; rewrite Hws; reflexivity|]. split; reflexivity.
Qed.

Lemma subscribe_subscribed_wp channel payload auth s (Q : option unit -> trader -> Prop) :
  (forall r s', subscribed channel payload auth s r s' -> Q r s') ->
  wp (subscribe E cfg channel payload auth) s Q.
Proof.
  intros HQ. destruct (subscribe_subscribed channel payload auth s) as (r & s' & Heq & H).
  eapply wp_run; [exact Heq|]. apply HQ. exact H.
Qed.

(** The loop of [on_open] over the contracts. *)
Lemma subscribe_tickers_wp cs s (Q : option unit -> trader -> Prop) :
  (forall r s',
      core s' = core s ->
      match ws s with
      | Some true =>
          r = Some tt /\ exists subs, sent s' = sent s ++ subs /\
                                      Forall2 is_ticker_subscription cs subs
      | Some false => (r = None \/ cs = []) /\ sent s' = sent s
      | None => r = Some tt /\ sent s' = sent s
      end ->
      Q r s') ->
  wp (for_each (fun contract =>
                  bind (logger INFO (LogSubscribing contract))
                    (fun _ => subscribe E cfg "futures.tickers" (JList [JStr contract]) false))
               cs) s Q.
Proof.
  revert s Q. induction cs as [|c cs IH]; intros s Q HQ; cbn [for_each].
  - wp_steps. apply HQ; [reflexivity|].
    destruct (ws s) as [[|]|]; [|auto|auto].
    split; [reflexivity|]. exists []. rewrite app_nil_r. split; [reflexivity|constructor].
  - wp_steps. apply subscribe_subscribed_wp. intros r s1 [Hc1 Hm1]. proj_simpl.
    assert (ws s1 = ws s) as Hws1 by core_tac.
    destruct (ws s) as [[|]|] eqn:Hws.
    + destruct Hm1 as [-> (frame & Hsent & Hsub & Hpay)].
      apply IH. intros r' s' Hc' Hm'. rewrite Hws1 in Hm'.
      destruct Hm' as [-> (subs & Hsent' & HF)].
      apply HQ; [core_tac|]. split; [reflexivity|]. exists (frame :: subs).
      split; [rewrite Hsent', Hsent, <- app_assoc; reflexivity|].
      constructor; [split; assumption|exact HF].
    + destruct Hm1 as [-> Hsent]. apply HQ; [core_tac|]. auto.
    + destruct Hm1 as [-> Hsent].
      apply IH. intros r' s' Hc' Hm'. rewrite Hws1 in Hm'.
      destruct Hm' as [-> Hsent']. apply HQ; [core_tac|]. split; [reflexivity|congruence].
Qed.

Lemma on_open_outcome s :
  let s' := exec (on_open E cfg) s in
  current_position s' = current_position s /\ trade_count s' = trade_count s /\
  completed_trades s' = completed_trades s /\ tickers s' = tickers s /\
  match ws s with
  | Some true =>
      fst (on_open E cfg s) = Some tt /\ is_running s' = true /\
      exists subs orders usertrades,
        sent s' = sent s ++ subs ++ [orders; usertrades] /\
        Forall2 is_ticker_subscription (contracts cfg) subs /\
        is_subscription "futures.orders" true orders = true /\
        is_subscription "futures.usertrades" true usertrades = true
  | Some false =>
      fst (on_open E cfg s) = None /\ is_running s' = is_running s /\ sent s' = sent s
  | None =>
      fst (on_open E cfg s) = Some tt /\ is_running s' = true /\ sent s' = sent s
  end.
Proof.
  intros s'. subst s'. unfold exec.
  change (wp (on_open E cfg) s
    (fun r s' =>
       current_position s' = current_position s /\ trade_count s' = trade_count s /\
       completed_trades s' = completed_trades s /\ tickers s' = tickers s /\
       match ws s with
       | Some true =>
           r = Some tt /\ is_running s' = true /\
           exists subs orders usertrades,
             sent s' = sent s ++ subs ++ [orders; usertrades] /\
             Forall2 is_ticker_subscription (contracts cfg) subs /\
             is_subscription "futures.orders" true orders = true /\
             is_subscription "futures.usertrades" true usertrades = true
       | Some false => r = None /\ is_running s' = is_running s /\ sent s' = sent s
       | None => r = Some tt /\ is_running s' = true /\ sent s' = sent s
       end)).
  unfold on_open. wp_steps. apply subscribe_tickers_wp. intros r1 s1 Hc1 Hm1. proj_simpl.
  assert (ws s1 = ws s) as Hws1 by core_tac.
  assert (current_position s1 = current_position s /\ trade_count s1 = trade_count s /\
          completed_trades s1 = completed_trades s /\ tickers s1 = tickers s /\
          is_running s1 = is_running s) as (K1 & K2 & K3 & K4 & K5).
  { apply core_fields in Hc1. proj_simpl. tauto. }
  destruct (ws s) as [[|]|] eqn:Hws.
  - destruct Hm1 as [-> (subs & Hsent1 & HF)].
    wp_step. apply subscribe_subscribed_wp. intros r2 s2 [Hc2 Hm2]. rewrite Hws1 in Hm2.
    destruct Hm2 as [-> (f2 & Hsent2 & Hsub2 & _)].
    assert (ws s2 = Some true) as Hws2 by (rewrite <- Hws1; core_tac).
    wp_step. apply subscribe_subscribed_wp. intros r3 s3 [Hc3 Hm3]. rewrite Hws2 in Hm3.
    destruct Hm3 as [-> (f3 & Hsent3 & Hsub3 & _)].
    wp_steps. proj_simpl.
    apply core_fields in Hc2, Hc3.
    destruct Hc2 as (A1 & A2 & A3 & _ & _ & A4 & _).
    destruct Hc3 as (B1 & B2 & B3 & _ & _ & B4 & _).
    rewrite B1, B2, B3, B4, A1, A2, A3, A4.
    repeat (split; [first [assumption|reflexivity]|]).
    exists subs, f2, f3. rewrite Hsent3, Hsent2, Hsent1, <- !app_assoc. auto.
  - destruct Hm1 as [[->|Hnil] Hsent1].
    + repeat (split; [first [assumption|reflexivity]|]). exact Hsent1.
    + destruct r1 as [[]|]; [|repeat (split; [first [assumption|reflexivity]|]); exact Hsent1].
      wp_step. apply subscribe_subscribed_wp. intros r2 s2 [Hc2 Hm2]. rewrite Hws1 in Hm2.
      destruct Hm2 as [-> Hsent2].
      apply core_fields in Hc2. destruct Hc2 as (A1 & A2 & A3 & A5 & _ & A4 & _).
      rewrite A1, A2, A3, A4, A5, Hsent2.
      repeat (split; [first [assumption|reflexivity]|]). exact Hsent1.
  - destruct Hm1 as [-> Hsent1].
    wp_step. apply subscribe_subscribed_wp. intros r2 s2 [Hc2 Hm2]. rewrite Hws1 in Hm2.
    destruct Hm2 as [-> Hsent2].
    assert (ws s2 = None) as Hws2 by (rewrite <- Hws1; core_tac).
    wp_step. apply subscribe_subscribed_wp. intros r3 s3 [Hc3 Hm3]. rewrite Hws2 in Hm3.
    destruct Hm3 as [-> Hsent3].
    wp_steps. proj_simpl.
    apply core_fields in Hc2, Hc3.
    destruct Hc2 as (A1 & A2 & A3 & _ & _ & A4 & _).
    destruct Hc3 as (B1 & B2 & B3 & _ & _ & B4 & _).
    rewrite B1, B2, B3, B4, A1, A2, A3, A4, Hsent3, Hsent2.
    repeat (split; [first [assumption|reflexivity]|]). exact Hsent1.
Qed.

End Open.

(** X15.  [on_open] leaves the ledger and the cache alone.  On a connected
    socket it returns, sets the session running and sends, in this order,
    one unauthenticated subscription to [futures.tickers] per configured
    contract (the contract alone in the payload) and then the authenticated
    subscriptions to [futures.orders] and [futures.usertrades].  On a
    broken socket it raises before the flag is set, so the session does not
    start, and sends nothing.  Without a socket it sets the session running
    although nothing is sent. *)
Theorem X15_on_open_subscribes_then_runs (E : env) (cfg : config) (s : trader) :
  let s' := exec (on_open E cfg) s in
  current_position s' = current_position s /\ trade_count s' = trade_count s /\
  completed_trades s' = completed_trades s /\ tickers s' = tickers s /\
  match ws s with
  | Some true =>
      fst (on_open E cfg s) = Some tt /\ is_running s' = true /\
      exists subs orders usertrades,
        sent s' = sent s ++ subs ++ [orders; usertrades] /\
        Forall2 is_ticker_subscription (contracts cfg) subs /\
        is_subscription "futures.orders" true orders = true /\
        is_subscription "futures.usertrades" true usertrades = true
  | Some false =>
      fst (on_open E cfg s) = None /\ is_running s' = is_running s /\ sent s' = sent s
  | None =>
      fst (on_open E cfg s) = Some tt /\ is_running s' = true /\ sent s' = sent s
  end.
Proof. exact (on_open_outcome E cfg s). Qed.

(** ** Stopping *)

(** X16.  [stop_trading] never raises; it clears [is_running], sets the
    event that ends the heartbeat, closes the socket if there is one and
    leaves the ledger, the cache and the frames sent as they are; it logs a
    summary of the history.  Stopping a second time changes nothing but the
    log. *)
Theorem X16_stop_trading_is_idempotent (s : trader) :
  let s1 := exec stop_trading s in
  let s2 := exec stop_trading s1 in
  fst (stop_trading s) = Some tt /\
  is_running s1 = false /\ event s1 = true /\
  ws s1 = match ws s with Some _ => Some false | None => None end /\
  current_position s1 = current_position s /\ trade_count s1 = trade_count s /\
  completed_trades s1 = completed_trades s /\ tickers s1 = tickers s /\
  sent s1 = sent s /\
  log s1 = log s ++ [(INFO, LogStopping); (INFO, LogSummary (completed_trades s))] /\
  core s2 = core s1 /\ sent s2 = sent s1.
Proof.
  intros s1 s2. subst s1 s2. unfold exec, stop_trading, print_trading_summary, bind,
    logger, modify, get_self, ret.
  cbn [fst snd]. proj_simpl.
  destruct (ws s) as [w|] eqn:Hws; cbn [fst snd]; proj_simpl; rewrite ?Hws;
    cbn [fst snd]; proj_simpl; unfold core; proj_simpl; rewrite <- ?app_assoc;
    repeat (split; [reflexivity|]); reflexivity.
Qed.

(** ** The buy decision *)

(** X17.  [should_place_buy_order] changes nothing and never raises.  It
    answers [True] exactly when no position of positive size is recorded
    for the contract, [trade_count] is below [max_trades], a ticker is
    cached and its ask is above zero; the reason it gives then carries that
    ask.  The last price, at which the position will be recorded, plays no
    role in the decision. *)
Theorem X17_buy_decision
    (cfg : config) (contract : string) (s : trader) :
  exists b why,
    should_place_buy_order cfg contract s = (Some (b, why), s) /\
    (b = true <->
     (forall p, current_position s !! contract = Some p -> size p <= 0) /\
     trade_count s < max_trades cfg /\
     exists tk, tickers s !! contract = Some tk /\
                PyDecimal.gtb (ask tk) PyDecimal.zero = true /\
                why = CanBuy (ask tk)).
Proof.
  unfold should_place_buy_order, try_except, bind, get_self, ret.
  destruct (current_position s !! contract) as [p|] eqn:Hp.
  - destruct (0 <? size p) eqn:Hsz.
    { eexists _, _. split; [reflexivity|]. split; [discriminate|].
      intros (Hn & _). apply Z.ltb_lt in Hsz. specialize (Hn p eq_refl). lia. }
    apply Z.ltb_ge in Hsz.
    destruct (max_trades cfg <=? trade_count s) eqn:Hmax.
    { eexists _, _. split; [reflexivity|]. split; [discriminate|].
      intros (_ & Hlt & _). apply Z.leb_le in Hmax. lia. }
    apply Z.leb_gt in Hmax.
    destruct (tickers s !! contract) as [tk|] eqn:Htk.
    2:{ eexists _, _. split; [reflexivity|]. split; [discriminate|].
        intros (_ & _ & tk & Htk' & _). discriminate. }
    destruct (PyDecimal.leb (ask tk) PyDecimal.zero) eqn:Hask.
    { eexists _, _. split; [reflexivity|]. split; [discriminate|].
      intros (_ & _ & tk' & Htk' & Hgt & _). injection Htk' as <-.
      rewrite gtb_leb, Hask in Hgt. discriminate. }
    eexists _, _. split; [reflexivity|]. split; [|reflexivity]. intros _.
    split; [intros p' [= <-]; exact Hsz|]. split; [exact Hmax|]. exists tk.
    rewrite gtb_leb, Hask. auto.
  - destruct (max_trades cfg <=? trade_count s) eqn:Hmax.
    { eexists _, _. split; [reflexivity|]. split; [discriminate|].
      intros (_ & Hlt & _). apply Z.leb_le in Hmax. lia. }
    apply Z.leb_gt in Hmax.
    destruct (tickers s !! contract) as [tk|] eqn:Htk.
    2:{ eexists _, _. split; [reflexivity|]. split; [discriminate|].
        intros (_ & _ & tk & Htk' & _). discriminate. }
    destruct (PyDecimal.leb (ask tk) PyDecimal.zero) eqn:Hask.
    { eexists _, _. split; [reflexivity|]. split; [discriminate|].
      intros (_ & _ & tk' & Htk' & Hgt & _). injection Htk' as <-.
      rewrite gtb_leb, Hask in Hgt. discriminate. }
    eexists _, _. split; [reflexivity|]. split; [|reflexivity]. intros _.
    split; [intros p' Hp'; discriminate|]. split; [exact Hmax|]. exists tk.
    rewrite gtb_leb, Hask. auto.
Qed.

(** ** A broken socket *)

Lemma stalled_refl s : ws s = Some false -> stalled s s.
Proof. unfold stalled. auto. Qed.

Lemma stalled_trans s1 s2 s3 : stalled s1 s2 -> stalled s2 s3 -> stalled s1 s3.
Proof.
  unfold stalled. intros (H1 & H2 & H3 & H4 & _) (K1 & K2 & K3 & K4 & K5).
  rewrite K1, K2, K3, K4. auto.
Qed.

Lemma stalled_of_core s s' :
  ws s = Some false -> core s' = core s -> sent s' = sent s -> stalled s s'.
Proof.
  intros Hws Hc Hs. apply core_fields in Hc.
  destruct Hc as (H1 & H2 & H3 & _ & _ & _ & H7). unfold stalled. rewrite H7. auto.
Qed.

Section Stalled.

Variable E : env.
Variable cfg : config.

Lemma check_trading_opportunities_broken_wp contract s (Q : option unit -> trader -> Prop) :
  ws s = Some false ->
  (forall s', core s' = core s -> sent s' = sent s -> Q (Some tt) s') ->
  wp (check_trading_opportunities E cfg contract) s Q.
Proof.
  intros Hws HQ. unfold check_trading_opportunities. wp_steps.
  destruct (is_running s); cbn [negb]; cbv iota; [|wp_steps; apply HQ; reflexivity].
  wp_step. apply should_place_buy_order_wp. intros should_buy buy_reason _ _.
  cbv beta iota. wp_step.
  apply (wp_mono _ _ (fun r s1 => r = Some tt /\ core s1 = core s /\ sent s1 = sent s)).
  { destruct should_buy; [|wp_steps; auto].
    wp_steps. apply execute_buy_order_bought_wp.
    intros r s1 (b & s0 & [_ Hm] & Hs & Hcase). proj_simpl. rewrite Hws in Hm.
    destruct Hm as [-> Hsent].
    destruct Hcase as [(-> & Hc & _)|(_ & Hb & _)]; [|discriminate Hb].
    wp_steps. split; [reflexivity|]. split; [core_tac|]. congruence. }
  intros r s1 [-> [Hc1 Hs1]].
  wp_step. apply should_place_sell_order_sent_wp. intros should_sell sell_reason s2 Hc2 Hs2.
  cbv beta iota.
  destruct should_sell; [|wp_steps; apply HQ; [core_tac|congruence]].
  wp_steps. apply execute_sell_order_sold_wp.
  intros r s3 [(-> & Hc3 & Hs3 & _)|(_ & p & tk & diff & profit & pct & rec & s0 & H)].
  - wp_steps. apply HQ; [core_tac|]. proj_simpl. congruence.
  - exfalso. destruct H as (_ & _ & _ & _ & _ & _ & _ & _ & _ & _ & _ & _ & _ & [_ Hm] & _).
    proj_simpl. assert (ws s2 = Some false) as Hws2.
    { apply core_fields in Hc1, Hc2. destruct Hc1 as (_&_&_&_&_&_&A). 
      destruct Hc2 as (_&_&_&_&_&_&B). congruence. }
    rewrite Hws2 in Hm. destruct Hm as [Hb _]. discriminate Hb.
Qed.

Lemma on_ticker_stalled tm s :
  ws s = Some false -> stalled s (snd (on_ticker E cfg tm s)).
Proof.
  intros Hws. unfold on_ticker.
  destruct (tm_contract tm) as [contract|]; [|apply stalled_refl; exact Hws].
  destruct (bool_decide (contract ∈ contracts cfg)); [|apply stalled_refl; exact Hws].
  change (wp (bind (update_ticker contract tm)
                (fun _ => check_trading_opportunities E cfg contract)) s
            (fun _ s' => stalled s s')).
  wp_step. apply update_ticker_exact_wp; [apply stalled_refl; exact Hws|].
  intros tk _. apply check_trading_opportunities_broken_wp; [exact Hws|].
  intros s' Hc Hs. apply core_fields in Hc. proj_simpl.
  destruct Hc as (H1 & H2 & H3 & _ & _ & _ & H7). unfold stalled. rewrite H7. auto.
Qed.

Lemma for_each_on_ticker_stalled data s :
  ws s = Some false -> stalled s (snd (for_each (on_ticker E cfg) data s)).
Proof.
  revert s. induction data as [|tm data IH]; intros s Hws; cbn [for_each].
  - apply stalled_refl. exact Hws.
  - pose proof (on_ticker_stalled tm s Hws) as H1. unfold bind.
    destruct (on_ticker E cfg tm s) as [[[]|] s1]; cbn [snd] in *; [|exact H1].
    eapply stalled_trans; [exact H1|]. apply IH. destruct H1 as (_ & _ & _ & _ & H). exact H.
Qed.

Lemma handle_stalled i s : ws s = Some false -> stalled s (exec (handle E cfg i) s).
Proof.
  intros Hws. unfold exec. destruct i as [data| | |]; cbn [handle].
  - unfold on_ticker_message, try_except.
    pose proof (for_each_on_ticker_stalled data s Hws) as H1.
    destruct (for_each (on_ticker E cfg) data s) as [[[]|] s1]; cbn [snd] in *; [exact H1|].
    unfold bind, logger, modify. cbn [snd]. unfold stalled in *. proj_simpl. exact H1.
  - unfold modify. cbn [snd]. rewrite Hws. unfold stalled. proj_simpl. auto.
  - change (wp stop_trading s (fun _ s' => stalled s s')).
    apply stop_trading_sent_wp. intros s' Hc Hs. unfold stopped in Hc.
    apply core_fields in Hc. proj_simpl. rewrite Hws in Hc. cbn [ws_closed] in Hc.
    destruct Hc as (H1 & H2 & H3 & _ & _ & _ & H7). unfold stalled. auto.
  - unfold on_close, bind, logger, modify. cbn [snd]. unfold stalled. proj_simpl. auto.
Qed.

Lemma run_stalled inputs s : ws s = Some false -> stalled s (run E cfg inputs s).
Proof.
  revert s. induction inputs as [|i inputs IH]; intros s Hws.
  - apply stalled_refl. exact Hws.
  - cbn [run fold_left]. pose proof (handle_stalled i s Hws) as H1.
    eapply stalled_trans; [exact H1|]. apply IH. destruct H1 as (_ & _ & _ & _ & H). exact H.
Qed.

End Stalled.

(** X18.  Once the socket is broken it stays broken (nothing reconnects),
    and whatever arrives afterwards no position is opened or closed,
    [trade_count] and the history stay as they are and no frame is sent,
    even though the session may still be marked as running. *)
Theorem X18_broken_socket_stalls_the_session
    (E : env) (cfg : config) (inputs : list input) (s : trader) :
  ws s = Some false ->
  let s' := run E cfg inputs s in
  current_position s' = current_position s /\
  trade_count s' = trade_count s /\
  completed_trades s' = completed_trades s /\
  sent s' = sent s /\
  ws s' = Some false.
Proof. intros Hws. exact (run_stalled E cfg inputs s Hws). Qed.

Lemma X18_witness :
  let s' := run demo_env demo_config [Tickers [ticker_last_100]] holding_socket_down in
  current_position s' = current_position holding_socket_down /\
  trade_count s' = trade_count holding_socket_down /\
  completed_trades s' = completed_trades holding_socket_down /\
  sent s' = sent holding_socket_down /\
  ws s' = Some false.
Proof.
  apply (X18_broken_socket_stalls_the_session demo_env demo_config
           [Tickers [ticker_last_100]] holding_socket_down).
  reflexivity.
Defined.

(** ** The budget stop *)

(** X19.  When a check of a running session leaves it stopped, the same
    call has set the event that ends the heartbeat and closed the
    socket. *)
Theorem X19_budget_stop_closes_the_socket
    (E : env) (cfg : config) (contract : string) (s : trader) :
  is_running s = true ->
  let s' := exec (check_trading_opportunities E cfg contract) s in
  is_running s' = false ->
  event s' = true /\ ws s' = match ws s with Some _ => Some false | None => None end.
Proof.
  intros Hrun s'. subst s'. unfold exec.
  change (wp (check_trading_opportunities E cfg contract) s
    (fun _ s' => is_running s' = false ->
                 event s' = true /\
                 ws s' = match ws s with Some _ => Some false | None => None end)).
  apply check_trading_opportunities_wp. intros s' Hch Hstop.
  unfold checked in Hch. rewrite Hrun in Hch. destruct Hch as (s1 & H1 & H2).
  assert (is_running s1 = true /\ ws s1 = ws s) as [Hrun1 Hws1].
  { destruct H1 as [H1|(_ & _ & tk & t & _ & _ & H1)]; [|unfold opened in H1];
      apply core_fields in H1; proj_simpl; destruct H1 as (_ & _ & _ & -> & _ & _ & ->);
      auto. }
  destruct H2 as [H2|(p & tk & r & _ & _ & _ & _ & _ & _ & _ & H2)].
  - apply core_fields in H2. destruct H2 as (_ & _ & _ & Hr & _). congruence.
  - destruct (max_trades cfg <=? trade_count s1 + 1);
      unfold stopped, closed in H2; apply core_fields in H2; proj_simpl;
      destruct H2 as (_ & _ & _ & Hr & He & _ & Hw).
    + rewrite He, Hw, Hws1. split; [reflexivity|]. destruct (ws s); reflexivity.
    + congruence.
Qed.

Lemma X19_witness :
  let s' := exec (check_trading_opportunities demo_env demo_config "BTC_USDT")
              (holding_at_100 (PyDecimal.mk false 9995 (-2))) in
  event s' = true /\
  ws s' = match ws (holding_at_100 (PyDecimal.mk false 9995 (-2))) with
          | Some _ => Some false
          | None => None
          end.
Proof.
  apply (X19_budget_stop_closes_the_socket demo_env demo_config "BTC_USDT"
           (holding_at_100 (PyDecimal.mk false 9995 (-2)))).
  - reflexivity.
  - vm_compute. reflexivity.
Defined.

(** ** The sign of a spread *)

Lemma pow10_pos k : 0 <= k -> 0 < 10 ^ k.
Proof. intros. apply Z.pow_pos_nonneg; lia. Qed.

Lemma signed_zero (d : decimal) : PyDecimal.coeff d = 0 -> PyDecimal.signed d = 0.
Proof. unfold PyDecimal.signed. intros ->. destruct (PyDecimal.sign d); reflexivity. Qed.

(** A decimal above zero has a signed coefficient above zero. *)
Lemma positive_signed (d : decimal) :
  PyDecimal.leb d PyDecimal.zero = false <-> 0 < PyDecimal.signed d.
Proof.
  unfold PyDecimal.leb, PyDecimal.cmp. cbn [PyDecimal.zero PyDecimal.expo PyDecimal.signed
    PyDecimal.sign PyDecimal.coeff]. rewrite Z.mul_0_l.
  set (k := PyDecimal.expo d - Z.min (PyDecimal.expo d) 0).
  assert (0 < 10 ^ k) as Hk by (apply pow10_pos; lia).
  destruct (Z.compare_spec (PyDecimal.signed d * 10 ^ k) 0) as [H|H|H];
    split; intros H'; try discriminate; try reflexivity; nia.
Qed.

Lemma nonnegative_signed (d : decimal) :
  PyDecimal.leb PyDecimal.zero d = true <-> 0 <= PyDecimal.signed d.
Proof.
  unfold PyDecimal.leb, PyDecimal.cmp. cbn [PyDecimal.zero PyDecimal.expo PyDecimal.signed
    PyDecimal.sign PyDecimal.coeff]. rewrite Z.mul_0_l.
  set (k := PyDecimal.expo d - Z.min 0 (PyDecimal.expo d)).
  assert (0 < 10 ^ k) as Hk by (apply pow10_pos; lia).
  destruct (Z.compare_spec 0 (PyDecimal.signed d * 10 ^ k)) as [H|H|H];
    split; intros H'; try discriminate; try reflexivity; nia.
Qed.

(** A zero is at most any decimal that is not negative. *)
Lemma leb_zero_coeff (v limit : decimal) :
  PyDecimal.coeff v = 0 ->
  PyDecimal.leb PyDecimal.zero limit = true ->
  PyDecimal.leb v limit = true.
Proof.
  intros Hv Hl. apply nonnegative_signed in Hl.
  unfold PyDecimal.leb, PyDecimal.cmp. rewrite (signed_zero v Hv), Z.mul_0_l.
  set (k := PyDecimal.expo limit - Z.min (PyDecimal.expo v) (PyDecimal.expo limit)).
  assert (0 < 10 ^ k) as Hk by (apply pow10_pos; lia).
  destruct (Z.compare_spec 0 (PyDecimal.signed limit * 10 ^ k)); try reflexivity; nia.
Qed.

Lemma fix_zero s e :
  exists e', PyDecimal.fix_ (PyDecimal.mk s 0 e) = Some (PyDecimal.mk s 0 e').
Proof. eexists. reflexivity. Qed.

Lemma if_nonneg (b : bool) (x y : Z) : 0 <= x -> 0 <= y -> 0 <= (if b then x else y).
Proof. destruct b; auto. Qed.

(** Rounding keeps the sign, and a coefficient that is not negative stays
    so. *)
Lemma fix_nonneg (d d' : decimal) :
  PyDecimal.fix_ d = Some d' ->
  0 <= PyDecimal.coeff d ->
  PyDecimal.sign d' = PyDecimal.sign d /\ 0 <= PyDecimal.coeff d'.
Proof.
  unfold PyDecimal.fix_. intros H Hc.
  destruct (PyDecimal.is_zero d).
  { injection H as <-. split; [reflexivity|]. cbn. lia. }
  destruct (PyDecimal.Etop <? _); [discriminate|].
  destruct (PyDecimal.expo d <? _).
  2:{ injection H as <-. auto. }
  cbv zeta in H.
  match type of H with
  | (if PyDecimal.Etop <? ?e then _ else _) = _ => destruct (PyDecimal.Etop <? e)
  end; [discriminate|].
  injection H as <-. cbn [PyDecimal.sign PyDecimal.coeff]. split; [reflexivity|].
  set (q := _ / 10 ^ _).
  assert (0 <= q) as Hq.
  { apply Z_div_nonneg_nonneg; [apply if_nonneg; lia|]. apply Z.pow_nonneg. lia. }
  apply if_nonneg; [apply Z.div_pos; [apply if_nonneg; lia|lia]|apply if_nonneg; lia].
Qed.

Lemma to_ideal_nonneg fuel c e ideal :
  0 <= c -> 0 <= fst (PyDecimal.to_ideal fuel c e ideal).
Proof.
  revert c e. induction fuel as [|fuel IH]; intros c e Hc; cbn [PyDecimal.to_ideal].
  - exact Hc.
  - destruct ((e <? ideal) && (c mod 10 =? 0)); [|exact Hc].
    apply IH. apply Z.div_pos; lia.
Qed.

Lemma div_nonneg (a b r : decimal) :
  PyDecimal.div a b = Some r ->
  0 <= PyDecimal.coeff a -> 0 <= PyDecimal.coeff b ->
  PyDecimal.sign r = xorb (PyDecimal.sign a) (PyDecimal.sign b) /\ 0 <= PyDecimal.coeff r.
Proof.
  unfold PyDecimal.div. intros H Ha Hb. cbv zeta in H.
  destruct (PyDecimal.is_zero b); [discriminate|].
  destruct (PyDecimal.is_zero a).
  { apply fix_nonneg in H; [exact H|]. cbn. lia. }
  set (shift := PyDecimal.ndigits (PyDecimal.coeff b) - PyDecimal.ndigits (PyDecimal.coeff a)
                + PyDecimal.prec + 1) in *.
  destruct (0 <=? shift).
  - assert (0 <= PyDecimal.coeff a * 10 ^ shift / PyDecimal.coeff b) as Hq.
    { apply Z_div_nonneg_nonneg; [|exact Hb].
      apply Z.mul_nonneg_nonneg; [exact Ha|]. apply Z.pow_nonneg. lia. }
    destruct (negb _).
    + apply fix_nonneg in H; [exact H|]. cbn [PyDecimal.coeff]. destruct (_ =? 0); lia.
    + destruct (PyDecimal.to_ideal _ _ _ _) as [c' e'] eqn:Hi.
      apply fix_nonneg in H; [exact H|]. cbn [PyDecimal.coeff].
      change c' with (fst (c', e')). rewrite <- Hi. apply to_ideal_nonneg. exact Hq.
  - assert (0 <= PyDecimal.coeff a / (PyDecimal.coeff b * 10 ^ (- shift))) as Hq.
    { apply Z_div_nonneg_nonneg; [exact Ha|].
      apply Z.mul_nonneg_nonneg; [exact Hb|]. apply Z.pow_nonneg. lia. }
    destruct (negb _).
    + apply fix_nonneg in H; [exact H|]. cbn [PyDecimal.coeff]. destruct (_ =? 0); lia.
    + destruct (PyDecimal.to_ideal _ _ _ _) as [c' e'] eqn:Hi.
      apply fix_nonneg in H; [exact H|]. cbn [PyDecimal.coeff].
      change c' with (fst (c', e')). rewrite <- Hi. apply to_ideal_nonneg. exact Hq.
Qed.

Lemma nonneg_leb (v : decimal) :
  PyDecimal.sign v = false -> 0 <= PyDecimal.coeff v ->
  PyDecimal.leb PyDecimal.zero v = true.
Proof.
  intros Hs Hc. apply nonnegative_signed. unfold PyDecimal.signed. rewrite Hs. exact Hc.
Qed.

(** The value [calculate_spread_percentage] returns is never below zero
    when the reference price is a well-formed decimal. *)
Lemma calculate_spread_percentage_nonneg cur entry s :
  0 <= PyDecimal.coeff entry ->
  exists v, fst (calculate_spread_percentage cur entry s) = Some v /\
            PyDecimal.sign v = false /\ 0 <= PyDecimal.coeff v.
Proof.
  intros Hc.
  unfold calculate_spread_percentage, try_except, bind, lift, ret, raise, logger, modify.
  destruct (PyDecimal.leb entry PyDecimal.zero) eqn:Hle.
  { eexists. split; [reflexivity|]. cbn. split; [reflexivity|lia]. }
  apply positive_signed in Hle. unfold PyDecimal.signed in Hle.
  assert (PyDecimal.sign entry = false) as Hse by (destruct (PyDecimal.sign entry); [lia|reflexivity]).
  destruct (PyDecimal.sub cur entry) as [diff|] eqn:Hsub; cbn [fst snd].
  2:{ eexists. split; [reflexivity|]. cbn. split; [reflexivity|lia]. }
  unfold PyDecimal.sub in Hsub. cbv zeta in Hsub.
  apply fix_nonneg in Hsub; [|cbn [PyDecimal.coeff]; lia]. destruct Hsub as [_ Hd].
  destruct (PyDecimal.abs diff) as [spread|] eqn:Habs; cbn [fst snd].
  2:{ eexists. split; [reflexivity|]. cbn. split; [reflexivity|lia]. }
  unfold PyDecimal.abs in Habs. apply fix_nonneg in Habs; [|exact Hd].
  cbn [PyDecimal.sign] in Habs. destruct Habs as [Hss Hsc].
  destruct (PyDecimal.div spread entry) as [ratio|] eqn:Hdiv; cbn [fst snd].
  2:{ eexists. split; [reflexivity|]. cbn. split; [reflexivity|lia]. }
  apply div_nonneg in Hdiv; [|exact Hsc|exact Hc]. rewrite Hss, Hse in Hdiv.
  cbn [xorb] in Hdiv. destruct Hdiv as [Hrs Hrc].
  destruct (PyDecimal.mul ratio PyDecimal.hundred) as [pct|] eqn:Hmul; cbn [fst snd].
  2:{ eexists. split; [reflexivity|]. cbn. split; [reflexivity|lia]. }
  unfold PyDecimal.mul in Hmul. apply fix_nonneg in Hmul.
  2:{ cbn [PyDecimal.coeff PyDecimal.hundred]. lia. }
  cbn [PyDecimal.sign PyDecimal.hundred] in Hmul. rewrite Hrs in Hmul. cbn [xorb] in Hmul.
  exists pct. split; [reflexivity|]. exact Hmul.
Qed.

(** X20.  [calculate_spread_percentage] always returns, and for a
    well-formed reference price (a coefficient that is not negative) the
    value it returns is never below zero: the direction of the move is
    lost, a bid above the entry and a bid below it give a spread of the
    same sign. *)
Theorem X20_spread_is_never_negative (cur entry : decimal) (s : trader) :
  0 <= PyDecimal.coeff entry ->
  exists v, fst (calculate_spread_percentage cur entry s) = Some v /\
            PyDecimal.leb PyDecimal.zero v = true.
Proof.
  intros Hc. destruct (calculate_spread_percentage_nonneg cur entry s Hc) as (v & Hv & Hs & Hn).
  exists v. split; [exact Hv|]. apply nonneg_leb; assumption.
Qed.

Lemma X20_witness :
  exists v, fst (calculate_spread_percentage (PyDecimal.mk false 9995 (-2))
                   (PyDecimal.mk false 100 0) init) = Some v /\
            PyDecimal.leb PyDecimal.zero v = true.
Proof.
  apply (X20_spread_is_never_negative (PyDecimal.mk false 9995 (-2))
           (PyDecimal.mk false 100 0) init).
  cbn. lia.
Defined.

(** ** A bid at the entry price *)

(** The four steps of the spread of a price against an equal reference
    price: every intermediate result is a zero. *)
Lemma spread_steps_of_equal (cur entry : decimal) :
  PyDecimal.eqb cur entry = true ->
  PyDecimal.leb entry PyDecimal.zero = false ->
  exists diff spread ratio pct,
    PyDecimal.sub cur entry = Some diff /\
    PyDecimal.abs diff = Some spread /\
    PyDecimal.div spread entry = Some ratio /\
    PyDecimal.mul ratio PyDecimal.hundred = Some pct /\
    PyDecimal.coeff pct = 0.
Proof.
  intros Heq Hpos. apply positive_signed in Hpos.
  assert (PyDecimal.is_zero entry = false) as Hnz.
  { unfold PyDecimal.is_zero. apply Z.eqb_neq. intros H0.
    rewrite (signed_zero entry H0) in Hpos. lia. }
  unfold PyDecimal.eqb, PyDecimal.cmp in Heq.
  destruct (Z.compare_spec
              (PyDecimal.signed cur
               * 10 ^ (PyDecimal.expo cur - Z.min (PyDecimal.expo cur) (PyDecimal.expo entry)))
              (PyDecimal.signed entry
               * 10 ^ (PyDecimal.expo entry - Z.min (PyDecimal.expo cur) (PyDecimal.expo entry))))
    as [Hv|Hv|Hv]; try discriminate.
  eexists _, _, _, _.
  split.
  { unfold PyDecimal.sub. cbv zeta. rewrite Hv, Z.sub_diag. cbn [Z.eqb Z.abs]. reflexivity. }
  split.
  { unfold PyDecimal.abs. cbn [PyDecimal.coeff PyDecimal.expo]. reflexivity. }
  split.
  { unfold PyDecimal.div. cbv zeta. rewrite Hnz.
    cbn [PyDecimal.is_zero PyDecimal.coeff Z.eqb]. reflexivity. }
  split.
  { unfold PyDecimal.mul. cbn [PyDecimal.coeff Z.mul]. reflexivity. }
  reflexivity.
Qed.

Lemma calculate_spread_percentage_of_equal (cur entry : decimal) (s : trader) :
  PyDecimal.eqb cur entry = true ->
  PyDecimal.leb entry PyDecimal.zero = false ->
  exists v, calculate_spread_percentage cur entry s = (Some v, s) /\ PyDecimal.coeff v = 0.
Proof.
  intros Heq Hpos.
  destruct (spread_steps_of_equal cur entry Heq Hpos)
    as (diff & spread & ratio & pct & H1 & H2 & H3 & H4 & H5).
  exists pct. split; [|exact H5].
  unfold calculate_spread_percentage, try_except, bind, lift, ret.
  rewrite Hpos, H1. cbn [fst snd]. rewrite H2. cbn [fst snd]. rewrite H3. cbn [fst snd].
  rewrite H4. reflexivity.
Qed.

(** Two decimals of the same value are above zero together. *)
Lemma eqb_positive (a b : decimal) :
  PyDecimal.eqb a b = true ->
  PyDecimal.leb a PyDecimal.zero = false ->
  PyDecimal.leb b PyDecimal.zero = false.
Proof.
  intros Heq Ha. apply positive_signed in Ha. apply positive_signed.
  unfold PyDecimal.eqb, PyDecimal.cmp in Heq.
  set (ka := PyDecimal.expo a - Z.min (PyDecimal.expo a) (PyDecimal.expo b)) in *.
  set (kb := PyDecimal.expo b - Z.min (PyDecimal.expo a) (PyDecimal.expo b)) in *.
  assert (0 < 10 ^ ka) by (apply pow10_pos; lia).
  assert (0 < 10 ^ kb) by (apply pow10_pos; lia).
  destruct (Z.compare_spec (PyDecimal.signed a * 10 ^ ka) (PyDecimal.signed b * 10 ^ kb))
    as [Hv|Hv|Hv]; try discriminate.
  nia.
Qed.

(** X21.  For finite prices: a held position whose cached bid has the
    value of its entry price (whatever the number of trailing zeros of
    either) has a spread of zero, and [should_place_sell_order] answers
    [True] with it for every threshold that is not negative, the threshold
    zero included; the object is not changed and nothing is logged.  (An
    infinite bid, which the cache can hold in the source, is not a
    [decimal] here: there the difference raises and the sentinel 1.0
    decides.) *)
Theorem X21_bid_at_entry_price_sells
    (cfg : config) (s : trader) (contract : string) (p : position) (tk : ticker)
    (limit : decimal) :
  current_position s !! contract = Some p -> 0 < size p ->
  tickers s !! contract = Some tk ->
  PyDecimal.gtb (bid tk) PyDecimal.zero = true ->
  PyDecimal.eqb (bid tk) (entry_price p) = true ->
  PyDecimal.mul (spread_threshold cfg) PyDecimal.hundred = Some limit ->
  PyDecimal.leb PyDecimal.zero limit = true ->
  exists spread_pct,
    should_place_sell_order cfg contract s = (Some (true, CanSell spread_pct), s) /\
    PyDecimal.is_zero spread_pct = true.
Proof.
  intros Hp Hsz Htk Hbid Heq Hlim Hnn.
  rewrite gtb_leb in Hbid. apply negb_true_iff in Hbid.
  pose proof (eqb_positive _ _ Heq Hbid) as Hentry.
  destruct (calculate_spread_percentage_of_equal (bid tk) (entry_price p) s Heq Hentry)
    as (v & Hcalc & Hv).
  exists v. split; [|unfold PyDecimal.is_zero; rewrite Hv; reflexivity].
  unfold should_place_sell_order, try_except, bind, get_self, lift, ret.
  rewrite Hp. apply Z.leb_gt in Hsz. rewrite Hsz, Htk, Hbid, Hcalc. cbn [fst snd].
  rewrite Hlim. cbn [fst snd]. rewrite (leb_zero_coeff v limit Hv Hnn). reflexivity.
Qed.

Lemma X21_witness :
  exists spread_pct,
    should_place_sell_order demo_config "BTC_USDT"
      (holding_at_100 (PyDecimal.mk false 1000 (-1)))
    = (Some (true, CanSell spread_pct), holding_at_100 (PyDecimal.mk false 1000 (-1))) /\
    PyDecimal.is_zero spread_pct = true.
Proof.
  apply (X21_bid_at_entry_price_sells demo_config
           (holding_at_100 (PyDecimal.mk false 1000 (-1))) "BTC_USDT"
           {| size := 1; entry_price := PyDecimal.mk false 100 0; entry_time := 0 |}
           {| last := PyDecimal.mk false 100 0; bid := PyDecimal.mk false 1000 (-1);
              ask := PyDecimal.mk false 1000100 (-4);
              volume := PyDecimal.zero; change_24h := PyDecimal.zero;
              mark_price := PyDecimal.mk false 100 0;
              index_price := PyDecimal.mk false 100 0 |}
           (PyDecimal.mk false 500 (-4))).
  - reflexivity.
  - cbn. lia.
  - reflexivity.
  - reflexivity.
  - reflexivity.
  - reflexivity.
  - reflexivity.
Defined.
